(** * reviewer-mcp: the context-aware finding pipeline

  A shallow embedding of the intent classifier, the pattern detectors, the
  confidence scorer, the issue categorizer and the comment renderer of the
  code-review server, followed by the properties the design document
  states about them.

  Modelling conventions.
  - A JavaScript string is a [string]: a sequence of 8-bit characters, a
    non-ASCII glyph being the run of its UTF-8 bytes.  Case mapping and the
    character classes of regular expressions act on the ASCII range only;
    a statement that compares a string with its upper-case form is made
    for ASCII strings, where these maps are those of JavaScript.
  - An object property that may be absent is an [option]; JavaScript
    truthiness of such a property is written out ([truthy]).
  - A number is an integer or NaN ([JSNum]); the one division of the scorer
    is carried out on rationals and floored.
  - [Map] objects are finite maps ([gmap]) threaded through the calls that
    mutate them. *)

From Stdlib Require Import ZArith QArith Qround Ascii String List Bool Lia.
From Stdlib Require Import DecimalString Sorting.Sorted Sorting.Permutation.
From stdpp Require Import gmap strings.

Local Open Scope Z_scope.

(** ** JavaScript strings *)

Module JSString.

Definition dquote : ascii := "034"%char.
Definition squote : ascii := "039"%char.
Definition newline : ascii := "010"%char.
Definition backslash : ascii := "092"%char.
Definition slash : ascii := "047"%char.

Definition chr (c : ascii) : string := String c EmptyString.
Definition nl : string := chr newline.
Definition dq : string := chr dquote.

Definition code (c : ascii) : N := N_of_ascii c.

Definition inRange (lo hi : N) (c : ascii) : bool :=
  (N.leb lo (code c)) && (N.leb (code c) hi).

Definition isUpper (c : ascii) : bool := inRange 65 90 c.
Definition isLower (c : ascii) : bool := inRange 97 122 c.
Definition isDigit (c : ascii) : bool := inRange 48 57 c.

(** [\w]: letters, digits and the underscore. *)
Definition isWordChar (c : ascii) : bool :=
  isUpper c || isLower c || isDigit c || N.eqb (code c) 95.

(** [\s] on the ASCII range: tab, line feed, vertical tab, form feed,
    carriage return, space. *)
Definition isSpace (c : ascii) : bool :=
  inRange 9 13 c || N.eqb (code c) 32.

(** Line terminators, which [.] does not match. *)
Definition isLineTerminator (c : ascii) : bool :=
  N.eqb (code c) 10 || N.eqb (code c) 13.

Definition lowerChar (c : ascii) : ascii :=
  if isUpper c then ascii_of_N (code c + 32) else c.

Definition upperChar (c : ascii) : ascii :=
  if isLower c then ascii_of_N (code c - 32) else c.

(** [s.toLowerCase()] *)
Fixpoint toLowerCase (s : string) : string :=
  match s with
  | EmptyString => EmptyString
  | String c s' => String (lowerChar c) (toLowerCase s')
  end.

(** [s.toUpperCase()] *)
Fixpoint toUpperCase (s : string) : string :=
  match s with
  | EmptyString => EmptyString
  | String c s' => String (upperChar c) (toUpperCase s')
  end.

(** [s.startsWith(p)] *)
Fixpoint startsWith (s p : string) : bool :=
  match p, s with
  | EmptyString, _ => true
  | String _ _, EmptyString => false
  | String a p', String b s' => Ascii.eqb a b && startsWith s' p'
  end.

(** [s.includes(p)] *)
Fixpoint includes (s p : string) : bool :=
  startsWith s p ||
  match s with
  | EmptyString => false
  | String _ s' => includes s' p
  end.

(** [s.endsWith(p)] *)
Fixpoint endsWith (s p : string) : bool :=
  String.eqb s p ||
  match s with
  | EmptyString => false
  | String _ s' => endsWith s' p
  end.

(** [s.replace(/a/g, b)] for a one-character pattern. *)
Fixpoint replaceChar (a b : ascii) (s : string) : string :=
  match s with
  | EmptyString => EmptyString
  | String c s' =>
      String (if Ascii.eqb c a then b else c) (replaceChar a b s')
  end.

(** [s.split(sep)] for a one-character separator; the result is never
    empty. *)
Fixpoint split (sep : ascii) (s : string) : list string :=
  match s with
  | EmptyString => [EmptyString]
  | String c s' =>
      if Ascii.eqb c sep then EmptyString :: split sep s'
      else match split sep s' with
           | [] => [chr c]
           | w :: ws => String c w :: ws
           end
  end.

(** [arr.includes(x)] on an array of strings. *)
Definition arrIncludes (arr : list string) (x : string) : bool :=
  existsb (String.eqb x) arr.

(** Truthiness of an optional string property: present and non-empty. *)
Definition truthy (o : option string) : bool :=
  match o with
  | Some (String _ _) => true
  | _ => false
  end.

(** [String(n)] for an integer [n]. *)
Definition ofZ (z : Z) : string := NilZero.string_of_int (Z.to_int z).

(** [arr.join(sep)] on an array of strings. *)
Fixpoint join (sep : string) (parts : list string) : string :=
  match parts with
  | [] => EmptyString
  | [part] => part
  | part :: parts' => part +:+ sep +:+ join sep parts'
  end.

End JSString.

(** ** Regular expressions

  A backtracking matcher in continuation-passing style, with the
  priorities of the JavaScript engine: alternatives left to right,
  quantifiers greedy.  Only the constructs the source uses are present. *)

Module Regex.
Import JSString.

Inductive CharItem : Type :=
| Lit (c : ascii)
| Range (lo hi : ascii)
| Digit
| Word
| Space.

Inductive t : Type :=
| Empty
| Chr (c : ascii)
| Str (s : string)
| Any
| Class (items : list CharItem)
| NClass (items : list CharItem)
| Seq (r1 r2 : t)
| Alt (r1 r2 : t)
| Star (r : t)
| Plus (r : t)
| Opt (r : t)
| Times (n : nat) (r : t)
| Group (n : nat) (r : t)
| Bol
| Eol
| WordB.

Definition Captures : Type := list (nat * string).

Record MState : Type := mkMState {
  rest : string;
  prev : option ascii;
  caps : Captures
}.

Definition itemHas (i : CharItem) (c : ascii) : bool :=
  match i with
  | Lit a => Ascii.eqb a c
  | Range lo hi => inRange (code lo) (code hi) c
  | Digit => isDigit c
  | Word => isWordChar c
  | Space => isSpace c
  end.

(** With the [i] flag a character matches when one of its two case forms
    does. *)
Definition charEq (ic : bool) (a c : ascii) : bool :=
  if ic then Ascii.eqb (upperChar a) (upperChar c) else Ascii.eqb a c.

Definition classHas (ic : bool) (items : list CharItem) (c : ascii) : bool :=
  existsb (fun i =>
    if ic then itemHas i (lowerChar c) || itemHas i (upperChar c)
    else itemHas i c) items.

Definition step (p : ascii -> bool) (st : MState)
    (k : MState -> option Captures) : option Captures :=
  match rest st with
  | String c s' =>
      if p c then k (mkMState s' (Some c) (caps st)) else None
  | EmptyString => None
  end.

Definition orElse (a : option Captures) (b : unit -> option Captures)
    : option Captures :=
  match a with
  | Some c => Some c
  | None => b tt
  end.

Definition isWordOpt (o : option ascii) : bool :=
  match o with
  | Some c => isWordChar c
  | None => false
  end.

Definition nextChar (s : string) : option ascii :=
  match s with
  | String c _ => Some c
  | EmptyString => None
  end.

Definition consumed (before after : MState) : string :=
  String.substring 0
    (String.length (rest before) - String.length (rest after))
    (rest before).

Definition shorter (a b : MState) : bool :=
  Nat.ltb (String.length (rest a)) (String.length (rest b)).

Fixpoint run (ic : bool) (r : t) (st : MState)
    (k : MState -> option Captures) {struct r} : option Captures :=
  match r with
  | Empty => k st
  | Chr a => step (charEq ic a) st k
  | Str s =>
      (fix lit (s : string) (st : MState) : option Captures :=
         match s with
         | EmptyString => k st
         | String a s' => step (charEq ic a) st (lit s')
         end) s st
  | Any => step (fun c => negb (isLineTerminator c)) st k
  | Class items => step (classHas ic items) st k
  | NClass items => step (fun c => negb (classHas ic items c)) st k
  | Seq r1 r2 => run ic r1 st (fun st' => run ic r2 st' k)
  | Alt r1 r2 => orElse (run ic r1 st k) (fun _ => run ic r2 st k)
  | Star r' =>
      (fix loop (fuel : nat) (st : MState) : option Captures :=
         match fuel with
         | O => k st
         | S fuel' =>
             orElse
               (run ic r' st (fun st' =>
                  if shorter st' st then loop fuel' st' else None))
               (fun _ => k st)
         end) (String.length (rest st)) st
  | Plus r' =>
      run ic r' st (fun st1 =>
        (fix loop (fuel : nat) (st : MState) : option Captures :=
           match fuel with
           | O => k st
           | S fuel' =>
               orElse
                 (run ic r' st (fun st' =>
                    if shorter st' st then loop fuel' st' else None))
                 (fun _ => k st)
           end) (String.length (rest st1)) st1)
  | Opt r' => orElse (run ic r' st k) (fun _ => k st)
  | Times n r' =>
      (fix rep (n : nat) (st : MState) : option Captures :=
         match n with
         | O => k st
         | S n' => run ic r' st (rep n')
         end) n st
  | Group n r' =>
      run ic r' st (fun st' =>
        k (mkMState (rest st') (prev st')
             ((n, consumed st st') :: caps st')))
  | Bol => match prev st with None => k st | Some _ => None end
  | Eol => match rest st with EmptyString => k st | String _ _ => None end
  | WordB =>
      if xorb (isWordOpt (prev st)) (isWordOpt (nextChar (rest st)))
      then k st else None
  end.

(** One attempt at every start position, left to right. *)
Fixpoint searchFrom (ic : bool) (r : t) (p : option ascii) (s : string)
    : option Captures :=
  orElse (run ic r (mkMState s p []) (fun st => Some (caps st)))
    (fun _ =>
       match s with
       | String c s' => searchFrom ic r (Some c) s'
       | EmptyString => None
       end).

(** [s.match(/r/)] (or [/r/i] when [ic] is set): the captures of the first
    match. *)
Definition exec (ic : bool) (r : t) (s : string) : option Captures :=
  searchFrom ic r None s.

(** [/r/.test(s)] *)
Definition test (ic : bool) (r : t) (s : string) : bool :=
  match exec ic r s with Some _ => true | None => false end.

(** The substring captured by group [n]; [None] when the group took no
    part in the match. *)
Fixpoint capture (n : nat) (cs : Captures) : option string :=
  match cs with
  | [] => None
  | (m, s) :: cs' => if Nat.eqb m n then Some s else capture n cs'
  end.

Definition seqs (rs : list t) : t := fold_right Seq Empty rs.

Fixpoint alts (rs : list t) : t :=
  match rs with
  | [] => NClass [Range "000"%char "255"%char]
  | [r] => r
  | r :: rs' => Alt r (alts rs')
  end.

Definition strs (ss : list string) : t := alts (map Str ss).

End Regex.

(** ** Completions: a value, or a thrown exception *)

Inductive Completion (A : Type) : Type :=
| Normal (a : A)
| Throw (error : string).

Arguments Normal {A} a.
Arguments Throw {A} error.

Definition bindC {A B : Type} (c : Completion A) (f : A -> Completion B)
    : Completion B :=
  match c with
  | Normal a => f a
  | Throw e => Throw e
  end.

(** ** analyzers/intent-analyzer.js *)

Module IntentAnalyzer.
Import JSString.
Import Regex.

Inductive FileType : Type :=
| Production | Test | Mock | Config | Migration | Script | Types | Build.

Definition fileTypeName (t : FileType) : string :=
  match t with
  | Production => "production" | Test => "test" | Mock => "mock"
  | Config => "config" | Migration => "migration" | Script => "script"
  | Types => "types" | Build => "build"
  end.

Record FileIntent : Type := mkFileIntent {
  type : FileType;
  purpose : option string;
  isProduction : bool;
  isTestFile : bool;
  isConfigFile : bool;
  isMigrationFile : bool;
  allowedPatterns : list string;
  strictnessLevel : string;
  maxFunctionLength : Z;
  maxComplexity : Z
}.

(** The regular expressions of [detectFileType], in source order. *)

(* /\.(test|spec)\.(js|ts|jsx|tsx|py|java|go|rb)$/ *)
Definition reTestSuffix : Regex.t :=
  seqs [Chr "."; Group 1 (strs ["test"; "spec"]); Chr ".";
        Group 2 (strs ["js"; "ts"; "jsx"; "tsx"; "py"; "java"; "go"; "rb"]);
        Eol].

(* /^\.?[a-z]*rc\.(js|json|yaml|yml)$/ *)
Definition reRcFile : Regex.t :=
  seqs [Bol; Opt (Chr "."); Star (Class [Range "a" "z"]); Str "rc";
        Chr "."; Group 1 (strs ["js"; "json"; "yaml"; "yml"]); Eol].

(* /\.(config|conf)\.(js|ts|json)$/ *)
Definition reConfigSuffix : Regex.t :=
  seqs [Chr "."; Group 1 (strs ["config"; "conf"]); Chr ".";
        Group 2 (strs ["js"; "ts"; "json"]); Eol].

(* /^(config|configuration)\// *)
Definition reConfigDir : Regex.t :=
  seqs [Bol; Group 1 (strs ["config"; "configuration"]); Chr slash].

(* /\d{4}_\d{2}_\d{2}_.*\.(js|sql|py)/ *)
Definition reDatedMigration : Regex.t :=
  seqs [Times 4 (Class [Digit]); Chr "_"; Times 2 (Class [Digit]); Chr "_";
        Times 2 (Class [Digit]); Chr "_"; Star Any; Chr ".";
        Group 1 (strs ["js"; "sql"; "py"])].

(* /^scripts?\// *)
Definition reScriptDir : Regex.t :=
  seqs [Bol; Str "script"; Opt (Chr "s"); Chr slash].

(* /\.(sh|bash)$/ *)
Definition reShell : Regex.t :=
  seqs [Chr "."; Group 1 (strs ["sh"; "bash"]); Eol].

(* /^(webpack|vite|rollup|babel)\./ *)
Definition reBuildTool : Regex.t :=
  seqs [Bol; Group 1 (strs ["webpack"; "vite"; "rollup"; "babel"]); Chr "."].

(** [filename.toLowerCase().replace(/\\/g, '/')] *)
Definition normalizePath (filename : string) : string :=
  replaceChar backslash slash (toLowerCase filename).

Definition detectFileType (filename : string) : FileType :=
  let normalizedPath := normalizePath filename in
  (* Test files *)
  if Regex.test false reTestSuffix normalizedPath then Test
  else if includes normalizedPath "__tests__/"
          || includes normalizedPath "/tests/" then Test
  (* Mock files *)
  else if includes normalizedPath "__mocks__/"
          || includes normalizedPath "__fixtures__/" then Mock
  (* Config files *)
  else if Regex.test false reRcFile normalizedPath then Config
  else if Regex.test false reConfigSuffix normalizedPath then Config
  else if Regex.test false reConfigDir normalizedPath then Config
  else if String.eqb normalizedPath ".env"
          || endsWith normalizedPath ".env.example" then Config
  (* Migration files *)
  else if includes normalizedPath "/migrations/"
          || includes normalizedPath "/migrate/" then Migration
  else if Regex.test false reDatedMigration normalizedPath then Migration
  (* Script files *)
  else if Regex.test false reScriptDir normalizedPath then Script
  else if Regex.test false reShell normalizedPath then Script
  (* Type definition files *)
  else if endsWith normalizedPath ".d.ts"
          || includes normalizedPath "/types/" then Types
  (* Build/tooling files *)
  else if Regex.test false reBuildTool normalizedPath then Build
  (* Production code (default) *)
  else Production.

Definition detectFilePurpose (filename content : string) : option string :=
  if negb (truthy (Some content)) then None
  else if includes content "// DEBUG" || includes content "// TEMPORARY"
  then Some "debug"
  else if includes content "// EXPERIMENTAL"
          || includes filename "experiment"
  then Some "experimental"
  else None.

Definition getAllowedPatterns (fileType : FileType) : list string :=
  match fileType with
  | Test => ["console.log"; "console.debug"; "magic-numbers"; "any-type";
             "mock-data"; "hardcoded-values"]
  | Mock => ["console.log"; "magic-numbers"; "unused-variables";
             "hardcoded-values"]
  | Config => ["magic-numbers"; "no-validation"; "hardcoded-values"]
  | Migration => ["raw-sql"; "no-rollback"; "magic-numbers"]
  | Script => ["console.log"; "process.exit"; "magic-numbers"]
  | Types => ["no-implementation"; "any-type"]
  | Build => ["magic-numbers"; "require-calls"]
  | Production => []
  end.

Definition getStrictnessLevel (fileType : FileType) : string :=
  match fileType with
  | Production => "strict" | Test => "lenient" | Mock => "lenient"
  | Config => "moderate" | Migration => "moderate" | Script => "lenient"
  | Types => "strict" | Build => "moderate"
  end.

Definition getMaxFunctionLength (fileType : FileType) : Z :=
  match fileType with
  | Production => 50 | Test => 100 | Mock => 150 | Config => 200
  | Migration => 200 | Script => 100 | Types => 50 | Build => 150
  end.

Definition getMaxComplexity (fileType : FileType) : Z :=
  match fileType with
  | Production => 10 | Test => 15 | Mock => 20 | Config => 5
  | Migration => 15 | Script => 12 | Types => 5 | Build => 15
  end.

Definition fileTypeEqb (a b : FileType) : bool :=
  String.eqb (fileTypeName a) (fileTypeName b).

Definition analyzeFileIntent (filename content : string) : FileIntent :=
  let type := detectFileType filename in
  let purpose := detectFilePurpose filename content in
  {| type := type;
     purpose := purpose;
     isProduction := fileTypeEqb type Production;
     isTestFile := fileTypeEqb type Test;
     isConfigFile := fileTypeEqb type Config;
     isMigrationFile := fileTypeEqb type Migration;
     allowedPatterns := getAllowedPatterns type;
     strictnessLevel := getStrictnessLevel type;
     maxFunctionLength := getMaxFunctionLength type;
     maxComplexity := getMaxComplexity type |}.

(** A well-formed pull-request label: a plain string, or an object whose
    [name] is a string.  [RawMetadata] has the values of any other shape. *)
Inductive Label : Type :=
| LabelString (s : string)
| LabelObject (name : string).

Record PRIntent : Type := mkPRIntent {
  prType : string;
  scope : option string;
  description : option string;
  expectTests : bool;
  expectDocs : bool;
  allowLargeDiffs : bool;
  expectBenchmarks : bool;
  skipCodeChecks : bool;
  focusAreas : list string;
  strictness : string;
  requireMigrationGuide : option bool;
  isUrgent : option bool;
  isDraft : option bool
}.

(* /^(feat|fix|refactor|perf|docs|test|chore|style|build|ci)(?:\(([^)]+)\))?:\s*(.+)/i *)
Definition reTitle : Regex.t :=
  seqs [Bol;
        Group 1 (strs ["feat"; "fix"; "refactor"; "perf"; "docs"; "test";
                       "chore"; "style"; "build"; "ci"]);
        Opt (seqs [Chr "("; Group 2 (Plus (NClass [Lit ")"])); Chr ")"]);
        Chr ":"; Star (Class [Space]); Group 3 (Plus Any)].

Definition initialIntent (prTitle : string) : PRIntent :=
  {| prType := "general";
     scope := None;
     description := Some prTitle;
     expectTests := false;
     expectDocs := false;
     allowLargeDiffs := false;
     expectBenchmarks := false;
     skipCodeChecks := false;
     focusAreas := [];
     strictness := "normal";
     requireMigrationGuide := None;
     isUrgent := None;
     isDraft := None |}.

Definition setType (v : string) (i : PRIntent) : PRIntent :=
  mkPRIntent v (scope i) (description i) (expectTests i) (expectDocs i)
    (allowLargeDiffs i) (expectBenchmarks i) (skipCodeChecks i)
    (focusAreas i) (strictness i) (requireMigrationGuide i) (isUrgent i)
    (isDraft i).
Definition setScope (v : option string) (i : PRIntent) : PRIntent :=
  mkPRIntent (prType i) v (description i) (expectTests i) (expectDocs i)
    (allowLargeDiffs i) (expectBenchmarks i) (skipCodeChecks i)
    (focusAreas i) (strictness i) (requireMigrationGuide i) (isUrgent i)
    (isDraft i).
Definition setDescription (v : option string) (i : PRIntent) : PRIntent :=
  mkPRIntent (prType i) (scope i) v (expectTests i) (expectDocs i)
    (allowLargeDiffs i) (expectBenchmarks i) (skipCodeChecks i)
    (focusAreas i) (strictness i) (requireMigrationGuide i) (isUrgent i)
    (isDraft i).
Definition setExpectTests (v : bool) (i : PRIntent) : PRIntent :=
  mkPRIntent (prType i) (scope i) (description i) v (expectDocs i)
    (allowLargeDiffs i) (expectBenchmarks i) (skipCodeChecks i)
    (focusAreas i) (strictness i) (requireMigrationGuide i) (isUrgent i)
    (isDraft i).
Definition setExpectDocs (v : bool) (i : PRIntent) : PRIntent :=
  mkPRIntent (prType i) (scope i) (description i) (expectTests i) v
    (allowLargeDiffs i) (expectBenchmarks i) (skipCodeChecks i)
    (focusAreas i) (strictness i) (requireMigrationGuide i) (isUrgent i)
    (isDraft i).
Definition setAllowLargeDiffs (v : bool) (i : PRIntent) : PRIntent :=
  mkPRIntent (prType i) (scope i) (description i) (expectTests i)
    (expectDocs i) v (expectBenchmarks i) (skipCodeChecks i)
    (focusAreas i) (strictness i) (requireMigrationGuide i) (isUrgent i)
    (isDraft i).
Definition setExpectBenchmarks (v : bool) (i : PRIntent) : PRIntent :=
  mkPRIntent (prType i) (scope i) (description i) (expectTests i)
    (expectDocs i) (allowLargeDiffs i) v (skipCodeChecks i)
    (focusAreas i) (strictness i) (requireMigrationGuide i) (isUrgent i)
    (isDraft i).
Definition setSkipCodeChecks (v : bool) (i : PRIntent) : PRIntent :=
  mkPRIntent (prType i) (scope i) (description i) (expectTests i)
    (expectDocs i) (allowLargeDiffs i) (expectBenchmarks i) v
    (focusAreas i) (strictness i) (requireMigrationGuide i) (isUrgent i)
    (isDraft i).
Definition setFocusAreas (v : list string) (i : PRIntent) : PRIntent :=
  mkPRIntent (prType i) (scope i) (description i) (expectTests i)
    (expectDocs i) (allowLargeDiffs i) (expectBenchmarks i)
    (skipCodeChecks i) v (strictness i) (requireMigrationGuide i)
    (isUrgent i) (isDraft i).
Definition setStrictness (v : string) (i : PRIntent) : PRIntent :=
  mkPRIntent (prType i) (scope i) (description i) (expectTests i)
    (expectDocs i) (allowLargeDiffs i) (expectBenchmarks i)
    (skipCodeChecks i) (focusAreas i) v (requireMigrationGuide i)
    (isUrgent i) (isDraft i).
Definition setRequireMigrationGuide (v : bool) (i : PRIntent) : PRIntent :=
  mkPRIntent (prType i) (scope i) (description i) (expectTests i)
    (expectDocs i) (allowLargeDiffs i) (expectBenchmarks i)
    (skipCodeChecks i) (focusAreas i) (strictness i) (Some v)
    (isUrgent i) (isDraft i).
Definition setIsUrgent (v : bool) (i : PRIntent) : PRIntent :=
  mkPRIntent (prType i) (scope i) (description i) (expectTests i)
    (expectDocs i) (allowLargeDiffs i) (expectBenchmarks i)
    (skipCodeChecks i) (focusAreas i) (strictness i)
    (requireMigrationGuide i) (Some v) (isDraft i).
Definition setIsDraft (v : bool) (i : PRIntent) : PRIntent :=
  mkPRIntent (prType i) (scope i) (description i) (expectTests i)
    (expectDocs i) (allowLargeDiffs i) (expectBenchmarks i)
    (skipCodeChecks i) (focusAreas i) (strictness i)
    (requireMigrationGuide i) (isUrgent i) (Some v).

(** [intent.focusAreas.push(x)] *)
Definition pushFocus (x : string) (i : PRIntent) : PRIntent :=
  setFocusAreas (focusAreas i ++ [x]) i.

(** The [switch (intent.type)] of [analyzePRIntent]. *)
Definition applyType (i : PRIntent) : PRIntent :=
  let ty := prType i in
  if String.eqb ty "feat" then
    setFocusAreas ["functionality"; "edge-cases"; "error-handling"]
      (setExpectDocs true (setExpectTests true i))
  else if String.eqb ty "fix" then
    setFocusAreas ["correctness"; "regression"; "edge-cases"]
      (setExpectTests true i)
  else if String.eqb ty "refactor" then
    setFocusAreas ["behavior-preservation"; "no-logic-change";
                   "maintainability"]
      (setAllowLargeDiffs true i)
  else if String.eqb ty "perf" then
    setFocusAreas ["performance"; "benchmarks"; "algorithmic-complexity"]
      (setExpectBenchmarks true i)
  else if String.eqb ty "docs" then
    setFocusAreas ["documentation-quality"] (setSkipCodeChecks true i)
  else if String.eqb ty "test" then
    setFocusAreas ["test-coverage"; "test-quality"] i
  else if String.eqb ty "style" then
    setFocusAreas ["consistency"; "formatting"] i
  else if String.eqb ty "chore" then
    setStrictness "lenient" i
  else i.

(** [typeof label === 'string' ? label : label.name] *)
Definition labelName (label : Label) : string :=
  match label with
  | LabelString s => s
  | LabelObject name => name
  end.

(** The body of the [for (const label of labels)] loop. *)
Definition applyLabel (i : PRIntent) (label : Label) : PRIntent :=
  let normalizedLabel := toLowerCase (labelName label) in
  let i :=
    if includes normalizedLabel "breaking"
    then pushFocus "breaking-changes" (setRequireMigrationGuide true i)
    else i in
  let i :=
    if includes normalizedLabel "security"
    then setStrictness "strict" (pushFocus "security" i)
    else i in
  let i :=
    if includes normalizedLabel "hotfix" || includes normalizedLabel "urgent"
    then setIsUrgent true i
    else i in
  let i :=
    if includes normalizedLabel "wip" || includes normalizedLabel "draft"
    then setStrictness "lenient" (setIsDraft true i)
    else i in
  i.

(** The title part: the destructuring of the match and the switch.  The
    call [type.toLowerCase()] throws when [type] is undefined. *)
Definition applyTitle (prTitle : string) (i : PRIntent)
    : Completion PRIntent :=
  match Regex.exec true reTitle prTitle with
  | None => Normal i
  | Some titleMatch =>
      match capture 1 titleMatch with
      | None =>
          Throw "TypeError: Cannot read properties of undefined"
      | Some type =>
          Normal (applyType
            (setDescription (capture 3 titleMatch)
              (setScope (capture 2 titleMatch)
                (setType (toLowerCase type) i))))
      end
  end.

Definition analyzePRIntent (prTitle prBody : string) (labels : list Label)
    : Completion PRIntent :=
  bindC (applyTitle prTitle (initialIntent prTitle)) (fun intent =>
    Normal (fold_left applyLabel labels intent)).

Record FunctionIntent : Type := mkFunctionIntent {
  name : string;
  fnPurpose : string;
  expectValidation : bool;
  expectErrorHandling : bool;
  allowLowerStandards : bool
}.

(** [analyzeFunctionIntent(functionName)]: five blocks in turn, each
    overwriting the purpose when its condition holds. *)
Definition analyzeFunctionIntent (functionName : string) : FunctionIntent :=
  let intent :=
    {| name := functionName; fnPurpose := "general";
       expectValidation := false; expectErrorHandling := false;
       allowLowerStandards := false |} in
  let nameLower := toLowerCase functionName in
  let intent :=
    if startsWith nameLower "debug" || startsWith nameLower "temp"
       || startsWith nameLower "tmp"
    then {| name := name intent; fnPurpose := "debug";
            expectValidation := expectValidation intent;
            expectErrorHandling := expectErrorHandling intent;
            allowLowerStandards := true |}
    else intent in
  let intent :=
    if startsWith nameLower "experiment" || includes nameLower "test"
    then {| name := name intent; fnPurpose := "experimental";
            expectValidation := expectValidation intent;
            expectErrorHandling := expectErrorHandling intent;
            allowLowerStandards := true |}
    else intent in
  let intent :=
    if startsWith nameLower "validate" || startsWith nameLower "check"
       || startsWith nameLower "verify"
    then {| name := name intent; fnPurpose := "validation";
            expectValidation := true;
            expectErrorHandling := true;
            allowLowerStandards := allowLowerStandards intent |}
    else intent in
  let intent :=
    if startsWith nameLower "sanitize" || startsWith nameLower "clean"
       || startsWith nameLower "escape"
    then {| name := name intent; fnPurpose := "sanitization";
            expectValidation := true;
            expectErrorHandling := expectErrorHandling intent;
            allowLowerStandards := allowLowerStandards intent |}
    else intent in
  let intent :=
    if startsWith nameLower "mock" || startsWith nameLower "stub"
       || startsWith nameLower "fake"
    then {| name := name intent; fnPurpose := "test-helper";
            expectValidation := expectValidation intent;
            expectErrorHandling := expectErrorHandling intent;
            allowLowerStandards := true |}
    else intent in
  intent.

(** [isPatternAllowed(pattern, fileIntent)] *)
Definition isPatternAllowed (pattern : string) (fileIntent : FileIntent)
    : bool :=
  arrIncludes (allowedPatterns fileIntent) pattern.

(** The [parts] array of [getContextSummary]; the pull-request intent may
    be null. *)
Definition contextParts (fileIntent : FileIntent)
    (prIntent : option PRIntent) : list string :=
  (if negb (fileTypeEqb (type fileIntent) Production)
   then [fileTypeName (type fileIntent) +:+ " file"] else [])
  ++ (match prIntent with
      | Some pr =>
          if negb (String.eqb (prType pr) "general")
          then [prType pr +:+ " PR"] else []
      | None => []
      end)
  ++ (if String.eqb (strictnessLevel fileIntent) "lenient"
      then ["lenient rules"]
      else if String.eqb (strictnessLevel fileIntent) "strict"
      then ["strict rules"]
      else []).

(** [parts.join(', ') || 'standard review'] *)
Definition getContextSummary (fileIntent : FileIntent)
    (prIntent : option PRIntent) : string :=
  let joined := join ", " (contextParts fileIntent prIntent) in
  if truthy (Some joined) then joined else "standard review".

End IntentAnalyzer.

(** ** Numbers and issue records *)

(** A JavaScript number as the scorer can produce it. *)
Inductive JSNum : Type :=
| NaN
| Num (z : Z).

Module JSNumber.

Definition add (a b : JSNum) : JSNum :=
  match a, b with
  | Num x, Num y => Num (x + y)
  | _, _ => NaN
  end.

(** [Math.max(a, b)] and [Math.min(a, b)]: NaN if either argument is. *)
Definition max (a b : JSNum) : JSNum :=
  match a, b with
  | Num x, Num y => Num (Z.max x y)
  | _, _ => NaN
  end.

Definition min (a b : JSNum) : JSNum :=
  match a, b with
  | Num x, Num y => Num (Z.min x y)
  | _, _ => NaN
  end.

(** [a >= n]: false on NaN. *)
Definition geb (a : JSNum) (n : Z) : bool :=
  match a with
  | Num x => Z.leb n x
  | NaN => false
  end.

(** [c || 0] for an optional number: undefined, NaN and 0 all give 0. *)
Definition orZero (o : option JSNum) : Z :=
  match o with
  | Some (Num x) => x
  | _ => 0
  end.

(** [`${n}`] *)
Definition toString (a : JSNum) : string :=
  match a with
  | Num x => JSString.ofZ x
  | NaN => "NaN"
  end.

End JSNumber.

(** An issue object as the detectors, the scorer and the categorizer pass
  it around.  Every property except [message] may be absent. *)
Record Issue : Type := mkIssue {
  message : string;
  severity : option string;
  suggestion : option string;
  ruleId : option string;
  tags : option (list string);
  matchType : option string;
  source : option string;
  language : option string;
  pattern : option string;
  confidence : option JSNum
}.

Module IssueOps.
Import JSString.

(** [issue.tags?.includes(t)] *)
Definition hasTag (issue : Issue) (t : string) : bool :=
  match tags issue with
  | Some ts => arrIncludes ts t
  | None => false
  end.

(** [issue.tags?.some(tag => table.includes(tag))] *)
Definition someTagIn (issue : Issue) (table : list string) : bool :=
  match tags issue with
  | Some ts => existsb (fun tag => arrIncludes table tag) ts
  | None => false
  end.

(** [x === 'lit'] for an optional string property. *)
Definition strIs (o : option string) (lit : string) : bool :=
  match o with
  | Some s => String.eqb s lit
  | None => false
  end.

(** [table.includes(issue.ruleId)] *)
Definition ruleIdIn (issue : Issue) (table : list string) : bool :=
  match ruleId issue with
  | Some r => arrIncludes table r
  | None => false
  end.

End IssueOps.

(** ** reviewers/confidence-scorer.js *)

Module ConfidenceScorer.
Import JSString IssueOps.

Record History : Type := mkHistory {
  correct : nat;
  falsePositive : nat
}.

(** The scorer object: its [ruleHistory] map. *)
Record t : Type := mkScorer {
  ruleHistory : gmap string History
}.

(** [new ConfidenceScorer()] *)
Definition new : t := {| ruleHistory := ∅ |}.

Record Context : Type := mkContext {
  filename : string;
  ctxLanguage : string;
  lineNumber : Z;
  isTestFile : bool;
  isConfigFile : bool;
  isMigrationFile : bool;
  fileType : IntentAnalyzer.FileType
}.

Definition scorePatternMatch (issue : Issue) : Z :=
  if negb (truthy (pattern issue)) then 15
  else if hasTag issue "security" then 30
  else if strIs (matchType issue) "exact" || strIs (matchType issue) "ast"
  then 25
  else if strIs (matchType issue) "regex" then 20
  else if strIs (matchType issue) "keyword" then 10
  else 15.

Definition scoreContext (issue : Issue) (context : Context) : Z :=
  if isTestFile context && hasTag issue "production-only" then 0
  else if (isTestFile context || includes (filename context) "debug")
          && strIs (ruleId issue) "no-console" then 5
  else if isConfigFile context && strIs (ruleId issue) "magic-numbers" then 0
  else if isMigrationFile context && hasTag issue "raw-sql" then 5
  else if truthy (language issue)
          && strIs (language issue) (ctxLanguage context) then 30
  else if negb (truthy (language issue)) then 20
  else 10.

Definition scoreRuleType (issue : Issue) : Z :=
  if strIs (source issue) "custom" then 20
  else if truthy (language issue) then 15
  else if hasTag issue "security" then 18
  else 10.

Definition highAccuracyRules : list string :=
  ["sql-injection"; "xss-vulnerability"; "hardcoded-secrets";
   "null-reference"; "undefined-variable"].

Definition mediumAccuracyRules : list string :=
  ["function-length"; "complexity"; "no-console"; "no-var"].

(** [Math.floor((correct / (correct + falsePositive)) * 20)]; the quotient
    0/0 is NaN.  The quotient is taken exactly, as a rational; the rounding
    of the double-precision division is not modelled. *)
Definition accuracyScore (history : History) : JSNum :=
  let total := (correct history + falsePositive history)%nat in
  match total with
  | O => NaN
  | S _ =>
      let accuracy :=
        Qdiv (inject_Z (Z.of_nat (correct history)))
             (inject_Z (Z.of_nat total)) in
      Num (Qfloor (Qmult accuracy (inject_Z 20)))
  end.

Definition scoreHistory (self : t) (ruleId : option string) : JSNum :=
  match ruleId with
  | None => Num 10
  | Some EmptyString => Num 10
  | Some id =>
      match ruleHistory self !! id with
      | Some history => accuracyScore history
      | None =>
          if arrIncludes highAccuracyRules id then Num 18
          else if arrIncludes mediumAccuracyRules id then Num 14
          else Num 10
      end
  end.

(** The sum of the four sub-scores, before clamping. *)
Definition rawScore (self : t) (issue : Issue) (context : Context) : JSNum :=
  let score := Num 0 in
  let score := JSNumber.add score (Num (scorePatternMatch issue)) in
  let score := JSNumber.add score (Num (scoreContext issue context)) in
  let score := JSNumber.add score (Num (scoreRuleType issue)) in
  let score := JSNumber.add score (scoreHistory self (ruleId issue)) in
  score.

Definition calculateConfidence (self : t) (issue : Issue) (context : Context)
    : JSNum :=
  JSNumber.min (Num 100) (JSNumber.max (Num 0) (rawScore self issue context)).

Definition bump (wasCorrect : bool) (history : History) : History :=
  if wasCorrect
  then {| correct := S (correct history);
          falsePositive := falsePositive history |}
  else {| correct := correct history;
          falsePositive := S (falsePositive history) |}.

(** [recordFeedback(ruleId, wasCorrect)]: the entry is created first when
    missing, then fetched and incremented in place. *)
Definition recordFeedback (self : t) (ruleId : string) (wasCorrect : bool)
    : t :=
  let store :=
    match ruleHistory self !! ruleId with
    | None => <[ruleId := {| correct := 0; falsePositive := 0 |}]>
                (ruleHistory self)
    | Some _ => ruleHistory self
    end in
  {| ruleHistory := alter (bump wasCorrect) ruleId store |}.

(** The scorer states a program can reach: a fresh scorer followed by any
    number of feedback calls. *)
Definition afterFeedback (calls : list (string * bool)) : t :=
  fold_left (fun self call => recordFeedback self (fst call) (snd call))
    calls new.

End ConfidenceScorer.

(** ** reviewers/issue-categorizer.js *)

Module IssueCategorizer.
Import JSString IssueOps.

Record CategoryInfo : Type := mkCategoryInfo {
  category : string;
  catSeverity : string;
  emoji : string;
  sortOrder : Z
}.

Definition bugTags : list string :=
  ["security"; "vulnerability"; "injection"; "xss"; "csrf"; "logic-error";
   "null-reference"; "undefined"; "crash"; "exception"; "error";
   "race-condition"; "deadlock"; "leak"; "memory-leak"; "resource-leak";
   "type-error"; "incorrect-operator"; "wrong-comparison"].

Definition bugRuleIds : list string :=
  ["sql-injection"; "xss-vulnerability"; "hardcoded-secrets";
   "insecure-random"; "path-traversal"; "command-injection";
   "xxe-vulnerability"].

Definition isBug (issue : Issue) : bool :=
  if someTagIn issue bugTags then true
  else if ruleIdIn issue bugRuleIds then true
  else false.

Definition refactorTags : list string :=
  ["complexity"; "duplication"; "dry-violation"; "performance"; "n+1-query";
   "inefficient-algorithm"; "maintainability"; "naming"; "unclear-code";
   "documentation"; "missing-docs"; "coverage"; "missing-tests";
   "design-pattern"; "coupling"; "cohesion"].

Definition refactorRuleIds : list string :=
  ["function-length"; "function-complexity"; "code-duplication";
   "nested-loops"; "missing-error-handling"; "unused-variable";
   "unused-import"].

Definition isRefactor (issue : Issue) : bool :=
  if someTagIn issue refactorTags then true
  else if ruleIdIn issue refactorRuleIds then true
  else false.

Definition getBugSeverity (issue : Issue) : string :=
  if hasTag issue "security" || hasTag issue "vulnerability" then "critical"
  else if someTagIn issue
            ["crash"; "exception"; "logic-error"; "null-reference"]
  then "high"
  else "medium".

Definition getRefactorSeverity (issue : Issue) : string :=
  if someTagIn issue ["performance"; "n+1-query"; "missing-error-handling"]
  then "high"
  else "medium".

Definition categorize (issue : Issue) : CategoryInfo :=
  if isBug issue then
    {| category := "BUG"; catSeverity := getBugSeverity issue;
       emoji := "🔴"; sortOrder := 1 |}
  else if isRefactor issue then
    {| category := "REFACTOR"; catSeverity := getRefactorSeverity issue;
       emoji := "🟡"; sortOrder := 2 |}
  else
    {| category := "SUGGESTION"; catSeverity := "low";
       emoji := "🔵"; sortOrder := 3 |}.

(** [{...issue, ...this.categorize(issue)}]: the issue with the four
    category properties laid over it. *)
Record Categorized : Type := mkCategorized {
  issue : Issue;
  info : CategoryInfo
}.

Definition withCategory (issue : Issue) : Categorized :=
  mkCategorized issue (categorize issue).

(** The comparison function handed to [sort]. *)
Definition compareFn (a b : Categorized) : Z :=
  if negb (Z.eqb (sortOrder (info a)) (sortOrder (info b)))
  then sortOrder (info a) - sortOrder (info b)
  else JSNumber.orZero (confidence (issue b))
       - JSNumber.orZero (confidence (issue a)).

(** [Array.prototype.sort(compareFn)]: a stable sort; for a consistent
    comparison its result is the one a stable insertion sort computes. *)
Fixpoint insertSorted {A : Type} (cmp : A -> A -> Z) (x : A) (l : list A)
    : list A :=
  match l with
  | [] => [x]
  | y :: l' =>
      if Z.leb (cmp x y) 0 then x :: y :: l'
      else y :: insertSorted cmp x l'
  end.

Definition arraySort {A : Type} (cmp : A -> A -> Z) (l : list A) : list A :=
  fold_right (insertSorted cmp) [] l.

Record Stats : Type := mkStats {
  total : nat;
  bugs : nat;
  refactors : nat;
  suggestions : nat;
  critical : nat;
  high : nat;
  medium : nat;
  low : nat
}.

Definition countBy (p : Categorized -> bool) (l : list Categorized) : nat :=
  length (List.filter p l).

Definition categorizeMultiple (issues : list Issue)
    : list Categorized * Stats :=
  let categorized := map withCategory issues in
  let categorized := arraySort compareFn categorized in
  let isCat c i := String.eqb (category (info i)) c in
  let isSev s i := String.eqb (catSeverity (info i)) s in
  let stats :=
    {| total := length categorized;
       bugs := countBy (isCat "BUG") categorized;
       refactors := countBy (isCat "REFACTOR") categorized;
       suggestions := countBy (isCat "SUGGESTION") categorized;
       critical := countBy (isSev "critical") categorized;
       high := countBy (isSev "high") categorized;
       medium := countBy (isSev "medium") categorized;
       low := countBy (isSev "low") categorized |} in
  (categorized, stats).

End IssueCategorizer.

(** ** utils/utils.js *)

Module Utils.
Import JSString.

Definition languageMap : list (string * string) :=
  [("js", "javascript"); ("jsx", "javascript"); ("ts", "typescript");
   ("tsx", "typescript"); ("py", "python"); ("java", "java"); ("go", "go");
   ("rb", "ruby"); ("php", "php"); ("cs", "csharp"); ("cpp", "cpp");
   ("c", "c"); ("rs", "rust"); ("swift", "swift"); ("kt", "kotlin");
   ("md", "markdown"); ("json", "json"); ("yaml", "yaml"); ("yml", "yaml");
   ("xml", "xml"); ("html", "html"); ("css", "css"); ("scss", "scss");
   ("sql", "sql"); ("sh", "shell"); ("bash", "shell")].

Fixpoint lookup (key : string) (table : list (string * string))
    : option string :=
  match table with
  | [] => None
  | (k, v) :: table' => if String.eqb k key then Some v else lookup key table'
  end.

(** Lower-case names that a lookup on an object literal finds on
    [Object.prototype] rather than in the literal itself. *)
Definition inheritedKeys : list string := ["constructor"; "__proto__"].

(** [detectLanguage(filename)]: the language name, or [None] when the
    lookup returns an inherited member, which is truthy and not a
    string. *)
Definition detectLanguage (filename : string) : option string :=
  let ext := toLowerCase (List.last (split "." filename) EmptyString) in
  match lookup ext languageMap with
  | Some lang => Some lang
  | None => if arrIncludes inheritedKeys ext then None else Some "unknown"
  end.

End Utils.

(** ** analyzers/code-analyzer.js *)

Module Comment.

Record t : Type := mk {
  path : string;
  line : Z;
  message : string;
  severity : string;
  suggestion : option string;
  confidence : option JSNum;
  category : option string;
  emoji : option string
}.

End Comment.

Module CodeAnalyzer.
Import JSString Regex IssueOps.

Record Rule : Type := mkRule {
  text : string;
  isPattern : bool;
  ruleSeverity : string
}.

(** The parsed instructions: categories in the order of their keys. *)
Record Instructions : Type := mkInstructions {
  categories : list (string * list Rule);
  languageSpecific : gmap string (list Rule);
  tone : string
}.

Record Relevant : Type := mkRelevant {
  general : list (string * list Rule);
  relLanguageSpecific : list Rule
}.

Record File : Type := mkFile {
  fileName : string;
  content : string
}.

Record ChangedLine : Type := mkChangedLine {
  clLine : Z;
  clContent : string
}.

(** The analyzer object; the scorer it owns carries the mutable state. *)
Record t : Type := mkAnalyzer {
  instructions : Instructions;
  confidenceScorer : ConfidenceScorer.t
}.

(** [new CodeAnalyzer(instructions)] *)
Definition new (instructions : Instructions) : t :=
  {| instructions := instructions;
     confidenceScorer := ConfidenceScorer.new |}.

Definition quotes : list CharItem := [Lit squote; Lit dquote].

(* \s*=\s*['\x22][^'\x22]+['\x22] *)
Definition reAssignedLiteral : list Regex.t :=
  [Star (Class [Space]); Chr "="; Star (Class [Space]); Class quotes;
   Plus (NClass quotes); Class quotes].

(* /(api[_-]?key|apikey)\s*=\s*['\x22][^'\x22]+['\x22]/i *)
Definition reApiKey : Regex.t :=
  seqs (Group 1 (Alt (seqs [Str "api"; Opt (Class [Lit "_"; Lit "-"]);
                            Str "key"])
                     (Str "apikey"))
        :: reAssignedLiteral).

(* /(password|passwd|pwd)\s*=\s*['\x22][^'\x22]+['\x22]/i *)
Definition rePassword : Regex.t :=
  seqs (Group 1 (strs ["password"; "passwd"; "pwd"]) :: reAssignedLiteral).

(* /(secret|token)\s*=\s*['\x22][^'\x22]+['\x22]/i *)
Definition reSecret : Regex.t :=
  seqs (Group 1 (strs ["secret"; "token"]) :: reAssignedLiteral).

(* /-----BEGIN (RSA |)PRIVATE KEY-----/ *)
Definition rePrivateKey : Regex.t :=
  seqs [Str "-----BEGIN "; Group 1 (Alt (Str "RSA ") Empty);
        Str "PRIVATE KEY-----"].

(* /\beval\s*\(/ *)
Definition reEval : Regex.t :=
  seqs [WordB; Str "eval"; Star (Class [Space]); Chr "("].

(* /\.innerHTML\s*=/ *)
Definition reInnerHTML : Regex.t :=
  seqs [Str ".innerHTML"; Star (Class [Space]); Chr "="].

(* /\.textContent\s*=/ *)
Definition reTextContent : Regex.t :=
  seqs [Str ".textContent"; Star (Class [Space]); Chr "="].

(* /execute\s*\(\s*[\x22'].*%s/ *)
Definition reExecuteFormat : Regex.t :=
  seqs [Str "execute"; Star (Class [Space]); Chr "("; Star (Class [Space]);
        Class [Lit dquote; Lit squote]; Star Any; Str "%s"].

(* /execute\s*\(\s*f[\x22']/ *)
Definition reExecuteFString : Regex.t :=
  seqs [Str "execute"; Star (Class [Space]); Chr "("; Star (Class [Space]);
        Chr "f"; Class [Lit dquote; Lit squote]].

(* /console\.log\(/ *)
Definition reConsoleLog : Regex.t := Str "console.log(".

(* /\bprint\(/ *)
Definition rePrint : Regex.t := seqs [WordB; Str "print("].

(* \s*[a-z_]\w*\s*[=(] *)
Definition reCommentedCode : list Regex.t :=
  [Star (Class [Space]); Class [Range "a" "z"; Lit "_"];
   Star (Class [Word]); Star (Class [Space]); Class [Lit "="; Lit "("]].

(* /^\s*#\s*[a-z_]\w*\s*[=(]/ *)
Definition reHashComment : Regex.t :=
  seqs (Bol :: Star (Class [Space]) :: Chr "#" :: reCommentedCode).

(* /^\s*\/\/\s*[a-z_]\w*\s*[=(]/ *)
Definition reSlashComment : Regex.t :=
  seqs (Bol :: Star (Class [Space]) :: Str "//" :: reCommentedCode).

(* /\bvar\s+\w+/ *)
Definition reVar : Regex.t :=
  seqs [WordB; Str "var"; Plus (Class [Space]); Plus (Class [Word])].

(* /['\x22][^'\x22]*\+[^'\x22]*['\x22]/ *)
Definition reConcat : Regex.t :=
  seqs [Class quotes; Star (NClass quotes); Chr "+"; Star (NClass quotes);
        Class quotes].

(** An issue as a detector returns it: the properties it sets, the rest
    absent. *)
Definition detected (message : string) (severity : option string)
    (suggestion ruleId : string) (tags : list string)
    (matchType : option string) : Issue :=
  {| message := message; severity := severity;
     suggestion := Some suggestion; ruleId := Some ruleId;
     tags := Some tags; matchType := matchType; source := None;
     language := None; pattern := None; confidence := None |}.

Definition secretPatterns : list (Regex.t * string * string) :=
  [(reApiKey, "Potential hardcoded API key detected", "hardcoded-secrets");
   (rePassword, "Potential hardcoded password detected",
    "hardcoded-secrets");
   (reSecret, "Potential hardcoded secret detected", "hardcoded-secrets");
   (rePrivateKey, "Private key found in code", "hardcoded-secrets")].

(** The first three secret patterns carry the [i] flag, the fourth does
    not. *)
Definition secretFlags : list bool := [true; true; true; false].

Definition checkSecurity (line language : string) : list Issue :=
  let secrets :=
    flat_map (fun '((pattern, message, ruleId), ic) =>
      if Regex.test ic pattern line
      then [detected message None
              "Use environment variables or a secure secret management system"
              ruleId ["security"; "vulnerability"; "secrets"] None]
      else [])
      (combine secretPatterns secretFlags) in
  let scripting :=
    if String.eqb language "javascript" || String.eqb language "typescript"
    then
      (if Regex.test false reEval line
       then [detected "Use of eval() detected - potential security risk"
               None "Avoid eval() and use safer alternatives"
               "dangerous-eval" ["security"; "vulnerability"] None]
       else [])
      ++
      (if Regex.test false reInnerHTML line
          && negb (Regex.test false reTextContent line)
       then [detected
               "Use of innerHTML detected - potential XSS vulnerability"
               None "Consider using textContent or sanitize the HTML first"
               "xss-vulnerability" ["security"; "vulnerability"; "xss"] None]
       else [])
    else [] in
  let python :=
    if String.eqb language "python"
    then
      if Regex.test false reExecuteFormat line
         || Regex.test false reExecuteFString line
      then [detected "Potential SQL injection vulnerability" None
              "Use parameterized queries instead of string formatting"
              "sql-injection" ["security"; "vulnerability"; "injection"]
              None]
      else []
    else [] in
  secrets ++ scripting ++ python.

Definition matchRule (line : string) (rule : Rule) (language : string)
    (fileIntent : IntentAnalyzer.FileIntent) : option Issue :=
  let ruleLower := toLowerCase (text rule) in
  let commented := fun _ : unit =>
    if includes ruleLower "commented-out code"
    then
      let commentPattern :=
        if String.eqb language "python" then reHashComment
        else reSlashComment in
      if Regex.test false commentPattern line
      then Some (detected "Commented-out code detected" (Some "warning")
                   "Remove unused commented code" "no-commented-code"
                   ["maintainability"] (Some "regex"))
      else None
    else None in
  if includes ruleLower "console.log" || includes ruleLower "print statement"
  then
    if arrIncludes (IntentAnalyzer.allowedPatterns fileIntent) "console.log"
    then None
    else if (String.eqb language "javascript"
             || String.eqb language "typescript")
            && Regex.test false reConsoleLog line
    then Some (detected "console.log() statement found in production code"
                 (Some "info")
                 "Remove console.log() statements before merging"
                 "no-console" ["style"; "production-only"] (Some "regex"))
    else if String.eqb language "python" && Regex.test false rePrint line
    then Some (detected "print() statement found in production code"
                 (Some "info")
                 "Remove print() statements before merging or use proper logging"
                 "no-print" ["style"; "production-only"] (Some "regex"))
    else commented tt
  else commented tt.

Definition matchLanguageRule (line : string) (rule : Rule)
    (language : string) (fileIntent : IntentAnalyzer.FileIntent)
    : option Issue :=
  let ruleLower := toLowerCase (text rule) in
  if String.eqb language "javascript" || String.eqb language "typescript"
  then
    if includes ruleLower "avoid" && includes ruleLower "var"
       && Regex.test false reVar line
    then Some (detected ("Use of " +:+ dq +:+ "var" +:+ dq +:+ " detected")
                 (Some "warning") "Use const or let instead of var"
                 "no-var" ["style"; "modern-syntax"] (Some "regex"))
    else if includes ruleLower "template literal"
            && Regex.test false reConcat line
    then Some (detected "String concatenation with + detected"
                 (Some "info") "Consider using template literals instead"
                 "prefer-template-literal" ["style"; "modern-syntax"]
                 (Some "regex"))
    else None
  else None.

Definition applyInstructionRules (line : string) (rules : list Rule)
    (language : string) (fileIntent : IntentAnalyzer.FileIntent)
    : list Issue :=
  flat_map (fun rule =>
    if negb (isPattern rule) then []
    else match matchRule line rule language fileIntent with
         | Some issue => [issue]
         | None => []
         end) rules.

Definition applyLanguageRules (line : string) (rules : list Rule)
    (language : string) (fileIntent : IntentAnalyzer.FileIntent)
    : list Issue :=
  flat_map (fun rule =>
    match matchLanguageRule line rule language fileIntent with
    | Some issue => [issue]
    | None => []
    end) rules.

Definition getRelevantInstructions (self : t) (language : string)
    : Relevant :=
  let languageLower := toLowerCase language in
  {| general := categories (instructions self);
     relLanguageSpecific :=
       default [] (languageSpecific (instructions self) !! languageLower) |}.

(** [issue.tags || fallback] *)
Definition tagsOr (issue : Issue) (fallback : list string)
    : option (list string) :=
  match tags issue with
  | Some ts => Some ts
  | None => Some fallback
  end.

(** [{...issue, tags: issue.tags || ['security'], ruleId: issue.ruleId,
     source: 'builtin', matchType: 'regex'}] *)
Definition asSecurityIssue (issue : Issue) : Issue :=
  {| message := message issue; severity := severity issue;
     suggestion := suggestion issue; ruleId := ruleId issue;
     tags := tagsOr issue ["security"]; matchType := Some "regex";
     source := Some "builtin"; language := language issue;
     pattern := pattern issue; confidence := confidence issue |}.

(** [{...issue, source: 'custom',
     tags: issue.tags || [category.toLowerCase()]}] *)
Definition asCustomIssue (category : string) (issue : Issue) : Issue :=
  {| message := message issue; severity := severity issue;
     suggestion := suggestion issue; ruleId := ruleId issue;
     tags := tagsOr issue [toLowerCase category];
     matchType := matchType issue; source := Some "custom";
     language := language issue; pattern := pattern issue;
     confidence := confidence issue |}.

(** [{...issue, language, tags: issue.tags || ['style'],
     source: 'builtin'}] *)
Definition asLanguageIssue (lang : string) (issue : Issue) : Issue :=
  {| message := message issue; severity := severity issue;
     suggestion := suggestion issue; ruleId := ruleId issue;
     tags := tagsOr issue ["style"]; matchType := matchType issue;
     source := Some "builtin"; language := Some lang;
     pattern := pattern issue; confidence := confidence issue |}.

Definition createComment (filename : string) (line : Z) (message : string)
    (severity : string) (suggestion : option string) (confidence : JSNum)
    (category emoji : string) : Comment.t :=
  {| Comment.path := filename;
     Comment.line := line;
     Comment.message := message;
     Comment.severity := severity;
     Comment.suggestion := suggestion;
     Comment.confidence := Some confidence;
     Comment.category := Some category;
     Comment.emoji := Some emoji |}.

(** The raw issues of one line, in the order they are pushed. *)
Definition rawIssues (lineContent language : string)
    (instructions : Relevant) (fileIntent : IntentAnalyzer.FileIntent)
    : list Issue :=
  map asSecurityIssue (checkSecurity lineContent language)
  ++ flat_map (fun '(category, rules) =>
       map (asCustomIssue category)
         (applyInstructionRules lineContent rules language fileIntent))
       (general instructions)
  ++ map (asLanguageIssue language)
       (applyLanguageRules lineContent (relLanguageSpecific instructions)
          language fileIntent).

Definition analyzeLine (self : t) (lineContent : string) (lineNumber : Z)
    (filename language : string) (instructions : Relevant)
    (fileIntent : IntentAnalyzer.FileIntent) : list Comment.t :=
  let context :=
    {| ConfidenceScorer.filename := filename;
       ConfidenceScorer.ctxLanguage := language;
       ConfidenceScorer.lineNumber := lineNumber;
       ConfidenceScorer.isTestFile := IntentAnalyzer.isTestFile fileIntent;
       ConfidenceScorer.isConfigFile :=
         IntentAnalyzer.isConfigFile fileIntent;
       ConfidenceScorer.isMigrationFile :=
         IntentAnalyzer.isMigrationFile fileIntent;
       ConfidenceScorer.fileType := IntentAnalyzer.type fileIntent |} in
  map (fun issue =>
    let confidence :=
      ConfidenceScorer.calculateConfidence (confidenceScorer self) issue
        context in
    let categoryInfo := IssueCategorizer.categorize issue in
    createComment filename lineNumber (message issue)
      (IssueCategorizer.catSeverity categoryInfo) (suggestion issue)
      confidence (IssueCategorizer.category categoryInfo)
      (IssueCategorizer.emoji categoryInfo))
    (rawIssues lineContent language instructions fileIntent).

(** [lines.map((content, index) => ({ line: index + 1, content }))] *)
Fixpoint numbered (index : Z) (lines : list string) : list ChangedLine :=
  match lines with
  | [] => []
  | content :: lines' =>
      {| clLine := index + 1; clContent := content |}
      :: numbered (index + 1) lines'
  end.

(** [analyzeFile(file, changedLinesList)].  A language that is not a
    string makes [language.toLowerCase()] throw. *)
Definition analyzeFile (self : t) (file : File)
    (changedLinesList : list ChangedLine) : Completion (list Comment.t) :=
  match Utils.detectLanguage (fileName file) with
  | None => Throw "TypeError: language.toLowerCase is not a function"
  | Some language =>
      let fileIntent :=
        IntentAnalyzer.analyzeFileIntent (fileName file) (content file) in
      let relevantInstructions := getRelevantInstructions self language in
      let lines := split newline (content file) in
      let linesToAnalyze :=
        match changedLinesList with
        | _ :: _ => changedLinesList
        | [] => numbered 0 lines
        end in
      Normal (flat_map (fun cl =>
        analyzeLine self (clContent cl) (clLine cl) (fileName file)
          language relevantInstructions fileIntent) linesToAnalyze)
  end.

(** A comment read as an issue by the categorizer: it has neither tags nor
    a rule identifier. *)
Definition asIssue (comment : Comment.t) : Issue :=
  {| message := Comment.message comment;
     severity := Some (Comment.severity comment);
     suggestion := Comment.suggestion comment;
     ruleId := None; tags := None; matchType := None; source := None;
     language := None; pattern := None;
     confidence := Comment.confidence comment |}.

(** [comments.reduce((sum, c) => sum + (c.confidence || 0), 0)] *)
Definition confidenceSum (comments : list Comment.t) : Z :=
  fold_left (fun sum c => sum + JSNumber.orZero (Comment.confidence c))
    comments 0.

(** [Math.round(sum / n)] for an integer [sum] and a positive length [n]:
    the quotient is taken exactly and rounded half up. *)
Definition roundedAverage (sum : Z) (n : nat) : Z :=
  Qfloor (Qplus (Qdiv (inject_Z sum) (inject_Z (Z.of_nat n))) (1 # 2)).

Definition showNat (n : nat) : string := ofZ (Z.of_nat n).

Definition generateSummary (self : t) (comments : list Comment.t) : string :=
  let stats := snd (IssueCategorizer.categorizeMultiple (map asIssue comments)) in
  let summary := "## Code Review Summary" +:+ nl +:+ nl in
  let summary :=
    match comments with
    | [] => summary +:+ "✅ No issues found. Code looks good!" +:+ nl
    | _ :: _ =>
        let summary :=
          summary +:+ "Found " +:+ showNat (IssueCategorizer.total stats)
                  +:+ " issue(s):" +:+ nl +:+ nl in
        let summary :=
          if Nat.ltb 0 (IssueCategorizer.bugs stats)
          then summary +:+ "🔴 **" +:+ showNat (IssueCategorizer.bugs stats)
                       +:+ " Bugs** - Must fix before merge" +:+ nl
          else summary in
        let summary :=
          if Nat.ltb 0 (IssueCategorizer.refactors stats)
          then summary +:+ "🟡 **"
                       +:+ showNat (IssueCategorizer.refactors stats)
                       +:+ " Refactors** - Should fix for quality" +:+ nl
          else summary in
        let summary :=
          if Nat.ltb 0 (IssueCategorizer.suggestions stats)
          then summary +:+ "🔵 **"
                       +:+ showNat (IssueCategorizer.suggestions stats)
                       +:+ " Suggestions** - Nice to have" +:+ nl
          else summary in
        let summary := summary +:+ nl in
        let summary :=
          if Nat.ltb 0 (IssueCategorizer.critical stats)
          then summary +:+ "⚠️ "
                       +:+ showNat (IssueCategorizer.critical stats)
                       +:+ " critical issue(s)" +:+ nl
          else summary in
        let avgConfidence :=
          roundedAverage (confidenceSum comments) (length comments) in
        summary +:+ nl +:+ "📊 Average confidence: " +:+ ofZ avgConfidence
                +:+ "%" +:+ nl
    end in
  summary +:+ nl
    +:+ (if truthy (Some (tone (instructions self)))
         then tone (instructions self)
         else "Please review the comments below.").

End CodeAnalyzer.

(** ** services/github-service.js *)

Module GitHubService.
Import JSString.

(** The glyph literals of [formatCommentBody], byte for byte as the file
    holds them. *)
Definition defaultEmoji : string := "üîµ".
Definition veryHighGlyph : string := "üéØ".
Definition highGlyph : string := "‚úÖ".
Definition mediumGlyph : string := "‚ö†Ô∏è".
Definition lowGlyph : string := "‚ùî".
Definition suggestionGlyph : string := "üí°".

(** [x || fallback] for an optional string property. *)
Definition orDefault (o : option string) (fallback : string) : string :=
  if truthy o then default fallback o else fallback.

Definition confidenceEmoji (confidence : JSNum) : string :=
  if JSNumber.geb confidence 90 then veryHighGlyph
  else if JSNumber.geb confidence 75 then highGlyph
  else if JSNumber.geb confidence 60 then mediumGlyph
  else lowGlyph.

Definition formatCommentBody (comment : Comment.t) : string :=
  let body := EmptyString in
  let emoji := orDefault (Comment.emoji comment) defaultEmoji in
  let category := orDefault (Comment.category comment) "SUGGESTION" in
  let confidence := default (Num 70) (Comment.confidence comment) in
  let body :=
    body +:+ emoji +:+ " **" +:+ category +:+ "** "
         +:+ confidenceEmoji confidence +:+ " (Confidence: "
         +:+ JSNumber.toString confidence +:+ "%)" +:+ nl +:+ nl in
  let body := body +:+ Comment.message comment +:+ nl in
  if truthy (Comment.suggestion comment)
  then body +:+ nl +:+ suggestionGlyph +:+ " **Suggestion**: "
            +:+ default EmptyString (Comment.suggestion comment)
  else body.

End GitHubService.

(** ** The design document's formulations

  Definitions that follow the wording of the design document, to be
  compared with the functions above. *)

Module Design.
Import JSString IssueOps.

(** "clamp(sum of four sub-scores, 0, 100)" *)
Definition clamp (lo hi x : Z) : Z := Z.min hi (Z.max lo x).

(** Pattern-match strength as the document tabulates it: security-tagged
    30, exact or structural match 25, regular-expression match 20, keyword
    match 10, unspecified 15. *)
Definition patternStrength (issue : Issue) : Z :=
  if hasTag issue "security" then 30
  else if strIs (matchType issue) "exact" || strIs (matchType issue) "ast"
  then 25
  else if strIs (matchType issue) "regex" then 20
  else if strIs (matchType issue) "keyword" then 10
  else 15.

(** The ordered predicate list of the file classifier: one predicate per
    file kind, most specific first. *)
Import IntentAnalyzer.

Definition isTestPath (p : string) : bool :=
  Regex.test false reTestSuffix p
  || includes p "__tests__/" || includes p "/tests/".

Definition isMockPath (p : string) : bool :=
  includes p "__mocks__/" || includes p "__fixtures__/".

Definition isConfigPath (p : string) : bool :=
  Regex.test false reRcFile p || Regex.test false reConfigSuffix p
  || Regex.test false reConfigDir p
  || String.eqb p ".env" || endsWith p ".env.example".

Definition isMigrationPath (p : string) : bool :=
  includes p "/migrations/" || includes p "/migrate/"
  || Regex.test false reDatedMigration p.

Definition isScriptPath (p : string) : bool :=
  Regex.test false reScriptDir p || Regex.test false reShell p.

Definition isTypesPath (p : string) : bool :=
  endsWith p ".d.ts" || includes p "/types/".

Definition isBuildPath (p : string) : bool :=
  Regex.test false reBuildTool p.

Definition fileTypeTable : list ((string -> bool) * FileType) :=
  [(isTestPath, Test); (isMockPath, Mock); (isConfigPath, Config);
   (isMigrationPath, Migration); (isScriptPath, Script);
   (isTypesPath, Types); (isBuildPath, Build)].

(** First match wins; no match is production code. *)
Fixpoint firstMatch (table : list ((string -> bool) * FileType))
    (p : string) : FileType :=
  match table with
  | [] => Production
  | (holds, kind) :: table' =>
      if holds p then kind else firstMatch table' p
  end.

Definition classifyFile (path : string) : FileType :=
  firstMatch fileTypeTable
    (replaceChar backslash slash (toLowerCase path)).

(** The presentation order: BUG before REFACTOR before SUGGESTION, and
    within a category the higher confidence first. *)
Import IssueCategorizer.

Definition categoryRank (c : string) : Z :=
  if String.eqb c "BUG" then 1
  else if String.eqb c "REFACTOR" then 2
  else 3.

Definition entryConfidence (e : Categorized) : Z :=
  JSNumber.orZero (confidence (issue e)).

Definition presentedBefore (a b : Categorized) : Prop :=
  categoryRank (category (info a)) < categoryRank (category (info b))
  \/ (category (info a) = category (info b)
      /\ entryConfidence b <= entryConfidence a).

(** Entries of one category and one confidence. *)
Definition sameKey (c : string) (n : Z) (e : Categorized) : bool :=
  String.eqb (category (info e)) c && Z.eqb (entryConfidence e) n.

(** A label none of whose keywords the classifier knows. *)
Definition labelKeywords : list string :=
  ["breaking"; "security"; "hotfix"; "urgent"; "wip"; "draft"].

Definition knownLabel (l : Label) : bool :=
  existsb (includes (toLowerCase (labelName l))) labelKeywords.

(** The display body of a finding as the document gives it, over a table
    of glyphs: four confidence marks and the suggestion mark. *)
Record Glyphs : Type := mkGlyphs {
  veryHigh : string;
  high : string;
  medium : string;
  low : string;
  bulb : string
}.

Definition confidenceGlyph (g : Glyphs) (confidence : JSNum) : string :=
  if JSNumber.geb confidence 90 then veryHigh g
  else if JSNumber.geb confidence 75 then high g
  else if JSNumber.geb confidence 60 then medium g
  else low g.

Definition layout (g : Glyphs) (emoji category : string)
    (confidence : JSNum) (message : string) (suggestion : option string)
    : string :=
  emoji +:+ " **" +:+ category +:+ "** " +:+ confidenceGlyph g confidence
    +:+ " (Confidence: " +:+ JSNumber.toString confidence +:+ "%)"
    +:+ nl +:+ nl +:+ message +:+ nl
    +:+ match suggestion with
        | Some s => nl +:+ bulb g +:+ " **Suggestion**: " +:+ s
        | None => EmptyString
        end.

(** The glyphs the document names: target, check mark, warning sign,
    question mark, and the light bulb. *)
Definition documentedGlyphs : Glyphs :=
  {| veryHigh := "🎯"; high := "✅"; medium := "⚠️"; low := "❔";
     bulb := "💡" |}.

Definition displayBody : string -> string -> JSNum -> string
    -> option string -> string :=
  layout documentedGlyphs.

(** The glyph literals of [formatCommentBody]. *)
Definition sourceGlyphs : Glyphs :=
  {| veryHigh := GitHubService.veryHighGlyph;
     high := GitHubService.highGlyph;
     medium := GitHubService.mediumGlyph;
     low := GitHubService.lowGlyph;
     bulb := GitHubService.suggestionGlyph |}.

(** The changed line of worked scenario A. *)
Definition scenarioALine : string :=
  "const apiKey = " +:+ dq +:+ "sk-1234567890abcdef" +:+ dq +:+ ";".

End Design.

(** ** Invariants and auxiliary relations used in the proofs *)

Module Invariants.
Import IssueCategorizer.

(** The invariant of the rule-history store: every entry has been counted
    at least once. *)
Definition counted (self : ConfidenceScorer.t) : Prop :=
  map_Forall
    (fun _ h =>
       (1 <= ConfidenceScorer.correct h
             + ConfidenceScorer.falsePositive h)%nat)
    (ConfidenceScorer.ruleHistory self).

(** An entry whose category properties are those of its own issue. *)
Definition laidOver (e : Categorized) : Prop :=
  info e = categorize (issue e).

(** Every group captured in [cs] is still captured in [cs']. *)
Definition keeps (cs cs' : Regex.Captures) : Prop :=
  forall n, Regex.capture n cs <> None -> Regex.capture n cs' <> None.

(** What a successful run yields: the answer of the continuation at some
    state that has lost no capture. *)
Definition handsOn (st : Regex.MState)
    (k : Regex.MState -> option Regex.Captures) (c : Regex.Captures)
    : Prop :=
  exists st', k st' = Some c /\ keeps (Regex.caps st) (Regex.caps st').

(** The order a comparison function induces, and that of [compareFn]. *)
Definition leBy {A : Type} (cmp : A -> A -> Z) (a b : A) : Prop :=
  cmp a b <= 0.

Definition cmpLe : Categorized -> Categorized -> Prop := leBy compareFn.

End Invariants.

(** ** Concrete inputs used below *)

Module Scenarios.
Import JSString CodeAnalyzer.

(** The raw issue the security detector and [analyzeLine] build for the
    line of scenario A. *)
Definition scenarioAIssue : Issue :=
  CodeAnalyzer.asSecurityIssue
    (CodeAnalyzer.detected "Potential hardcoded API key detected" None
       "Use environment variables or a secure secret management system"
       "hardcoded-secrets" ["security"; "vulnerability"; "secrets"] None).

(** An issue tagged both [security] and [performance]: it matches the bug
    table and the refactor table. *)
Definition securityAndPerformance : Issue :=
  {| message := "slow and unsafe"; severity := None; suggestion := None;
     ruleId := None; tags := Some ["performance"; "security"];
     matchType := None; source := None; language := None;
     pattern := None; confidence := None |}.

(** The same issue with the pattern that found it attached. *)
Definition scenarioAIssueWithPattern : Issue :=
  {| message := message scenarioAIssue; severity := severity scenarioAIssue;
     suggestion := suggestion scenarioAIssue;
     ruleId := ruleId scenarioAIssue; tags := tags scenarioAIssue;
     matchType := matchType scenarioAIssue;
     source := source scenarioAIssue; language := language scenarioAIssue;
     pattern := Some "(api[_-]?key|apikey)";
     confidence := confidence scenarioAIssue |}.

(** The same issue once a confidence has been attached. *)
Definition scoredScenarioAIssue : Issue :=
  {| message := "scored"; severity := severity scenarioAIssue;
     suggestion := suggestion scenarioAIssue;
     ruleId := ruleId scenarioAIssue; tags := tags scenarioAIssue;
     matchType := matchType scenarioAIssue;
     source := source scenarioAIssue; language := language scenarioAIssue;
     pattern := pattern scenarioAIssue; confidence := Some (Num 71) |}.

(** A finding with a suggestion, as the document describes that of
    scenario A. *)
Definition scenarioAFinding : Comment.t :=
  {| Comment.path := "src/app.js";
     Comment.line := 1;
     Comment.message := "Potential hardcoded API key detected";
     Comment.severity := "critical";
     Comment.suggestion :=
       Some "Use environment variables or a secure secret management system";
     Comment.confidence := Some (Num 86);
     Comment.category := Some "BUG";
     Comment.emoji := Some "🔴" |}.

(** The finding the pipeline produces for scenario A. *)
Definition scenarioAFinding71 : Comment.t :=
  {| Comment.path := "src/app.js";
     Comment.line := 1;
     Comment.message := "Potential hardcoded API key detected";
     Comment.severity := "critical";
     Comment.suggestion :=
       Some "Use environment variables or a secure secret management system";
     Comment.confidence := Some (Num 71);
     Comment.category := Some "BUG";
     Comment.emoji := Some "🔴" |}.

Definition consoleRule : Rule :=
  {| text := "Remove console.log statements before merging";
     isPattern := true; ruleSeverity := "info" |}.

Definition consoleLine : string :=
  "console.log(" +:+ dq +:+ "x" +:+ dq +:+ ")".

(** A console rule worded so that the parser flags it as a pattern. *)
Definition checkConsoleRule : Rule :=
  {| text := "Check for console.log and print statement leftovers";
     isPattern := true; ruleSeverity := "info" |}.

(** A line with an assigned secret, as in scenario A. *)
Definition scenarioALineForWitness : string :=
  "token = " +:+ dq +:+ "abc" +:+ dq.

End Scenarios.

(** ** What the detectors can emit *)

Module Pipeline.
Import JSString CodeAnalyzer.

(** Rule identifier and tags of each built-in security finding. *)
Definition securityKinds : list (option string * option (list string)) :=
  [(Some "hardcoded-secrets", Some ["security"; "vulnerability"; "secrets"]);
   (Some "dangerous-eval", Some ["security"; "vulnerability"]);
   (Some "xss-vulnerability", Some ["security"; "vulnerability"; "xss"]);
   (Some "sql-injection", Some ["security"; "vulnerability"; "injection"])].

(** Those of the findings of [matchRule]. *)
Definition ruleKinds : list (option string * option (list string)) :=
  [(Some "no-console", Some ["style"; "production-only"]);
   (Some "no-print", Some ["style"; "production-only"]);
   (Some "no-commented-code", Some ["maintainability"])].

(** Those of the findings of [matchLanguageRule]. *)
Definition languageKinds : list (option string * option (list string)) :=
  [(Some "no-var", Some ["style"; "modern-syntax"]);
   (Some "prefer-template-literal", Some ["style"; "modern-syntax"])].

Definition kind (issue : Issue) : option string * option (list string) :=
  (ruleId issue, tags issue).

(** An issue as a detector leaves it: no source, language, pattern or
    confidence yet. *)
Definition fresh (issue : Issue) : Prop :=
  source issue = None /\ language issue = None
  /\ pattern issue = None /\ confidence issue = None.

(** The three shapes of a raw issue of [analyzeLine] for a file of language
    [lang]. *)
Definition securityShape (issue : Issue) : Prop :=
  In (kind issue) securityKinds
  /\ source issue = Some "builtin" /\ language issue = None
  /\ matchType issue = Some "regex".

Definition customShape (issue : Issue) : Prop :=
  In (kind issue) ruleKinds
  /\ source issue = Some "custom" /\ language issue = None.

Definition languageShape (lang : string) (issue : Issue) : Prop :=
  In (kind issue) languageKinds
  /\ source issue = Some "builtin" /\ language issue = Some lang
  /\ (lang = "javascript" \/ lang = "typescript").

Definition rawShape (lang : string) (issue : Issue) : Prop :=
  pattern issue = None /\ confidence issue = None
  /\ (securityShape issue \/ customShape issue \/ languageShape lang issue).

(** The category and severity pairs findings of the pipeline carry. *)
Definition pipelineGrades : list (option string * string) :=
  [(Some "BUG", "critical"); (Some "REFACTOR", "medium");
   (Some "SUGGESTION", "low")].

End Pipeline.

(** ** What a finding of the pipeline looks like *)

Module Findings.
Import Pipeline.

(** A finding of [analyzeLine] for line [n] of [filename]: located there,
    with a confidence between 45 and 74, all display properties present and
    one of three grades. *)
Definition graded (filename : string) (n : Z) (comment : Comment.t) : Prop :=
  Comment.path comment = filename
  /\ Comment.line comment = n
  /\ (exists c, Comment.confidence comment = Some (Num c) /\ 45 <= c <= 74)
  /\ In (Comment.category comment, Comment.severity comment) pipelineGrades
  /\ Comment.emoji comment <> None.

(** Not a finding about a console or print statement. *)
Definition notConsole (issue : Issue) : Prop :=
  ruleId issue <> Some "no-console" /\ ruleId issue <> Some "no-print".

(** A finding that needs no knowledge of the language. *)
Definition languageFree (issue : Issue) : Prop :=
  ruleId issue = Some "hardcoded-secrets"
  \/ ruleId issue = Some "no-commented-code".

Definition criticalBug (issue : Issue) : Prop :=
  IssueCategorizer.category (IssueCategorizer.categorize issue) = "BUG"
  /\ IssueCategorizer.catSeverity (IssueCategorizer.categorize issue)
     = "critical".

End Findings.

(** ** Counting feedback calls *)

Module Feedback.
Import ConfidenceScorer.

(** The number of calls for rule [id] with verdict [verdict]. *)
Definition countOf (id : string) (verdict : bool)
    (calls : list (string * bool)) : nat :=
  length (List.filter
            (fun call => String.eqb (fst call) id
                         && Bool.eqb (snd call) verdict) calls).

(** The entry the store should hold for [id] after [calls]. *)
Definition tally (id : string) (calls : list (string * bool))
    : option History :=
  match (countOf id true calls + countOf id false calls)%nat with
  | O => None
  | S _ => Some {| correct := countOf id true calls;
                   falsePositive := countOf id false calls |}
  end.

(** The entry for [id] after [calls], starting from the entry [start]. *)
Definition tallyFrom (start : option History) (id : string)
    (calls : list (string * bool)) : option History :=
  match start, tally id calls with
  | None, t => t
  | Some h, None => Some h
  | Some h, Some t =>
      Some {| correct := correct h + correct t;
              falsePositive := falsePositive h + falsePositive t |}
  end.

(** The default history sub-score of a rule without an entry. *)
Definition defaultHistory (id : string) : Z :=
  if JSString.arrIncludes highAccuracyRules id then 18
  else if JSString.arrIncludes mediumAccuracyRules id then 14
  else 10.

End Feedback.

(** ** config/config.js *)

Module Config.
Import JSString.

Record t : Type := mk {
  githubToken : string;
  bitbucketUsername : string;
  bitbucketAppPassword : string;
  bitbucketWorkspace : string;
  reviewMode : string
}.

(** [process.env.NAME || fallback]: the fallback also replaces an empty
    value. *)
Definition envOr (env : gmap string string) (name fallback : string)
    : string :=
  match env !! name with
  | Some (String c v) => String c v
  | _ => fallback
  end.

(** The part of the [config] object that [validateConfig] reads, built
    from the environment. *)
Definition load (env : gmap string string) : t :=
  {| githubToken := envOr env "GITHUB_TOKEN" "";
     bitbucketUsername := envOr env "BITBUCKET_USERNAME" "";
     bitbucketAppPassword := envOr env "BITBUCKET_APP_PASSWORD" "";
     bitbucketWorkspace := envOr env "BITBUCKET_WORKSPACE" "";
     reviewMode := envOr env "REVIEW_MODE" "preview" |}.

Definition isEmpty (s : string) : bool :=
  match s with EmptyString => true | String _ _ => false end.

Definition validationErrors (config : t) : list string :=
  (if isEmpty (githubToken config) && isEmpty (bitbucketUsername config)
   then ["Either GITHUB_TOKEN or BITBUCKET credentials must be configured"]
   else [])
  ++ (if negb (isEmpty (bitbucketUsername config))
         && isEmpty (bitbucketAppPassword config)
      then ["BITBUCKET_APP_PASSWORD is required when BITBUCKET_USERNAME is set"]
      else [])
  ++ (if negb (arrIncludes ["preview"; "direct"] (reviewMode config))
      then ["REVIEW_MODE must be either " +:+ dq +:+ "preview" +:+ dq
            +:+ " or " +:+ dq +:+ "direct" +:+ dq]
      else []).

(** [validateConfig()]: validity and the list of errors. *)
Definition validateConfig (config : t) : bool * list string :=
  let errors := validationErrors config in
  (match errors with [] => true | _ :: _ => false end, errors).

End Config.

(** ** Predicates on intents *)

Module Intents.
Import JSString IntentAnalyzer.

(** The label mentions work in progress. *)
Definition draftLabel (l : Label) : bool :=
  includes (toLowerCase (labelName l)) "wip"
  || includes (toLowerCase (labelName l)) "draft".

Definition securityLabel (l : Label) : bool :=
  includes (toLowerCase (labelName l)) "security".

(** A flag that is set stays set. *)
Definition flagKept (before after : option bool) : Prop :=
  before = Some true -> after = Some true.

(** What labels leave alone and what they may only add to. *)
Definition extends (before after : PRIntent) : Prop :=
  prType after = prType before
  /\ scope after = scope before
  /\ description after = description before
  /\ expectTests after = expectTests before
  /\ expectDocs after = expectDocs before
  /\ allowLargeDiffs after = allowLargeDiffs before
  /\ expectBenchmarks after = expectBenchmarks before
  /\ skipCodeChecks after = skipCodeChecks before
  /\ (exists added, focusAreas after = focusAreas before ++ added)
  /\ flagKept (requireMigrationGuide before) (requireMigrationGuide after)
  /\ flagKept (isUrgent before) (isUrgent after)
  /\ flagKept (isDraft before) (isDraft after).

End Intents.

(** ** The text of the run summary *)

Module Summary.
Import JSString CodeAnalyzer.

(** The closing line: the tone of the instructions, or the fixed default. *)
Definition closing (self : CodeAnalyzer.t) : string :=
  if truthy (Some (tone (instructions self)))
  then tone (instructions self)
  else "Please review the comments below.".

(** The summary of a run without findings. *)
Definition emptySummary (self : CodeAnalyzer.t) : string :=
  "## Code Review Summary" +:+ nl +:+ nl
    +:+ "✅ No issues found. Code looks good!" +:+ nl +:+ nl
    +:+ closing self.

(** The summary of a run with [n] findings of average confidence [avg],
    all counted as suggestions. *)
Definition suggestionsSummary (self : CodeAnalyzer.t) (n : nat) (avg : Z)
    : string :=
  "## Code Review Summary" +:+ nl +:+ nl
    +:+ "Found " +:+ showNat n +:+ " issue(s):" +:+ nl +:+ nl
    +:+ "🔵 **" +:+ showNat n +:+ " Suggestions** - Nice to have" +:+ nl
    +:+ nl +:+ nl
    +:+ "📊 Average confidence: " +:+ ofZ avg +:+ "%" +:+ nl +:+ nl
    +:+ closing self.

(** The extension [detectLanguage] reads off a file name. *)
Definition extension (filename : string) : string :=
  toLowerCase (List.last (split "." filename) EmptyString).

End Summary.

(** ** The language of a regular expression *)

Module Language.
Import JSString Regex.

(** Character-wise equality of a literal and a word, up to case when the
    [i] flag is set. *)
Fixpoint strEq (ic : bool) (s w : string) : bool :=
  match s, w with
  | EmptyString, EmptyString => true
  | String a s', String c w' => charEq ic a c && strEq ic s' w'
  | _, _ => false
  end.

(** The words a regular expression can consume; anchors and boundaries
    consume nothing. *)
Inductive Matches (ic : bool) : Regex.t -> string -> Prop :=
| MEmpty : Matches ic Empty EmptyString
| MChr a c : charEq ic a c = true -> Matches ic (Chr a) (chr c)
| MStr s w : strEq ic s w = true -> Matches ic (Str s) w
| MAny c : isLineTerminator c = false -> Matches ic Any (chr c)
| MClass items c :
    classHas ic items c = true -> Matches ic (Class items) (chr c)
| MNClass items c :
    classHas ic items c = false -> Matches ic (NClass items) (chr c)
| MSeq r1 r2 w1 w2 :
    Matches ic r1 w1 -> Matches ic r2 w2 -> Matches ic (Seq r1 r2) (w1 +:+ w2)
| MAltL r1 r2 w : Matches ic r1 w -> Matches ic (Alt r1 r2) w
| MAltR r1 r2 w : Matches ic r2 w -> Matches ic (Alt r1 r2) w
| MStarNil r : Matches ic (Star r) EmptyString
| MStarCons r w1 w2 :
    Matches ic r w1 -> Matches ic (Star r) w2 ->
    Matches ic (Star r) (w1 +:+ w2)
| MPlus r w1 w2 :
    Matches ic r w1 -> Matches ic (Star r) w2 ->
    Matches ic (Plus r) (w1 +:+ w2)
| MOptNone r : Matches ic (Opt r) EmptyString
| MOptSome r w : Matches ic r w -> Matches ic (Opt r) w
| MTimesO r : Matches ic (Times O r) EmptyString
| MTimesS n r w1 w2 :
    Matches ic r w1 -> Matches ic (Times n r) w2 ->
    Matches ic (Times (S n) r) (w1 +:+ w2)
| MGroup n r w : Matches ic r w -> Matches ic (Group n r) w
| MBol : Matches ic Bol EmptyString
| MEol : Matches ic Eol EmptyString
| MWordB : Matches ic WordB EmptyString.

(** Does group [n] occur in the expression? *)
Fixpoint mentions (n : nat) (r : Regex.t) : bool :=
  match r with
  | Seq r1 r2 | Alt r1 r2 => mentions n r1 || mentions n r2
  | Star r' | Plus r' | Opt r' | Times _ r' => mentions n r'
  | Group m r' => Nat.eqb m n || mentions n r'
  | _ => false
  end.

(** What a successful run yields, in full: the continuation answered at a
    state reached by consuming a word of the language, with the captures of
    the groups that do not occur in the expression untouched. *)
Definition consumes (ic : bool) (r : Regex.t) (st : MState)
    (k : MState -> option Captures) (c : Captures) : Prop :=
  exists st' w,
    k st' = Some c
    /\ rest st = w +:+ rest st'
    /\ Matches ic r w
    /\ (forall n, mentions n r = false ->
        capture n (caps st') = capture n (caps st)).

(** All characters of a word satisfy a test. *)
Fixpoint allChars (p : ascii -> bool) (w : string) : bool :=
  match w with
  | EmptyString => true
  | String c w' => p c && allChars p w'
  end.

(** The 256 characters. *)
Definition everyChar : list ascii := map ascii_of_nat (seq 0 256).

End Language.

(** ** Conventional titles *)

Module Conventional.
Import JSString IntentAnalyzer.

(** The change types of the title grammar. *)
Definition typeKeywords : list string :=
  ["feat"; "fix"; "refactor"; "perf"; "docs"; "test"; "chore"; "style";
   "build"; "ci"].

(** The expectation flags, read off the change type. *)
Definition flagsFollowType (i : PRIntent) : Prop :=
  expectTests i = arrIncludes ["feat"; "fix"] (prType i)
  /\ expectDocs i = String.eqb (prType i) "feat"
  /\ allowLargeDiffs i = String.eqb (prType i) "refactor"
  /\ expectBenchmarks i = String.eqb (prType i) "perf"
  /\ skipCodeChecks i = String.eqb (prType i) "docs".

End Conventional.

(** ** utils/utils.js: diffs *)

Module Diffs.
Import JSString Regex.

Record Change : Type := mkChange {
  changeType : ascii;
  changeContent : string;
  lineNumber : JSNum
}.

Record Hunk : Type := mkHunk {
  oldStart : JSNum;
  newStart : JSNum;
  changes : list Change
}.

Record DiffFile : Type := mkDiffFile {
  path : string;
  hunks : list Hunk
}.

Record DiffLine : Type := mkDiffLine {
  line : JSNum;
  content : string
}.

(** The pattern of the path line: the literal [+++ b/], then group 1, any
    run of characters other than line terminators. *)
Definition rePath : Regex.t := seqs [Str "+++ b/"; Group 1 (Star Any)].

(** The pattern of a hunk header: [@@ -], digits (group 1), an optional
    comma, digits, [ +], digits (group 2), an optional comma, digits,
    [ @@]. *)
Definition reHunk : Regex.t :=
  seqs [Str "@@ -"; Group 1 (Plus (Class [Digit])); Opt (Chr ",");
        Star (Class [Digit]); Str " +"; Group 2 (Plus (Class [Digit]));
        Opt (Chr ","); Star (Class [Digit]); Str " @@"].

Definition digitValue (c : ascii) : Z := Z.of_N (code c) - 48.

(** The decimal value of a string of digits, most significant first. *)
Definition decimal (s : string) : Z :=
  fold_left (fun acc c => 10 * acc + digitValue c) (list_ascii_of_string s) 0.

Fixpoint allDigits (s : string) : bool :=
  match s with
  | EmptyString => true
  | String c s' => isDigit c && allDigits s'
  end.

(** [parseInt(x)] for what a [\d+] group can hand over: [undefined] when
    the group took no part, else a non-empty string of decimal digits.
    Numbers are exact integers here, as doubles are up to 2^53. *)
Definition parseInt (x : option string) : JSNum :=
  match x with
  | Some (String c s') =>
      if allDigits (String c s') then Num (decimal (String c s')) else NaN
  | _ => NaN
  end.

(** The loop state of [parseDiff].  [currentHunk] refers to the hunk object
    pushed last onto [currentFile.hunks]; it is kept as the index of that
    hunk, so that a change pushed through it lands in the file. *)
Record State : Type := mkState {
  files : list DiffFile;
  currentFile : option DiffFile;
  currentHunk : option nat
}.

Definition isRemoval (c : Change) : bool := Ascii.eqb (changeType c) "-".
Definition isAddition (c : Change) : bool := Ascii.eqb (changeType c) "+".

(** [currentHunk.changes.push({ type: line[0], content: line.substring(1),
    lineNumber: ... })] *)
Definition addChange (l : string) (h : Hunk) : Hunk :=
  match l with
  | String c l' =>
      mkHunk (oldStart h) (newStart h)
        (changes h ++
         [mkChange c l'
            (JSNumber.add (newStart h)
               (Num (Z.of_nat
                  (length (List.filter (fun c => negb (isRemoval c))
                             (changes h))))))])
  | EmptyString => h
  end.

(** [if (currentFile) files.push(currentFile)] *)
Definition pushCurrent (st : State) : list DiffFile :=
  match currentFile st with
  | Some f => files st ++ [f]
  | None => files st
  end.

(** The body of the [for (const line of lines)] loop. *)
Definition parseLine (st : State) (l : string) : State :=
  if startsWith l "diff --git" then
    mkState (pushCurrent st) (Some (mkDiffFile EmptyString [])) None
  else if startsWith l "+++" then
    match Regex.exec false rePath l, currentFile st with
    | Some m, Some f =>
        mkState (files st)
          (Some (mkDiffFile (default EmptyString (capture 1 m)) (hunks f)))
          (currentHunk st)
    | _, _ => st
    end
  else if startsWith l "@@" then
    match Regex.exec false reHunk l, currentFile st with
    | Some m, Some f =>
        mkState (files st)
          (Some (mkDiffFile (path f)
             (hunks f ++ [mkHunk (parseInt (capture 1 m))
                            (parseInt (capture 2 m)) []])))
          (Some (length (hunks f)))
    | _, _ => st
    end
  else
    match currentHunk st with
    | Some ix =>
        if startsWith l "+" || startsWith l "-" || startsWith l " " then
          mkState (files st)
            (option_map (fun f =>
               mkDiffFile (path f) (alter (addChange l) ix (hunks f)))
               (currentFile st))
            (currentHunk st)
        else st
    | None => st
    end.

Definition initial : State := mkState [] None None.

Definition parseDiff (diffContent : string) : list DiffFile :=
  pushCurrent (fold_left parseLine (split newline diffContent) initial).

(** The inner loop of [getChangedLines] over the changes of one hunk. *)
Fixpoint hunkLines (lineNumber : JSNum) (cs : list Change)
    : list DiffLine :=
  match cs with
  | [] => []
  | change :: cs' =>
      (if isAddition change
       then [mkDiffLine lineNumber (changeContent change)] else [])
      ++ hunkLines
           (if isRemoval change then lineNumber
            else JSNumber.add lineNumber (Num 1))
           cs'
  end.

Definition fileLines (f : DiffFile) : list DiffLine :=
  flat_map (fun h => hunkLines (newStart h) (changes h)) (hunks f).

(** [getChangedLines(diffContent)]: the own properties of the object it
    returns.  Assigning to the key [__proto__] sets the prototype of the
    object instead of adding a property. *)
Definition getChangedLines (diffContent : string)
    : gmap string (list DiffLine) :=
  fold_left (fun changedLines f =>
    if String.eqb (path f) "__proto__" then changedLines
    else <[path f := fileLines f]> changedLines)
    (parseDiff diffContent) ∅.

(** *** Notions for stating what the parser yields *)

Definition isHeader (l : string) : bool := startsWith l "diff --git".

(** The lines the last branch of the loop takes for changes. *)
Definition recorded (l : string) : bool :=
  negb (startsWith l "+++")
  && (startsWith l "+" || startsWith l "-" || startsWith l " ").

Definition allHunks (fs : list DiffFile) : list Hunk := flat_map hunks fs.

Definition allChanges (fs : list DiffFile) : list Change :=
  flat_map changes (allHunks fs).

(** The line a change was read from. *)
Definition sourceLine (c : Change) : string :=
  String (changeType c) (changeContent c).

(** The added changes of a hunk with the numbers the parser recorded. *)
Definition recordedAdditions (h : Hunk) : list DiffLine :=
  map (fun c => mkDiffLine (lineNumber c) (changeContent c))
    (List.filter isAddition (changes h)).

(** Numbers at least [lo], strictly increasing. *)
Fixpoint increasingFrom (lo : Z) (ls : list DiffLine) : Prop :=
  match ls with
  | [] => True
  | l :: ls' =>
      exists z, line l = Num z /\ lo <= z /\ increasingFrom (z + 1) ls'
  end.

(** Hunks whose line numbers stay where doubles count by one. *)
Definition exactHunk (h : Hunk) : Prop :=
  match newStart h with
  | Num n => n + Z.of_nat (length (changes h)) <= 9007199254740992
  | NaN => True
  end.

(** A number in the range where the integers here are the doubles of the
    code: [parseInt] is exact up to 2^53 and rounds, or gives [Infinity],
    beyond. *)
Definition exactNumber (x : JSNum) : Prop :=
  match x with
  | Num n => n <= 9007199254740992
  | NaN => True
  end.

Definition exactStarts (h : Hunk) : Prop :=
  exactNumber (oldStart h) /\ exactNumber (newStart h).

Definition naturalStarts (h : Hunk) : Prop :=
  exists o n, oldStart h = Num o /\ newStart h = Num n /\ 0 <= o /\ 0 <= n.

End Diffs.

(** ** A diff of one file *)

Module DiffScenarios.
Import JSString Diffs.

(** One hunk at line 10 of the new file: a context line, an added line, a
    removed line and another added line. *)
Definition sampleDiff : string :=
  "diff --git a/x.js b/x.js" +:+ nl
  +:+ "--- a/x.js" +:+ nl
  +:+ "+++ b/x.js" +:+ nl
  +:+ "@@ -1,2 +10,3 @@" +:+ nl
  +:+ " a" +:+ nl
  +:+ "+b" +:+ nl
  +:+ "-c" +:+ nl
  +:+ "+e".

End DiffScenarios.

(** ** Language sections of the instructions *)

Module LanguageSections.
Import JSString CodeAnalyzer.

(** Every name [detectLanguage] can return. *)
Definition languageNames : list string :=
  map snd Utils.languageMap ++ ["unknown"].

(** The instructions with [rules] filed under the language heading [key]. *)
Definition withLanguageRules (key : string) (rules : list Rule)
    (i : Instructions) : Instructions :=
  mkInstructions (categories i) (<[key := rules]> (languageSpecific i))
    (tone i).

Definition reachableName (l : string) : bool :=
  arrIncludes languageNames l && String.eqb (toLowerCase l) l.

End LanguageSections.

(** ** instructions/instructions-parser.js: rules *)

Module InstructionsParser.
Import JSString Regex CodeAnalyzer.

(** The checkbox pattern of [parseRule]: at the start of the text an
    opening bracket, a blank or an [x], a closing bracket, then any white
    space. *)
Definition reCheckbox : Regex.t :=
  seqs [Bol; Chr "["; Class [Lit " "; Lit "x"]; Chr "]";
        Star (Class [Space])].

(** [s.substring(n)] *)
Definition substringFrom (n : nat) (s : string) : string :=
  String.substring n (String.length s - n) s.

(** [ruleText.replace(re, '')] for the checkbox pattern.  The pattern is
    anchored, so what it matches (group 0) starts the text. *)
Definition removeCheckbox (ruleText : string) : string :=
  match Regex.exec false (Group 0 reCheckbox) ruleText with
  | Some m =>
      match capture 0 m with
      | Some w => substringFrom (String.length w) ruleText
      | None => ruleText
      end
  | None => ruleText
  end.

Definition patternKeywords : list string :=
  ["check for"; "ensure"; "verify"; "look for"; "flag"; "must";
   "should not"; "avoid"].

Definition isPatternRule (text : string) : bool :=
  let lowerText := toLowerCase text in
  existsb (fun keyword => includes lowerText keyword) patternKeywords.

Definition determineSeverity (text : string) : string :=
  let lowerText := toLowerCase text in
  if includes lowerText "security" || includes lowerText "vulnerability"
     || includes lowerText "must"
  then "critical"
  else if includes lowerText "should" || includes lowerText "ensure"
          || includes lowerText "verify"
  then "warning"
  else "info".

Definition parseRule (ruleText : string) : Rule :=
  let cleanText := removeCheckbox ruleText in
  {| text := cleanText;
     isPattern := isPatternRule cleanText;
     ruleSeverity := determineSeverity cleanText |}.

(** The phrases [matchRule] looks for in a rule. *)
Definition triggerPhrases : list string :=
  ["console.log"; "print statement"; "commented-out code"].

Definition mentionsTrigger (text : string) : bool :=
  existsb (fun phrase => includes (toLowerCase text) phrase) triggerPhrases.

(** Two bullets of the shipped team conventions. *)
Definition shippedConventions : list string :=
  ["No commented-out code in final PR";
   "Remove console.log/print statements before merging"].

End InstructionsParser.

(** ** ASCII text *)

Module AsciiText.
Import JSString.

(** A string of 7-bit characters.  On these the byte-wise case maps above
    are the case maps of JavaScript; beyond them JavaScript also maps
    letters such as the long s (to [S]) and the Kelvin sign (to [k]). *)
Fixpoint isAscii (s : string) : bool :=
  match s with
  | EmptyString => true
  | String c s' => N.ltb (code c) 128 && isAscii s'
  end.

End AsciiText.

(** ** The rule-driven detector *)

Module RuleDriven.
Import JSString CodeAnalyzer.

(** The two rule loops of [analyzeLine]: the pattern rules of every
    category, then the rules of the language bucket. *)
Definition ruleDriven (lineContent language : string)
    (instructions : Relevant) (fileIntent : IntentAnalyzer.FileIntent)
    : list Issue :=
  flat_map (fun '(category, rules) =>
    map (asCustomIssue category)
      (applyInstructionRules lineContent rules language fileIntent))
    (general instructions)
  ++ map (asLanguageIssue language)
       (applyLanguageRules lineContent (relLanguageSpecific instructions)
          language fileIntent).

(** A rule set that holds one rule, filed under a category. *)
Definition inCategory (category : string) (rule : Rule) : Relevant :=
  {| general := [(category, [rule])]; relLanguageSpecific := [] |}.

(** A rule set that holds one rule, filed under the language of the file. *)
Definition inLanguageBucket (rule : Rule) : Relevant :=
  {| general := []; relLanguageSpecific := [rule] |}.

(** A rule that names two checks at once. *)
Definition varAndConsoleRule : Rule :=
  {| text := "Avoid var and console.log";
     isPattern := true; ruleSeverity := "info" |}.

Definition varConsoleLine : string := "var x = console.log(1)".

End RuleDriven.

(** ** Pull-request metadata as it arrives *)

Module RawMetadata.
Import JSString Regex IntentAnalyzer.

(** A JSON value: the form in which titles, bodies and labels reach
    [analyzePRIntent].  The fields of an object hold each key once. *)
#[local] Unset Elimination Schemes.
Inductive Json : Type :=
| JNull
| JBool (b : bool)
| JNumber (z : Z)
| JString (s : string)
| JArray (items : list Json)
| JObject (fields : list (string * Json)).
#[local] Set Elimination Schemes.

(** [o[key]] on an object; [None] is [undefined]. *)
Fixpoint property (key : string) (fields : list (string * Json))
    : option Json :=
  match fields with
  | [] => None
  | (k, v) :: fields' =>
      if String.eqb k key then Some v else property key fields'
  end.

(** [typeof label === 'string' ? label : label.name].  Reading a property
    of [null] throws; numbers, booleans and arrays have no [name]. *)
Definition labelName (label : Json) : Completion (option Json) :=
  match label with
  | JString s => Normal (Some (JString s))
  | JNull => Throw "TypeError: Cannot read properties of null (reading 'name')"
  | JObject fields => Normal (property "name" fields)
  | _ => Normal None
  end.

(** The body of the [for (const label of labels)] loop.  Only a string has
    the method [toLowerCase]; with the lower-cased name in hand the four
    tests are those of [IntentAnalyzer.applyLabel]. *)
Definition applyLabel (i : PRIntent) (label : Json) : Completion PRIntent :=
  bindC (labelName label) (fun name =>
    match name with
    | Some (JString s) => Normal (IntentAnalyzer.applyLabel i (LabelString s))
    | None =>
        Throw "TypeError: Cannot read properties of undefined (reading 'toLowerCase')"
    | Some JNull =>
        Throw "TypeError: Cannot read properties of null (reading 'toLowerCase')"
    | Some _ => Throw "TypeError: labelName.toLowerCase is not a function"
    end).

(** The loop: the first label that throws ends the call. *)
Fixpoint applyLabels (labels : list Json) (i : PRIntent)
    : Completion PRIntent :=
  match labels with
  | [] => Normal i
  | label :: labels' => bindC (applyLabel i label) (applyLabels labels')
  end.

(** [analyzePRIntent(prTitle, prBody, labels)] on arbitrary values.  Only a
    string has the method [match]; the body is never read. *)
Definition analyzePRIntent (prTitle prBody : Json) (labels : list Json)
    : Completion PRIntent :=
  match prTitle with
  | JString title =>
      bindC (applyTitle title (initialIntent title)) (applyLabels labels)
  | JNull => Throw "TypeError: Cannot read properties of null (reading 'match')"
  | _ => Throw "TypeError: prTitle.match is not a function"
  end.

(** The well-formed label a value stands for, if any: a string, or an
    object whose [name] is a string. *)
Definition toLabel (label : Json) : option Label :=
  match label with
  | JString s => Some (LabelString s)
  | JObject fields =>
      match property "name" fields with
      | Some (JString name) => Some (LabelObject name)
      | _ => None
      end
  | _ => None
  end.

Fixpoint typedLabels (labels : list Json) : option (list Label) :=
  match labels with
  | [] => Some []
  | label :: labels' =>
      match toLabel label, typedLabels labels' with
      | Some l, Some ls => Some (l :: ls)
      | _, _ => None
      end
  end.

Definition isString (v : Json) : bool :=
  match v with
  | JString _ => true
  | _ => false
  end.

End RawMetadata.

(** * Properties *)

(** ** Facts about strings *)

Section StringFacts.
Import JSString.

Lemma startsWith_toLowerCase (s p : string) :
  startsWith s p = true ->
  startsWith (toLowerCase s) (toLowerCase p) = true.
Proof.
  revert s. induction p as [|a p IH]; intros s H; [destruct s; reflexivity|].
  destruct s as [|b s]; [discriminate|].
  simpl in *. apply andb_true_iff in H as [Hab Hrest].
  apply Ascii.eqb_eq in Hab. subst b.
  rewrite Ascii.eqb_refl. simpl. now apply IH.
Qed.

Lemma includes_toLowerCase (s p : string) :
  includes s p = true ->
  includes (toLowerCase s) (toLowerCase p) = true.
Proof.
  induction s as [|c s IH]; cbn [includes toLowerCase]; intros H.
  - apply orb_true_iff in H as [H|H]; [|discriminate].
    apply startsWith_toLowerCase in H. cbn [toLowerCase] in H.
    now rewrite H.
  - apply orb_true_iff in H as [H|H].
    + apply startsWith_toLowerCase in H. cbn [toLowerCase] in H.
      now rewrite H.
    + rewrite (IH H). apply orb_true_r.
Qed.

Lemma append_assoc (a b c : string) : (a +:+ b) +:+ c = a +:+ b +:+ c.
Proof.
  induction a as [|x a IH]; [reflexivity|].
  change (String x ((a +:+ b) +:+ c) = String x (a +:+ b +:+ c)).
  now f_equal.
Qed.

Lemma arrIncludes_In (arr : list string) (x : string) :
  arrIncludes arr x = true <-> In x arr.
Proof.
  unfold arrIncludes. rewrite existsb_exists. split.
  - intros (y & Hy & Heq). apply String.eqb_eq in Heq. now subst.
  - intros H. exists x. split; [assumption|apply String.eqb_refl].
Qed.

End StringFacts.

(** ** The confidence scorer: pattern-match strength *)

Section PatternStrength.
Import JSString IssueOps ConfidenceScorer Design Invariants Scenarios.

(** The issue of scenario A carries the tag [security] and the match type
    [regex], yet its pattern sub-score is the default 15, not 30, because
    it has no [pattern] property. *)
Lemma scorePatternMatch_security_without_pattern :
  hasTag scenarioAIssue "security" = true
  /\ scorePatternMatch scenarioAIssue = 15
  /\ scorePatternMatch scenarioAIssue <> patternStrength scenarioAIssue.
Proof. repeat split. discriminate. Qed.

(** Behind the guard the table holds: an issue that carries a [pattern]
    property scores 30 when tagged [security], else 25 for the match types
    [exact] and [ast], 20 for [regex], 10 for [keyword] and 15 otherwise. *)
Lemma scorePatternMatch_table (issue : Issue) :
  truthy (pattern issue) = true ->
  scorePatternMatch issue = patternStrength issue.
Proof.
  intros Hpattern. unfold scorePatternMatch, patternStrength.
  rewrite Hpattern. reflexivity.
Qed.

Lemma scorePatternMatch_table_witness :
  scorePatternMatch scenarioAIssueWithPattern = 30
  /\ scorePatternMatch scenarioAIssueWithPattern
     = patternStrength scenarioAIssueWithPattern.
Proof.
  split; [reflexivity|].
  apply (scorePatternMatch_table scenarioAIssueWithPattern).
  reflexivity.
Defined.

(** Without the property the score is the default, whatever the tags. *)
Lemma scorePatternMatch_default (issue : Issue) :
  truthy (pattern issue) = false -> scorePatternMatch issue = 15.
Proof.
  intros Hpattern. unfold scorePatternMatch. now rewrite Hpattern.
Qed.

Lemma scorePatternMatch_range (issue : Issue) :
  10 <= scorePatternMatch issue <= 30.
Proof.
  unfold scorePatternMatch.
  repeat match goal with
         | |- context [if ?b then _ else _] => destruct b
         end; lia.
Qed.

End PatternStrength.

(** ** The issue categorizer *)

Section Categorize.
Import JSString IssueOps IssueCategorizer Scenarios.

Lemma hasTag_In (issue : Issue) (ts : list string) (t : string) :
  tags issue = Some ts -> In t ts -> hasTag issue t = true.
Proof.
  intros Hts Hin. unfold hasTag. rewrite Hts. now apply arrIncludes_In.
Qed.

Lemma someTagIn_In (issue : Issue) (ts table : list string) (t : string) :
  tags issue = Some ts -> In t ts -> In t table ->
  someTagIn issue table = true.
Proof.
  intros Hts Hin Htab. unfold someTagIn. rewrite Hts.
  apply existsb_exists. exists t. split; [assumption|].
  now apply arrIncludes_In.
Qed.

Lemma categorize_bug_first (issue : Issue) :
  isBug issue = true -> category (categorize issue) = "BUG".
Proof. intros H. unfold categorize. now rewrite H. Qed.

(** C4: an issue whose tags contain [security] is categorized BUG with
    severity critical, whatever else it matches: the bug table is consulted
    before the refactor table. *)
Theorem categorize_security (issue : Issue) (ts : list string) :
  tags issue = Some ts ->
  In "security" ts ->
  category (categorize issue) = "BUG"
  /\ catSeverity (categorize issue) = "critical".
Proof.
  intros Hts Hin.
  assert (Hbug : isBug issue = true).
  { unfold isBug.
    rewrite (someTagIn_In issue ts bugTags "security" Hts Hin);
      [reflexivity|]. simpl. auto. }
  unfold categorize. rewrite Hbug. simpl. split; [reflexivity|].
  unfold getBugSeverity. now rewrite (hasTag_In issue ts "security" Hts Hin).
Qed.

Lemma categorize_security_witness :
  isRefactor securityAndPerformance = true
  /\ category (categorize securityAndPerformance) = "BUG"
  /\ catSeverity (categorize securityAndPerformance) = "critical".
Proof.
  split; [reflexivity|].
  apply (categorize_security securityAndPerformance
           ["performance"; "security"]).
  - reflexivity.
  - simpl. auto.
Defined.

End Categorize.

(** ** Hard suppression in the rule-driven detector *)

Section HardSuppression.
Import JSString IntentAnalyzer CodeAnalyzer Scenarios RuleDriven.

Lemma matchRule_allowed (line : string) (rule : Rule) (language : string)
    (fileIntent : FileIntent) :
  includes (text rule) "console.log" = true ->
  arrIncludes (allowedPatterns fileIntent) "console.log" = true ->
  matchRule line rule language fileIntent = None.
Proof.
  intros Hrule Hallowed. unfold matchRule.
  apply includes_toLowerCase in Hrule.
  change (toLowerCase "console.log") with "console.log" in Hrule.
  rewrite Hrule, Hallowed. reflexivity.
Qed.

(** The language-specific matcher has no console check at all: it reports
    [var] declarations and string concatenation only. *)
Lemma matchLanguageRule_rules (line : string) (rule : Rule)
    (language : string) (fileIntent : FileIntent) (issue : Issue) :
  matchLanguageRule line rule language fileIntent = Some issue ->
  ruleId issue = Some "no-var"
  \/ ruleId issue = Some "prefer-template-literal".
Proof.
  unfold matchLanguageRule.
  repeat match goal with
         | |- context [if ?b then _ else _] => destruct b
         end; intros [= <-]; auto.
Qed.

(** The claim as stated fails in the language bucket: a rule that mentions
    console.log and also asks to avoid [var], filed under the language of
    a javascript test file, raises the [var] finding there. *)
Lemma language_bucket_not_suppressed :
  includes (text varAndConsoleRule) "console.log" = true
  /\ type (analyzeFileIntent "tests/foo.test.js" "") = Test
  /\ exists issue,
       ruleDriven varConsoleLine "javascript"
         (inLanguageBucket varAndConsoleRule)
         (analyzeFileIntent "tests/foo.test.js" "") = [issue]
       /\ ruleId issue = Some "no-var".
Proof.
  split; [vm_compute; reflexivity|]. split; [vm_compute; reflexivity|].
  eexists. split; [vm_compute; reflexivity|reflexivity].
Qed.

(** C5, amended: when the rule text contains "console.log", the language
    is javascript and the file is classified as a test file, [matchRule]
    returns no issue for any line, so the rule-driven detector emits
    nothing for that line from the rule as a category rule, whatever the
    category.  The rules of the language bucket are matched without regard
    to the allowed patterns: filed there, the rule can still raise the
    [var] or the string-concatenation finding, and nothing else. *)
Theorem console_log_suppressed_in_tests (rule : Rule)
    (line filename content : string) :
  includes (text rule) "console.log" = true ->
  type (analyzeFileIntent filename content) = Test ->
  matchRule line rule "javascript" (analyzeFileIntent filename content)
    = None
  /\ applyInstructionRules line [rule] "javascript"
       (analyzeFileIntent filename content) = []
  /\ (forall category,
        ruleDriven line "javascript" (inCategory category rule)
          (analyzeFileIntent filename content) = [])
  /\ Forall (fun issue =>
         ruleId issue = Some "no-var"
         \/ ruleId issue = Some "prefer-template-literal")
       (ruleDriven line "javascript" (inLanguageBucket rule)
          (analyzeFileIntent filename content)).
Proof.
  intros Hrule Htest.
  assert (H : matchRule line rule "javascript"
                (analyzeFileIntent filename content) = None).
  { apply matchRule_allowed; [assumption|].
    simpl in *. rewrite Htest. reflexivity. }
  assert (Hrules : applyInstructionRules line [rule] "javascript"
                     (analyzeFileIntent filename content) = []).
  { unfold applyInstructionRules. simpl. rewrite H.
    destruct (isPattern rule); reflexivity. }
  split; [assumption|]. split; [assumption|]. split.
  - intros category. unfold ruleDriven, inCategory.
    cbn [general relLanguageSpecific flat_map].
    rewrite Hrules. reflexivity.
  - unfold ruleDriven, inLanguageBucket, applyLanguageRules.
    cbn [general relLanguageSpecific flat_map app].
    destruct (matchLanguageRule line rule "javascript"
                (analyzeFileIntent filename content)) as [issue|] eqn:E;
      cbn [map app]; constructor; [|constructor].
    cbn [asLanguageIssue ruleId]. eapply matchLanguageRule_rules, E.
Qed.

Lemma console_log_suppressed_in_tests_witness :
  Regex.test false reConsoleLog consoleLine = true
  /\ matchRule consoleLine consoleRule "javascript"
       (analyzeFileIntent "tests/foo.test.js" "") = None
  /\ applyInstructionRules consoleLine [consoleRule] "javascript"
       (analyzeFileIntent "tests/foo.test.js" "") = []
  /\ (forall category,
        ruleDriven consoleLine "javascript" (inCategory category consoleRule)
          (analyzeFileIntent "tests/foo.test.js" "") = [])
  /\ Forall (fun issue =>
         ruleId issue = Some "no-var"
         \/ ruleId issue = Some "prefer-template-literal")
       (ruleDriven consoleLine "javascript" (inLanguageBucket consoleRule)
          (analyzeFileIntent "tests/foo.test.js" "")).
Proof.
  split; [vm_compute; reflexivity|].
  apply (console_log_suppressed_in_tests consoleRule consoleLine
           "tests/foo.test.js" "").
  - vm_compute. reflexivity.
  - vm_compute. reflexivity.
Defined.

End HardSuppression.

(** ** File-type classification *)

Section FileTypes.
Import JSString IntentAnalyzer Design Invariants.

Lemma detectFileType_table (filename : string) :
  detectFileType filename = classifyFile filename.
Proof.
  unfold detectFileType, classifyFile, normalizePath, fileTypeTable,
    firstMatch, isTestPath, isMockPath, isConfigPath, isMigrationPath,
    isScriptPath, isTypesPath, isBuildPath.
  set (p := replaceChar backslash slash (toLowerCase filename)).
  repeat match goal with
         | |- context [if ?b then _ else _] =>
             match b with
             | context [orb] => fail 1
             | _ => destruct b; simpl; try reflexivity
             end
         | |- context [orb ?a _] =>
             match a with
             | context [orb] => fail 1
             | _ => destruct a; simpl; try reflexivity
             end
         end.
Qed.

(** A path that satisfies the test predicate is a test file, whatever
    later predicates it satisfies. *)
Lemma test_predicate_wins (filename : string) :
  isTestPath (normalizePath filename) = true ->
  detectFileType filename = Test.
Proof.
  intros H. rewrite detectFileType_table.
  unfold classifyFile, fileTypeTable, firstMatch.
  unfold normalizePath in H. now rewrite H.
Qed.

(** C7: [detectFileType] normalizes the path (lower case, backslashes to
    slashes) and returns the kind of the first predicate that holds in the
    order test, mock, config, migration, script, types, build; when none
    holds the file is production code.  In particular a path that
    satisfies the test predicate and a later one is a test file. *)
Theorem detectFileType_first_match (filename : string) :
  detectFileType filename = classifyFile filename
  /\ (if isTestPath (normalizePath filename)
      then detectFileType filename = Test
      else detectFileType filename
           = firstMatch (tl fileTypeTable) (normalizePath filename)).
Proof.
  split; [apply detectFileType_table|].
  destruct (isTestPath (normalizePath filename)) eqn:H.
  - now apply test_predicate_wins.
  - rewrite detectFileType_table.
    unfold classifyFile, fileTypeTable. cbn [firstMatch tl].
    unfold normalizePath in H. now rewrite H.
Qed.

(** A path that satisfies the test predicate and the config predicate. *)
Example test_before_config :
  isTestPath "config/app.test.js" = true
  /\ isConfigPath "config/app.test.js" = true
  /\ detectFileType "Config\App.Test.js" = Test.
Proof. vm_compute. repeat split. Qed.

End FileTypes.

(** ** The rule-history store and the confidence score *)

Section History.
Import JSString IssueOps ConfidenceScorer Design Invariants.

Lemma new_counted : counted new.
Proof. apply map_Forall_empty. Qed.

Lemma bump_counted (b : bool) (h : History) :
  (1 <= correct (bump b h) + falsePositive (bump b h))%nat.
Proof. destruct b; simpl; lia. Qed.

Lemma recordFeedback_counted (self : ConfidenceScorer.t) (id : string)
    (b : bool) :
  counted self -> counted (recordFeedback self id b).
Proof.
  unfold counted, recordFeedback. intros Hinv k h. simpl.
  destruct (decide (id = k)) as [->|Hne].
  - rewrite lookup_alter_eq.
    destruct (ruleHistory self !! k) as [h0|] eqn:Hk.
    + rewrite Hk. simpl. intros [= <-]. apply bump_counted.
    + rewrite lookup_insert_eq. simpl. intros [= <-]. apply bump_counted.
  - rewrite lookup_alter_ne by assumption.
    destruct (ruleHistory self !! id).
    + apply Hinv.
    + rewrite lookup_insert_ne by assumption. apply Hinv.
Qed.

Lemma feedback_counted (calls : list (string * bool))
    (self : ConfidenceScorer.t) :
  counted self ->
  counted (fold_left
             (fun self call => recordFeedback self (fst call) (snd call))
             calls self).
Proof.
  revert self. induction calls as [|call calls IH]; intros self Hinv.
  - exact Hinv.
  - simpl. apply IH. now apply recordFeedback_counted.
Qed.

Lemma afterFeedback_counted (calls : list (string * bool)) :
  counted (afterFeedback calls).
Proof. apply feedback_counted, new_counted. Qed.

(** On a counted entry the floored quotient is an integer division. *)
Lemma accuracyScore_floor (h : History) :
  (1 <= correct h + falsePositive h)%nat ->
  accuracyScore h =
    Num (20 * Z.of_nat (correct h)
         / Z.of_nat (correct h + falsePositive h)).
Proof.
  intros Hpos. unfold accuracyScore.
  destruct (correct h + falsePositive h)%nat as [|t] eqn:E; [lia|].
  f_equal.
  change (Z.of_nat (S t)) with (Z.pos (Pos.of_succ_nat t)).
  unfold Qdiv, Qmult, Qinv, inject_Z, Qfloor. simpl.
  rewrite Pos.mul_1_r, Z.mul_1_r. f_equal. lia.
Qed.

Lemma accuracyScore_range (h : History) :
  (1 <= correct h + falsePositive h)%nat ->
  exists n, accuracyScore h = Num n /\ 0 <= n <= 20.
Proof.
  intros Hpos. rewrite (accuracyScore_floor h Hpos).
  eexists. split; [reflexivity|]. split.
  - apply Z.div_pos; lia.
  - apply Z.div_le_upper_bound; lia.
Qed.

Lemma scoreHistory_range (self : ConfidenceScorer.t)
    (ruleId : option string) :
  counted self ->
  exists n, scoreHistory self ruleId = Num n /\ 0 <= n <= 20.
Proof.
  intros Hinv. unfold scoreHistory.
  destruct ruleId as [[|c id]|]; try (exists 10; split; [reflexivity|lia]).
  destruct (ruleHistory self !! String c id) as [h|] eqn:Hlook.
  - apply accuracyScore_range. exact (Hinv _ _ Hlook).
  - destruct (arrIncludes highAccuracyRules (String c id));
      [exists 18; split; [reflexivity|lia]|].
    destruct (arrIncludes mediumAccuracyRules (String c id));
      [exists 14|exists 10]; (split; [reflexivity|lia]).
Qed.

Lemma scoreContext_range (issue : Issue) (context : Context) :
  0 <= scoreContext issue context <= 30.
Proof.
  unfold scoreContext.
  repeat match goal with
         | |- context [if ?b then _ else _] => destruct b
         end; lia.
Qed.

Lemma scoreRuleType_range (issue : Issue) :
  10 <= scoreRuleType issue <= 20.
Proof.
  unfold scoreRuleType.
  repeat match goal with
         | |- context [if ?b then _ else _] => destruct b
         end; lia.
Qed.

(** C10: in every store reached from a fresh scorer by feedback calls,
    each entry has [correct + falsePositive >= 1]; hence the division of
    [scoreHistory] is defined and the sub-score is an integer between 0
    and 20, never NaN. *)
Theorem ruleHistory_entries_counted (calls : list (string * bool)) :
  map_Forall (fun _ h => (1 <= correct h + falsePositive h)%nat)
    (ruleHistory (afterFeedback calls))
  /\ forall ruleId : option string,
       exists n, scoreHistory (afterFeedback calls) ruleId = Num n
                 /\ 0 <= n <= 20.
Proof.
  split.
  - apply afterFeedback_counted.
  - intros ruleId. apply scoreHistory_range, afterFeedback_counted.
Qed.

(** C3: for every issue and context, and every store reached by feedback
    calls, [calculateConfidence] returns an integer between 0 and 100: the
    sum of the four sub-scores clamped to that range. *)
Theorem calculateConfidence_clamped (calls : list (string * bool))
    (issue : Issue) (context : Context) :
  exists h n,
    scoreHistory (afterFeedback calls) (ruleId issue) = Num h
    /\ calculateConfidence (afterFeedback calls) issue context = Num n
    /\ n = clamp 0 100
             (scorePatternMatch issue + scoreContext issue context
              + scoreRuleType issue + h)
    /\ 0 <= n <= 100.
Proof.
  destruct (scoreHistory_range (afterFeedback calls) (ruleId issue)
              (afterFeedback_counted calls)) as (h & Hh & Hrange).
  exists h. eexists. split; [exact Hh|].
  unfold calculateConfidence, rawScore. rewrite Hh. simpl.
  split; [reflexivity|]. split; [unfold clamp; reflexivity|].
  pose proof (scorePatternMatch_range issue).
  pose proof (scoreContext_range issue context).
  pose proof (scoreRuleType_range issue).
  lia.
Qed.

End History.

(** ** The presentation order of [categorizeMultiple] *)

Section InsertionSort.
Import IssueCategorizer Design Invariants.

Context {A : Type} (cmp : A -> A -> Z).

Hypothesis le_total : forall a b, leBy cmp a b \/ leBy cmp b a.
Hypothesis le_trans :
  forall a b c, leBy cmp a b -> leBy cmp b c -> leBy cmp a c.

Lemma insertSorted_perm (x : A) (l : list A) :
  Permutation (x :: l) (insertSorted cmp x l).
Proof.
  induction l as [|y l IH]; simpl; [reflexivity|].
  destruct (cmp x y <=? 0); [reflexivity|].
  rewrite perm_swap. now apply perm_skip.
Qed.

Lemma arraySort_perm (l : list A) : Permutation l (arraySort cmp l).
Proof.
  induction l as [|x l IH]; simpl; [reflexivity|].
  rewrite <- insertSorted_perm. now apply perm_skip.
Qed.

Lemma insertSorted_sorted (x : A) (l : list A) :
  StronglySorted (leBy cmp) l ->
  StronglySorted (leBy cmp) (insertSorted cmp x l).
Proof.
  induction 1 as [|y l Hsorted IH Hall]; simpl.
  - constructor; constructor.
  - destruct (cmp x y <=? 0) eqn:Hxy.
    + apply Z.leb_le in Hxy.
      constructor; [now constructor|].
      constructor; [exact Hxy|].
      eapply List.Forall_impl; [|exact Hall].
      intros z Hyz. now apply (le_trans x y z).
    + apply Z.leb_gt in Hxy.
      constructor; [exact IH|].
      eapply Permutation_Forall; [apply insertSorted_perm|].
      constructor; [|exact Hall].
      destruct (le_total x y) as [H|H]; [unfold leBy in H; lia|exact H].
Qed.

Lemma arraySort_sorted (l : list A) :
  StronglySorted (leBy cmp) (arraySort cmp l).
Proof.
  induction l as [|x l IH]; simpl; [constructor|].
  now apply insertSorted_sorted.
Qed.

(** Insertion never overtakes an entry with the same key. *)
Lemma filter_insertSorted (p : A -> bool) (x : A) (l : list A) :
  (forall y, In y l -> p x = true -> p y = true -> leBy cmp x y) ->
  List.filter p (insertSorted cmp x l) =
    if p x then x :: List.filter p l else List.filter p l.
Proof.
  induction l as [|y l IH]; intros Hties; simpl; [reflexivity|].
  destruct (cmp x y <=? 0) eqn:Hxy; simpl; [reflexivity|].
  apply Z.leb_gt in Hxy.
  rewrite IH by (intros z Hz; apply Hties; now right).
  destruct (p x) eqn:Hpx; [|reflexivity].
  destruct (p y) eqn:Hpy; [|reflexivity].
  specialize (Hties y (or_introl eq_refl) eq_refl Hpy).
  unfold leBy in Hties. lia.
Qed.

Lemma filter_arraySort (p : A -> bool) (l : list A) :
  (forall x y, In x l -> In y l -> p x = true -> p y = true -> leBy cmp x y) ->
  List.filter p (arraySort cmp l) = List.filter p l.
Proof.
  induction l as [|x l IH]; intros Hties; simpl; [reflexivity|].
  rewrite filter_insertSorted.
  - rewrite IH by (intros a b Ha Hb; apply Hties; now right).
    reflexivity.
  - intros y Hy. apply Hties; [now left|right].
    eapply Permutation_in; [symmetry; apply arraySort_perm|exact Hy].
Qed.

End InsertionSort.

Section PresentationOrder.
Import JSString IssueOps IssueCategorizer Design Invariants.

Lemma compareFn_le (a b : Categorized) :
  cmpLe a b <->
  sortOrder (info a) < sortOrder (info b)
  \/ (sortOrder (info a) = sortOrder (info b)
      /\ entryConfidence b <= entryConfidence a).
Proof.
  unfold cmpLe, leBy, compareFn, entryConfidence.
  destruct (sortOrder (info a) =? sortOrder (info b)) eqn:E; simpl.
  - apply Z.eqb_eq in E. lia.
  - apply Z.eqb_neq in E. lia.
Qed.

Lemma cmpLe_total (a b : Categorized) : cmpLe a b \/ cmpLe b a.
Proof. rewrite !compareFn_le. lia. Qed.

Lemma cmpLe_trans (a b c : Categorized) :
  cmpLe a b -> cmpLe b c -> cmpLe a c.
Proof. rewrite !compareFn_le. lia. Qed.

(** The sort order of a categorization is the rank of its category. *)
Lemma categorize_rank (i : Issue) :
  sortOrder (categorize i) = categoryRank (category (categorize i)).
Proof.
  unfold categorize. destruct (isBug i); [reflexivity|].
  destruct (isRefactor i); reflexivity.
Qed.

Lemma categorize_same_rank (i j : Issue) :
  sortOrder (categorize i) = sortOrder (categorize j) <->
  category (categorize i) = category (categorize j).
Proof.
  unfold categorize.
  destruct (isBug i), (isRefactor i), (isBug j), (isRefactor j); simpl;
    split; intros H; try reflexivity; discriminate.
Qed.

Lemma cmpLe_presentedBefore (a b : Categorized) :
  laidOver a -> laidOver b -> (cmpLe a b <-> presentedBefore a b).
Proof.
  unfold laidOver, presentedBefore. intros Ha Hb.
  rewrite compareFn_le, Ha, Hb, !categorize_rank.
  rewrite <- categorize_same_rank, !categorize_rank. reflexivity.
Qed.

Lemma StronglySorted_presented (l : list Categorized) :
  Forall laidOver l ->
  StronglySorted cmpLe l -> StronglySorted presentedBefore l.
Proof.
  intros Hwf Hsorted. induction Hsorted as [|a l Hsorted IH Hall].
  - constructor.
  - inversion Hwf as [|? ? Ha Hl]; subst.
    constructor; [now apply IH|].
    rewrite List.Forall_forall in *. intros b Hb.
    apply cmpLe_presentedBefore; auto.
Qed.

Lemma withCategory_laidOver (issues : list Issue) :
  Forall laidOver (map withCategory issues).
Proof.
  apply List.Forall_forall. intros e He. apply in_map_iff in He as (i & <- & _).
  reflexivity.
Qed.

(** C6: the sequence returned by [categorizeMultiple] holds the
    categorized issues in presentation order (every entry stands before
    each later one: a lower category rank, or the same category and a
    confidence at least as high), and entries with the same category and
    confidence keep the order of the input, so the result is fixed by the
    input. *)
Theorem categorizeMultiple_presentation_order (issues : list Issue) :
  StronglySorted presentedBefore (fst (categorizeMultiple issues))
  /\ Permutation (map withCategory issues) (fst (categorizeMultiple issues))
  /\ forall (c : string) (n : Z),
       List.filter (sameKey c n) (fst (categorizeMultiple issues))
       = List.filter (sameKey c n) (map withCategory issues).
Proof.
  change (fst (categorizeMultiple issues))
    with (arraySort compareFn (map withCategory issues)).
  pose proof (withCategory_laidOver issues) as Hwf.
  split; [|split].
  - apply StronglySorted_presented.
    + eapply Permutation_Forall; [apply arraySort_perm|exact Hwf].
    + apply (arraySort_sorted compareFn cmpLe_total cmpLe_trans).
  - apply arraySort_perm.
  - intros c n. apply filter_arraySort.
    intros x y Hx Hy Hpx Hpy.
    rewrite List.Forall_forall in Hwf.
    apply (cmpLe_presentedBefore x y (Hwf x Hx) (Hwf y Hy)).
    unfold sameKey in *.
    apply andb_true_iff in Hpx as [Hcx Hnx], Hpy as [Hcy Hny].
    apply String.eqb_eq in Hcx, Hcy. apply Z.eqb_eq in Hnx, Hny.
    right. split; [congruence|lia].
Qed.

End PresentationOrder.

(** ** The matcher hands its result on from the continuation *)

Section Matcher.
Import JSString Regex Design Invariants.

Lemma keeps_refl (cs : Captures) : keeps cs cs.
Proof. intros n H. exact H. Qed.

Lemma keeps_trans (a b c : Captures) : keeps a b -> keeps b c -> keeps a c.
Proof. intros Hab Hbc n H. apply Hbc, Hab, H. Qed.

Lemma keeps_cons (n : nat) (s : string) (cs : Captures) :
  keeps cs ((n, s) :: cs).
Proof. intros m H. simpl. destruct (n =? m)%nat; [discriminate|exact H]. Qed.

Lemma handsOn_here (st : MState) (k : MState -> option Captures)
    (c : Captures) :
  k st = Some c -> handsOn st k c.
Proof. intros H. exists st. split; [exact H|apply keeps_refl]. Qed.

Lemma handsOn_then (st st1 : MState) (k : MState -> option Captures)
    (c : Captures) :
  keeps (caps st) (caps st1) -> handsOn st1 k c -> handsOn st k c.
Proof.
  intros H01 (st' & Hk & H1). exists st'. split; [exact Hk|].
  now apply (keeps_trans _ (caps st1)).
Qed.

Lemma step_handsOn (p : ascii -> bool) (st : MState)
    (k : MState -> option Captures) (c : Captures) :
  step p st k = Some c -> handsOn st k c.
Proof.
  unfold step. destruct (rest st) as [|a s]; [discriminate|].
  destruct (p a); [|discriminate]. intros H.
  exists (mkMState s (Some a) (caps st)). split; [exact H|apply keeps_refl].
Qed.

Lemma orElse_Some (a : option Captures) (b : unit -> option Captures)
    (c : Captures) :
  orElse a b = Some c -> a = Some c \/ b tt = Some c.
Proof. destruct a; simpl; auto. Qed.

Lemma loop_handsOn
    (body : MState -> (MState -> option Captures) -> option Captures)
    (k : MState -> option Captures) :
  (forall st k' c, body st k' = Some c -> handsOn st k' c) ->
  forall (fuel : nat) (st : MState) (c : Captures),
    (fix loop (fuel : nat) (st : MState) : option Captures :=
       match fuel with
       | O => k st
       | S fuel' =>
           orElse
             (body st (fun st' =>
                if shorter st' st then loop fuel' st' else None))
             (fun _ => k st)
       end) fuel st = Some c ->
    handsOn st k c.
Proof.
  intros Hbody. induction fuel as [|fuel IH]; intros st c H.
  - now apply handsOn_here.
  - apply orElse_Some in H as [H|H]; [|now apply handsOn_here].
    apply Hbody in H as (st1 & H1 & Hkeep).
    destruct (shorter st1 st); [|discriminate].
    apply (handsOn_then st st1); [exact Hkeep|]. now apply IH.
Qed.

Lemma run_handsOn (ic : bool) (r : Regex.t) :
  forall (st : MState) (k : MState -> option Captures) (c : Captures),
    run ic r st k = Some c -> handsOn st k c.
Proof.
  induction r as [| a | s | | items | items | r1 IH1 r2 IH2 | r1 IH1 r2 IH2
                 | r IH | r IH | r IH | n r IH | n r IH | | |];
    intros st k c H; cbn [run] in H.
  - now apply handsOn_here.
  - now apply step_handsOn in H.
  - revert st H. induction s as [|a s IHs]; intros st H.
    + now apply handsOn_here.
    + apply step_handsOn in H as (st1 & H1 & Hkeep).
      apply (handsOn_then st st1); [exact Hkeep|]. now apply IHs.
  - now apply step_handsOn in H.
  - now apply step_handsOn in H.
  - now apply step_handsOn in H.
  - apply IH1 in H as (st1 & H1 & Hkeep).
    apply (handsOn_then st st1); [exact Hkeep|]. now apply IH2.
  - apply orElse_Some in H as [H|H]; [now apply IH1|now apply IH2].
  - now apply (loop_handsOn (run ic r) k IH) in H.
  - apply IH in H as (st1 & H1 & Hkeep).
    apply (handsOn_then st st1); [exact Hkeep|].
    now apply (loop_handsOn (run ic r) k IH) in H1.
  - apply orElse_Some in H as [H|H]; [now apply IH|now apply handsOn_here].
  - revert st H. induction n as [|n IHn]; intros st H.
    + now apply handsOn_here.
    + apply IH in H as (st1 & H1 & Hkeep).
      apply (handsOn_then st st1); [exact Hkeep|]. now apply IHn.
  - apply IH in H as (st1 & H1 & Hkeep).
    exists (mkMState (rest st1) (prev st1)
              ((n, consumed st st1) :: caps st1)).
    split; [exact H1|].
    apply (keeps_trans _ (caps st1)); [exact Hkeep|apply keeps_cons].
  - destruct (prev st); [discriminate|now apply handsOn_here].
  - destruct (rest st); [now apply handsOn_here|discriminate].
  - destruct (xorb _ _); [now apply handsOn_here|discriminate].
Qed.

(** A group that the match has to pass through is captured. *)
Lemma run_group_captured (ic : bool) (n : nat) (r tail : Regex.t)
    (st : MState) (c : Captures) :
  run ic (Seq (Group n r) tail) st (fun st' => Some (caps st')) = Some c ->
  capture n c <> None.
Proof.
  intros H. cbn [run] in H.
  apply run_handsOn in H as (st1 & H1 & _).
  apply run_handsOn in H1 as (st2 & H2 & Hkeep).
  injection H2 as <-. apply Hkeep. simpl.
  rewrite Nat.eqb_refl. discriminate.
Qed.

Lemma searchFrom_run (ic : bool) (r : Regex.t) (s : string) :
  forall (p : option ascii) (c : Captures),
    searchFrom ic r p s = Some c ->
    exists st, run ic r st (fun st' => Some (caps st')) = Some c.
Proof.
  induction s as [|a s IH]; intros p c H; cbn [searchFrom] in H;
    apply orElse_Some in H as [H|H]; eauto; discriminate.
Qed.

End Matcher.

(** ** Pull-request intent *)

Section PRIntent.
Import JSString Regex IntentAnalyzer Design Invariants.

Lemma run_after_Bol (ic : bool) (r : Regex.t) (st : MState)
    (k : MState -> option Captures) (c : Captures) :
  run ic (Seq Bol r) st k = Some c -> run ic r st k = Some c.
Proof. cbn [run]. destruct (prev st); [discriminate|auto]. Qed.

(** Whenever the title matches, its first group (the change type) took
    part in the match. *)
Lemma reTitle_type_captured (prTitle : string) (titleMatch : Captures) :
  Regex.exec true reTitle prTitle = Some titleMatch ->
  capture 1 titleMatch <> None.
Proof.
  unfold Regex.exec. intros H.
  apply searchFrom_run in H as (st & H).
  unfold reTitle, seqs in H. cbn [fold_right] in H.
  apply run_after_Bol in H.
  now apply run_group_captured in H.
Qed.

Lemma applyTitle_Normal (prTitle : string) (i : PRIntent) :
  exists intent, applyTitle prTitle i = Normal intent.
Proof.
  unfold applyTitle.
  destruct (Regex.exec true reTitle prTitle) as [titleMatch|] eqn:E;
    [|eauto].
  pose proof (reTitle_type_captured prTitle titleMatch E) as Hcap.
  destruct (capture 1 titleMatch); [eauto|contradiction].
Qed.

Lemma applyLabel_unknown (i : PRIntent) (l : Label) :
  knownLabel l = false -> applyLabel i l = i.
Proof.
  unfold knownLabel, labelKeywords. cbn [existsb]. intros H.
  repeat (apply orb_false_iff in H as [? H]).
  unfold applyLabel.
  repeat match goal with
         | Hf : includes _ _ = false |- _ => rewrite Hf; clear Hf
         end.
  reflexivity.
Qed.

Lemma applyLabel_prType (i : PRIntent) (l : Label) :
  prType (applyLabel i l) = prType i.
Proof.
  unfold applyLabel.
  repeat match goal with
         | |- context [if ?b then _ else _] => destruct b
         end; reflexivity.
Qed.

Lemma labels_prType (labels : list Label) (i : PRIntent) :
  prType (fold_left applyLabel labels i) = prType i.
Proof.
  revert i. induction labels as [|l labels IH]; intros i; [reflexivity|].
  simpl. rewrite IH. apply applyLabel_prType.
Qed.

Lemma labels_known_only (labels : list Label) (i : PRIntent) :
  fold_left applyLabel labels i
  = fold_left applyLabel (List.filter knownLabel labels) i.
Proof.
  revert i. induction labels as [|l labels IH]; intros i; [reflexivity|].
  simpl. destruct (knownLabel l) eqn:Hl; simpl.
  - apply IH.
  - rewrite (applyLabel_unknown i l Hl). apply IH.
Qed.

Lemma labels_all_unknown (labels : list Label) (i : PRIntent) :
  List.Forall (fun l => knownLabel l = false) labels ->
  fold_left applyLabel labels i = i.
Proof.
  revert i. induction labels as [|l labels IH]; intros i Hall;
    [reflexivity|].
  inversion Hall as [|? ? Hl Hrest]; subst. simpl.
  rewrite (applyLabel_unknown i l Hl). now apply IH.
Qed.

(** With well-formed labels [analyzePRIntent] completes normally.  Labels
    that carry none of the known keywords change nothing; a title outside
    the conventional grammar leaves the type [general], and with no known
    label the result is the default intent (type general, strictness
    normal). *)
Lemma analyzePRIntent_never_throws (prTitle prBody : string)
    (labels : list Label) :
  exists intent,
    analyzePRIntent prTitle prBody labels = Normal intent
    /\ analyzePRIntent prTitle prBody (List.filter knownLabel labels)
       = Normal intent
    /\ (Regex.exec true reTitle prTitle = None ->
        prType intent = "general"
        /\ (List.Forall (fun l => knownLabel l = false) labels ->
            intent = initialIntent prTitle
            /\ strictness intent = "normal")).
Proof.
  unfold analyzePRIntent.
  destruct (applyTitle_Normal prTitle (initialIntent prTitle))
    as (titled & Htitled).
  rewrite Htitled. simpl.
  exists (fold_left applyLabel labels titled).
  split; [reflexivity|]. split; [now rewrite <- labels_known_only|].
  intros Hnone. unfold applyTitle in Htitled. rewrite Hnone in Htitled.
  injection Htitled as <-.
  split; [now rewrite labels_prType|].
  intros Hall. rewrite (labels_all_unknown labels _ Hall).
  split; reflexivity.
Qed.

End PRIntent.

(** ** Malformed pull-request metadata *)

Section MalformedMetadata.
Import JSString Regex IntentAnalyzer Design RawMetadata.

Lemma applyLabel_typed (i : PRIntent) (label : Json) (l : Label) :
  toLabel label = Some l ->
  RawMetadata.applyLabel i label = Normal (IntentAnalyzer.applyLabel i l).
Proof.
  destruct label as [| | |s| |fields]; try discriminate.
  - intros [= <-]. reflexivity.
  - unfold toLabel, RawMetadata.applyLabel, RawMetadata.labelName.
    cbn [bindC].
    destruct (property "name" fields) as [[| | |name| |]|]; try discriminate.
    intros [= <-]. reflexivity.
Qed.

Lemma applyLabel_malformed (i : PRIntent) (label : Json) :
  toLabel label = None -> exists e, RawMetadata.applyLabel i label = Throw e.
Proof.
  destruct label as [| | |s| |fields]; try discriminate;
    try (intros _; eexists; reflexivity).
  unfold toLabel, RawMetadata.applyLabel, RawMetadata.labelName.
  cbn [bindC].
  destruct (property "name" fields) as [[| | |name| |]|];
    try discriminate; intros _; eexists; reflexivity.
Qed.

Lemma applyLabels_typed (labels : list Json) :
  forall (typed : list Label) (i : PRIntent),
    typedLabels labels = Some typed ->
    applyLabels labels i
    = Normal (fold_left IntentAnalyzer.applyLabel typed i).
Proof.
  induction labels as [|label labels IH]; intros typed i H.
  - injection H as <-. reflexivity.
  - cbn [typedLabels] in H.
    destruct (toLabel label) as [l|] eqn:El; [|discriminate].
    destruct (typedLabels labels) as [ls|]; [|discriminate].
    injection H as <-. cbn [applyLabels fold_left].
    rewrite (applyLabel_typed i label l El). cbn [bindC]. now apply IH.
Qed.

Lemma applyLabels_malformed (labels : list Json) :
  forall i : PRIntent,
    typedLabels labels = None -> exists e, applyLabels labels i = Throw e.
Proof.
  induction labels as [|label labels IH]; intros i H; [discriminate|].
  cbn [typedLabels] in H. cbn [applyLabels].
  destruct (toLabel label) as [l|] eqn:El.
  - rewrite (applyLabel_typed i label l El). cbn [bindC]. apply IH.
    destruct (typedLabels labels); [discriminate|reflexivity].
  - destruct (applyLabel_malformed i label El) as (e & ->).
    exists e. reflexivity.
Qed.

(** C8 (the code throws on malformed metadata): [analyzePRIntent] completes
    normally exactly when the title is a string and every label is a
    string or an object whose [name] is a string.  Then an unrecognized
    title leaves the type [general], and with no known label the result is
    the default intent (type general, strictness normal).  Any other label
    (an object without a name, [null], a number) makes the call throw a
    TypeError, as the label [{}] does under any title; so does a title
    that is not a string. *)
Theorem analyzePRIntent_throws_on_malformed (prTitle : string)
    (prBody title : Json) (labels : list Json) :
  match typedLabels labels with
  | Some typed =>
      exists intent,
        RawMetadata.analyzePRIntent (JString prTitle) prBody labels
        = Normal intent
        /\ IntentAnalyzer.analyzePRIntent prTitle EmptyString typed
           = Normal intent
        /\ (Regex.exec true reTitle prTitle = None ->
            prType intent = "general"
            /\ (List.Forall (fun l => knownLabel l = false) typed ->
                intent = initialIntent prTitle
                /\ strictness intent = "normal"))
  | None =>
      exists e,
        RawMetadata.analyzePRIntent (JString prTitle) prBody labels = Throw e
  end
  /\ RawMetadata.analyzePRIntent (JString prTitle) prBody [JObject []]
     = Throw "TypeError: Cannot read properties of undefined (reading 'toLowerCase')"
  /\ (isString title = false ->
      exists e, RawMetadata.analyzePRIntent title prBody labels = Throw e).
Proof.
  split; [|split].
  - unfold RawMetadata.analyzePRIntent.
    destruct (typedLabels labels) as [typed|] eqn:Et.
    + destruct (analyzePRIntent_never_throws prTitle EmptyString typed)
        as (intent & Hintent & _ & Hdefault).
      exists intent. split; [|split; assumption].
      unfold IntentAnalyzer.analyzePRIntent in Hintent.
      destruct (applyTitle_Normal prTitle (initialIntent prTitle))
        as (titled & Htitled).
      rewrite Htitled in *. cbn [bindC] in *.
      now rewrite (applyLabels_typed labels typed titled Et).
    + destruct (applyTitle_Normal prTitle (initialIntent prTitle))
        as (titled & ->).
      cbn [bindC]. now apply applyLabels_malformed.
  - unfold RawMetadata.analyzePRIntent.
    destruct (applyTitle_Normal prTitle (initialIntent prTitle))
      as (titled & ->).
    reflexivity.
  - destruct title; try discriminate; intros _; eexists; reflexivity.
Qed.

End MalformedMetadata.

(** ** Worked scenario A *)

Section ScenarioA.
Import JSString IntentAnalyzer CodeAnalyzer Design Invariants.

Lemma scenarioA_matchRule (rule : Rule) (fileIntent : FileIntent) :
  matchRule scenarioALine rule "javascript" fileIntent = None.
Proof.
  unfold matchRule.
  destruct (includes (toLowerCase (text rule)) "console.log"
            || includes (toLowerCase (text rule)) "print statement");
    destruct (includes (toLowerCase (text rule)) "commented-out code");
    try destruct (arrIncludes (allowedPatterns fileIntent) "console.log");
    vm_compute; reflexivity.
Qed.

Lemma scenarioA_matchLanguageRule (rule : Rule) (fileIntent : FileIntent) :
  matchLanguageRule scenarioALine rule "javascript" fileIntent = None.
Proof.
  unfold matchLanguageRule.
  destruct (includes (toLowerCase (text rule)) "avoid");
    destruct (includes (toLowerCase (text rule)) "var");
    destruct (includes (toLowerCase (text rule)) "template literal");
    vm_compute; reflexivity.
Qed.

Lemma scenarioA_instruction_rules (rules : list Rule)
    (fileIntent : FileIntent) :
  applyInstructionRules scenarioALine rules "javascript" fileIntent = [].
Proof.
  unfold applyInstructionRules.
  induction rules as [|rule rules IH]; [reflexivity|].
  cbn [flat_map]. rewrite IH, scenarioA_matchRule.
  destruct (negb (isPattern rule)); reflexivity.
Qed.

Lemma scenarioA_language_rules (rules : list Rule)
    (fileIntent : FileIntent) :
  applyLanguageRules scenarioALine rules "javascript" fileIntent = [].
Proof.
  unfold applyLanguageRules.
  induction rules as [|rule rules IH]; [reflexivity|].
  cbn [flat_map]. rewrite IH, scenarioA_matchLanguageRule. reflexivity.
Qed.

Lemma scenarioA_rawIssues (instructions : Relevant)
    (fileIntent : FileIntent) :
  rawIssues scenarioALine "javascript" instructions fileIntent
  = [Scenarios.scenarioAIssue].
Proof.
  unfold rawIssues. rewrite scenarioA_language_rules.
  assert (Hgeneral :
    flat_map (fun '(category, rules) =>
      map (asCustomIssue category)
        (applyInstructionRules scenarioALine rules "javascript" fileIntent))
      (general instructions) = []).
  { induction (general instructions) as [|[category rules] cats IH];
      [reflexivity|].
    cbn [flat_map]. rewrite IH, scenarioA_instruction_rules. reflexivity. }
  rewrite Hgeneral. vm_compute. reflexivity.
Qed.

(** The finding of scenario A at line [n] of [filename]. *)
Lemma scenarioA_analyzeLine (instructions : Instructions) (n : Z)
    (filename : string) (relevant : Relevant) (fileIntent : FileIntent) :
  analyzeLine (CodeAnalyzer.new instructions) scenarioALine n filename
    "javascript" relevant fileIntent
  = [{| Comment.path := filename;
        Comment.line := n;
        Comment.message := "Potential hardcoded API key detected";
        Comment.severity := "critical";
        Comment.suggestion :=
          Some "Use environment variables or a secure secret management system";
        Comment.confidence := Some (Num 71);
        Comment.category := Some "BUG";
        Comment.emoji := Some "🔴" |}].
Proof.
  unfold analyzeLine. rewrite scenarioA_rawIssues. cbn [map].
  unfold ConfidenceScorer.calculateConfidence, ConfidenceScorer.rawScore,
    ConfidenceScorer.scoreContext.
  cbn [ConfidenceScorer.isTestFile ConfidenceScorer.isConfigFile
       ConfidenceScorer.isMigrationFile ConfidenceScorer.filename].
  destruct (isTestFile fileIntent), (isConfigFile fileIntent),
    (isMigrationFile fileIntent), (includes filename "debug");
    vm_compute; reflexivity.
Qed.

(** C1, evaluated on the code: for the single changed line of scenario A
    in the JavaScript production file [src/app.js], whatever the rule set
    and with a fresh scorer, the pipeline produces exactly one finding,
    category BUG, severity critical, emoji 🔴; its confidence is 71
    (pattern 15 + context 20 + rule type 18 + history 18), not 86: the
    pattern sub-score of the issue is 15 where the design table gives 30. *)
Theorem scenarioA_finding (instructions : Instructions) (content : string)
    (n : Z) :
  detectFileType "src/app.js" = Production
  /\ analyzeFile (CodeAnalyzer.new instructions)
       {| fileName := "src/app.js"; content := content |}
       [{| clLine := n; clContent := scenarioALine |}]
     = Normal
         [{| Comment.path := "src/app.js";
             Comment.line := n;
             Comment.message := "Potential hardcoded API key detected";
             Comment.severity := "critical";
             Comment.suggestion :=
               Some "Use environment variables or a secure secret management system";
             Comment.confidence := Some (Num 71);
             Comment.category := Some "BUG";
             Comment.emoji := Some "🔴" |}]
  /\ ConfidenceScorer.scorePatternMatch Scenarios.scenarioAIssue = 15
  /\ patternStrength Scenarios.scenarioAIssue = 30.
Proof.
  split; [vm_compute; reflexivity|].
  split; [|split; reflexivity].
  unfold analyzeFile.
  change (Utils.detectLanguage (fileName
            {| fileName := "src/app.js"; content := content |}))
    with (Utils.detectLanguage "src/app.js").
  replace (Utils.detectLanguage "src/app.js") with (Some "javascript")
    by (vm_compute; reflexivity).
  cbn [flat_map clContent clLine fileName CodeAnalyzer.content].
  rewrite scenarioA_analyzeLine. reflexivity.
Qed.

End ScenarioA.

(** ** The pattern table in the pipeline *)

Section PatternTable.
Import JSString IssueOps IntentAnalyzer CodeAnalyzer ConfidenceScorer Design
  Scenarios.

(** C2 (the code departs from the table): the pattern sub-score follows
    the table only for an issue that carries a [pattern] property and is
    the default 15 for every other issue.  The detectors attach tags and a
    match type but never a pattern: the one raw issue the pipeline builds
    for the line of scenario A is tagged [security], for which the table
    gives 30, and scores 15. *)
Theorem scorePatternMatch_misses_table (issue : Issue)
    (instructions : Relevant) (fileIntent : FileIntent) :
  scorePatternMatch issue
  = (if truthy (pattern issue) then patternStrength issue else 15)
  /\ rawIssues scenarioALine "javascript" instructions fileIntent
     = [scenarioAIssue]
  /\ hasTag scenarioAIssue "security" = true
  /\ patternStrength scenarioAIssue = 30
  /\ scorePatternMatch scenarioAIssue = 15.
Proof.
  split.
  - unfold scorePatternMatch, patternStrength.
    destruct (truthy (pattern issue)); reflexivity.
  - split; [apply scenarioA_rawIssues|]. repeat split.
Qed.

End PatternTable.

(** ** The display body of a finding *)

Section DisplayBody.
Import JSString GitHubService Design Invariants Scenarios.

(** [formatCommentBody] follows the documented layout, with the glyph
    literals of its own file, the defaults for absent properties, and the
    suggestion paragraph exactly when the suggestion is truthy. *)
Lemma formatCommentBody_layout (comment : Comment.t) :
  formatCommentBody comment =
    layout sourceGlyphs
      (orDefault (Comment.emoji comment) defaultEmoji)
      (orDefault (Comment.category comment) "SUGGESTION")
      (default (Num 70) (Comment.confidence comment))
      (Comment.message comment)
      (if truthy (Comment.suggestion comment)
       then Comment.suggestion comment else None).
Proof.
  unfold formatCommentBody, layout.
  destruct (Comment.suggestion comment) as [[|c s]|]; simpl;
    rewrite !append_assoc; reflexivity.
Qed.

(** C9, evaluated on the code: for a finding with confidence 86 and a
    suggestion, [formatCommentBody] lays the body out as documented but
    writes the glyph literals stored in github-service.js, which are not
    the check mark and the light bulb: the rendered body differs from the
    documented one. *)
Theorem formatCommentBody_glyphs :
  formatCommentBody scenarioAFinding
  = layout sourceGlyphs "🔴" "BUG" (Num 86)
      "Potential hardcoded API key detected"
      (Some "Use environment variables or a secure secret management system")
  /\ formatCommentBody scenarioAFinding
     <> displayBody "🔴" "BUG" (Num 86)
          "Potential hardcoded API key detected"
          (Some "Use environment variables or a secure secret management system")
  /\ high sourceGlyphs <> high documentedGlyphs
  /\ bulb sourceGlyphs <> bulb documentedGlyphs.
Proof.
  split; [vm_compute; reflexivity|].
  split; [|split; discriminate].
  vm_compute. discriminate.
Qed.

End DisplayBody.

(** * Further properties of the code *)

(** ** What the categorizer looks at and what it returns *)

Section CategorizerFacts.
Import JSString IssueOps IssueCategorizer Design Invariants.

(** The categorization of an issue is decided by its tags and its rule
    identifier alone; confidence, message and the other properties play no
    part. *)
Theorem categorize_tags_ruleId_only (i j : Issue) :
  tags i = tags j -> ruleId i = ruleId j -> categorize i = categorize j.
Proof.
  intros Htags Hrule.
  unfold categorize, isBug, isRefactor, getBugSeverity, getRefactorSeverity,
    someTagIn, hasTag, ruleIdIn.
  now rewrite Htags, Hrule.
Qed.

Lemma categorize_tags_ruleId_only_witness :
  confidence Scenarios.scenarioAIssue
    <> confidence Scenarios.scoredScenarioAIssue
  /\ categorize Scenarios.scenarioAIssue
     = categorize Scenarios.scoredScenarioAIssue.
Proof.
  split; [discriminate|].
  apply (categorize_tags_ruleId_only Scenarios.scenarioAIssue
           Scenarios.scoredScenarioAIssue); reflexivity.
Defined.

(** [categorize] returns one of three bundles: BUG with 🔴 and order 1 and a
    severity among critical, high, medium; REFACTOR with 🟡 and order 2 and
    severity high or medium; SUGGESTION with 🔵, order 3 and severity low. *)
Theorem categorize_bundles (i : Issue) :
  (category (categorize i) = "BUG" /\ emoji (categorize i) = "🔴"
   /\ sortOrder (categorize i) = 1
   /\ In (catSeverity (categorize i)) ["critical"; "high"; "medium"])
  \/ (category (categorize i) = "REFACTOR" /\ emoji (categorize i) = "🟡"
      /\ sortOrder (categorize i) = 2
      /\ In (catSeverity (categorize i)) ["high"; "medium"])
  \/ (category (categorize i) = "SUGGESTION" /\ emoji (categorize i) = "🔵"
      /\ sortOrder (categorize i) = 3
      /\ catSeverity (categorize i) = "low").
Proof.
  unfold categorize. destruct (isBug i).
  - left. repeat split. unfold getBugSeverity. simpl.
    destruct (_ || _); [auto|]. destruct (someTagIn _ _); auto.
  - destruct (isRefactor i).
    + right. left. repeat split. unfold getRefactorSeverity. simpl.
      destruct (someTagIn _ _); auto.
    + right. right. repeat split.
Qed.

Lemma categorize_grades (i : Issue) :
  (category (categorize i) = "BUG"
   /\ In (catSeverity (categorize i)) ["critical"; "high"; "medium"])
  \/ (category (categorize i) = "REFACTOR"
      /\ In (catSeverity (categorize i)) ["high"; "medium"])
  \/ (category (categorize i) = "SUGGESTION"
      /\ catSeverity (categorize i) = "low").
Proof.
  unfold categorize. destruct (isBug i).
  - left. split; [reflexivity|]. unfold getBugSeverity. simpl.
    destruct (_ || _); [auto|]. destruct (someTagIn _ _); auto.
  - destruct (isRefactor i).
    + right. left. split; [reflexivity|]. unfold getRefactorSeverity. simpl.
      destruct (someTagIn _ _); auto.
    + right. right. split; reflexivity.
Qed.

Lemma categories_partition (l : list Categorized) :
  Forall laidOver l ->
  (countBy (fun e => String.eqb (category (info e)) "BUG") l
   + countBy (fun e => String.eqb (category (info e)) "REFACTOR") l
   + countBy (fun e => String.eqb (category (info e)) "SUGGESTION") l
   = length l)%nat.
Proof.
  unfold countBy. induction 1 as [|e l He Hl IH]; [reflexivity|].
  cbn [List.filter]. unfold laidOver in He. rewrite He.
  destruct (categorize_grades (issue e)) as [H|[H|H]];
    destruct H as (-> & _); simpl; lia.
Qed.

Lemma severities_partition (l : list Categorized) :
  Forall laidOver l ->
  (countBy (fun e => String.eqb (catSeverity (info e)) "critical") l
   + countBy (fun e => String.eqb (catSeverity (info e)) "high") l
   + countBy (fun e => String.eqb (catSeverity (info e)) "medium") l
   + countBy (fun e => String.eqb (catSeverity (info e)) "low") l
   = length l)%nat.
Proof.
  unfold countBy. induction 1 as [|e l He Hl IH]; [reflexivity|].
  cbn [List.filter]. unfold laidOver in He. rewrite He.
  destruct (categorize_grades (issue e))
    as [(_ & [H|[H|[H|[]]]])|[(_ & [H|[H|[]]])|(_ & H)]];
    [symmetry in H .. | idtac]; rewrite H; simpl; lia.
Qed.

(** The statistics of [categorizeMultiple] account for every issue once:
    the total is the number of issues, the three category counts add up to
    it, and so do the four severity counts. *)
Theorem categorizeMultiple_stats (issues : list Issue) :
  let stats := snd (categorizeMultiple issues) in
  total stats = length issues
  /\ (bugs stats + refactors stats + suggestions stats = total stats)%nat
  /\ (critical stats + IssueCategorizer.high stats
      + IssueCategorizer.medium stats + IssueCategorizer.low stats
      = total stats)%nat.
Proof.
  cbn [categorizeMultiple snd total bugs refactors suggestions critical
       IssueCategorizer.high IssueCategorizer.medium IssueCategorizer.low].
  assert (Hwf : Forall laidOver
                  (arraySort compareFn (map withCategory issues))).
  { eapply Permutation_Forall; [apply arraySort_perm|].
    apply withCategory_laidOver. }
  split; [|split].
  - rewrite <- (Permutation_length (arraySort_perm compareFn _)).
    apply length_map.
  - now apply categories_partition.
  - now apply severities_partition.
Qed.

End CategorizerFacts.

(** ** What the detectors emit and how the pipeline grades it *)

Section PipelineFacts.
Import JSString IssueOps IntentAnalyzer CodeAnalyzer Pipeline.

Ltac split_ifs_in H :=
  repeat match type of H with
         | context [if ?b then _ else _] => destruct b eqn:?
         end.

Ltac close_kind :=
  unfold fresh, kind; cbn; repeat split; auto 10.

Lemma checkSecurity_kinds (line language : string) (issue : Issue) :
  In issue (checkSecurity line language) ->
  In (kind issue) securityKinds /\ fresh issue /\ matchType issue = None
  /\ (language <> "javascript" -> language <> "typescript" ->
      language <> "python" -> ruleId issue = Some "hardcoded-secrets").
Proof.
  unfold checkSecurity.
  cbn [combine secretPatterns secretFlags flat_map].
  intros H. rewrite !in_app_iff in H.
  assert (Hjs : forall s, String.eqb language s = true -> language = s)
    by (intros s; apply String.eqb_eq).
  destruct H as [H|[H|H]]; split_ifs_in H;
    rewrite ?in_app_iff in H; cbn [In] in H;
    repeat match type of H with
           | _ \/ _ => destruct H as [H|H]
           | False => destruct H
           end; subst issue; close_kind;
    intros Hn1 Hn2 Hn3;
    repeat match goal with
           | E : (_ || _) = true |- _ => apply orb_true_iff in E as [E|E]
           | E : String.eqb language _ = true |- _ => apply Hjs in E
           end; congruence.
Qed.

Lemma matchRule_kinds (line : string) (rule : Rule) (language : string)
    (fileIntent : FileIntent) (issue : Issue) :
  matchRule line rule language fileIntent = Some issue ->
  In (kind issue) ruleKinds /\ fresh issue
  /\ (arrIncludes (allowedPatterns fileIntent) "console.log" = true ->
      ruleId issue = Some "no-commented-code")
  /\ (language <> "javascript" -> language <> "typescript" ->
      language <> "python" -> ruleId issue = Some "no-commented-code").
Proof.
  unfold matchRule. intros H.
  assert (Hjs : forall s, String.eqb language s = true -> language = s)
    by (intros s; apply String.eqb_eq).
  split_ifs_in H; try discriminate; injection H as <-; close_kind;
    try discriminate;
    intros Hn1 Hn2 Hn3;
    repeat match goal with
           | E : (_ && _) = true |- _ => apply andb_true_iff in E as [E ?]
           | E : (_ || _) = true |- _ => apply orb_true_iff in E as [E|E]
           | E : String.eqb language _ = true |- _ => apply Hjs in E
           end; congruence.
Qed.

Lemma matchLanguageRule_kinds (line : string) (rule : Rule)
    (language : string) (fileIntent : FileIntent) (issue : Issue) :
  matchLanguageRule line rule language fileIntent = Some issue ->
  In (kind issue) languageKinds /\ fresh issue
  /\ (language = "javascript" \/ language = "typescript").
Proof.
  unfold matchLanguageRule. intros H.
  destruct (String.eqb language "javascript"
            || String.eqb language "typescript") eqn:Hlang;
    [|discriminate].
  assert (Hl : language = "javascript" \/ language = "typescript").
  { apply orb_true_iff in Hlang as [E|E]; apply String.eqb_eq in E; auto. }
  split_ifs_in H; try discriminate; injection H as <-; close_kind.
Qed.

Lemma rawIssues_shape (line language : string) (relevant : Relevant)
    (fileIntent : FileIntent) (issue : Issue) :
  In issue (rawIssues line language relevant fileIntent) ->
  rawShape language issue.
Proof.
  unfold rawIssues. rewrite !in_app_iff.
  intros [H|[H|H]].
  - apply in_map_iff in H as (raw & <- & Hraw).
    apply checkSecurity_kinds in Hraw
      as (Hkind & (_ & Hlang & Hpat & Hconf) & _).
    unfold rawShape, securityShape, kind in *. cbn.
    destruct (tags raw) eqn:Htags;
      [|exfalso; cbn in Hkind; intuition discriminate].
    unfold tagsOr. rewrite Htags. auto 10.
  - apply in_flat_map in H as ([category rules] & _ & H).
    apply in_map_iff in H as (raw & <- & Hraw).
    unfold applyInstructionRules in Hraw.
    apply in_flat_map in Hraw as (rule & _ & Hraw).
    destruct (negb (isPattern rule)); [destruct Hraw|].
    destruct (matchRule line rule language fileIntent) as [found|] eqn:Hm;
      [|destruct Hraw].
    destruct Hraw as [<-|[]].
    apply matchRule_kinds in Hm as (Hkind & (_ & Hlang & Hpat & Hconf) & _).
    unfold rawShape, customShape, kind in *. cbn.
    destruct (tags found) eqn:Htags;
      [|exfalso; cbn in Hkind; intuition discriminate].
    unfold tagsOr. rewrite Htags. auto 10.
  - apply in_map_iff in H as (raw & <- & Hraw).
    unfold applyLanguageRules in Hraw.
    apply in_flat_map in Hraw as (rule & _ & Hraw).
    destruct (matchLanguageRule line rule language fileIntent)
      as [found|] eqn:Hm; [|destruct Hraw].
    destruct Hraw as [<-|[]].
    apply matchLanguageRule_kinds in Hm
      as (Hkind & (_ & _ & Hpat & Hconf) & Hl).
    unfold rawShape, languageShape, kind in *. cbn.
    destruct (tags found) eqn:Htags;
      [|exfalso; cbn in Hkind; intuition discriminate].
    unfold tagsOr. rewrite Htags. auto 10.
Qed.

End PipelineFacts.

Section PipelineGrades.
Import JSString IssueOps IntentAnalyzer CodeAnalyzer Pipeline Findings.

Lemma rawIssues_origin (line language : string) (relevant : Relevant)
    (fileIntent : FileIntent) (issue : Issue) :
  In issue (rawIssues line language relevant fileIntent) ->
  (exists raw, In raw (checkSecurity line language)
               /\ issue = asSecurityIssue raw)
  \/ (exists category rule raw,
        matchRule line rule language fileIntent = Some raw
        /\ issue = asCustomIssue category raw)
  \/ (exists rule raw,
        matchLanguageRule line rule language fileIntent = Some raw
        /\ issue = asLanguageIssue language raw).
Proof.
  unfold rawIssues. rewrite !in_app_iff.
  intros [H|[H|H]].
  - apply in_map_iff in H as (raw & <- & Hraw). left. eauto.
  - apply in_flat_map in H as ([category rules] & _ & H).
    apply in_map_iff in H as (raw & <- & Hraw).
    unfold applyInstructionRules in Hraw.
    apply in_flat_map in Hraw as (rule & _ & Hraw).
    destruct (negb (isPattern rule)); [destruct Hraw|].
    destruct (matchRule line rule language fileIntent) as [found|] eqn:Hm;
      [|destruct Hraw].
    destruct Hraw as [<-|[]]. right. left. eauto.
  - apply in_map_iff in H as (raw & <- & Hraw).
    unfold applyLanguageRules in Hraw.
    apply in_flat_map in Hraw as (rule & _ & Hraw).
    destruct (matchLanguageRule line rule language fileIntent)
      as [found|] eqn:Hm; [|destruct Hraw].
    destruct Hraw as [<-|[]]. right. right. eauto.
Qed.

(** Every finding of the built-in security detector is categorized as a
    BUG of severity critical, for every line and language. *)
Theorem security_findings_critical_bugs (line language : string) :
  Forall criticalBug (checkSecurity line language).
Proof.
  apply List.Forall_forall. intros issue Hin.
  apply checkSecurity_kinds in Hin as (Hkind & _).
  unfold criticalBug, kind in *. destruct issue; cbn in *.
  repeat match type of Hkind with
         | _ \/ _ => destruct Hkind as [Hkind|Hkind]
         | False => destruct Hkind
         end; injection Hkind as <- <-; split; reflexivity.
Qed.

(** In the pipeline the pattern sub-score never varies: no raw issue of
    [analyzeLine] has a [pattern] property, so each scores the default 15
    whatever detector found it. *)
Theorem pipeline_pattern_score (line language : string)
    (relevant : Relevant) (fileIntent : FileIntent) :
  Forall (fun issue => pattern issue = None
                       /\ ConfidenceScorer.scorePatternMatch issue = 15)
    (rawIssues line language relevant fileIntent).
Proof.
  apply List.Forall_forall. intros issue Hin.
  apply rawIssues_shape in Hin as (Hpat & _).
  split; [exact Hpat|].
  unfold ConfidenceScorer.scorePatternMatch. now rewrite Hpat.
Qed.

Lemma rawShape_scored (language : string) (issue : Issue)
    (context : ConfidenceScorer.Context) (instructions : Instructions) :
  rawShape language issue ->
  ConfidenceScorer.ctxLanguage context = language ->
  (exists c,
     ConfidenceScorer.calculateConfidence
       (confidenceScorer (CodeAnalyzer.new instructions)) issue context
     = Num c /\ 45 <= c <= 74)
  /\ In (Some (IssueCategorizer.category (IssueCategorizer.categorize issue)),
         IssueCategorizer.catSeverity (IssueCategorizer.categorize issue))
       pipelineGrades.
Proof.
  intros (Hpat & Hconf & Hshape) Hctx.
  destruct context as [fname lang n isTest isConfig isMigration ftype].
  destruct issue as [msg sev sugg rid tgs mt src lng pat conf].
  unfold securityShape, customShape, languageShape, kind in Hshape.
  cbn in Hpat, Hconf, Hshape, Hctx. subst pat conf lang.
  unfold ConfidenceScorer.calculateConfidence, ConfidenceScorer.rawScore,
    ConfidenceScorer.scoreContext.
  cbn [ConfidenceScorer.isTestFile ConfidenceScorer.isConfigFile
       ConfidenceScorer.isMigrationFile ConfidenceScorer.filename
       ConfidenceScorer.ctxLanguage].
  destruct (includes fname "debug");
    destruct Hshape as [(Hkind & -> & -> & _)
                       |[(Hkind & -> & ->)|(Hkind & -> & -> & Hlang)]];
    cbn in Hkind;
    repeat match type of Hkind with
           | _ \/ _ => destruct Hkind as [Hkind|Hkind]
           | False => destruct Hkind
           end; injection Hkind as <- <-;
    try (destruct Hlang as [-> | ->]);
    destruct isTest, isConfig, isMigration;
    (split; [eexists; split; [vm_compute; reflexivity|lia]
            |vm_compute; auto]).
Qed.

(** Every finding [analyzeLine] returns from a freshly built analyzer sits
    on the analyzed line of the analyzed file, has a confidence between 45
    and 74 (so never reaches the thresholds 75 and 90 of the renderer), has
    category, emoji and confidence present, and is graded BUG/critical,
    REFACTOR/medium or SUGGESTION/low: never high, warning or info. *)
Theorem analyzeLine_findings_graded (instructions : Instructions)
    (lineContent : string) (lineNumber : Z) (filename language : string)
    (relevant : Relevant) (fileIntent : FileIntent) :
  Forall (graded filename lineNumber)
    (analyzeLine (CodeAnalyzer.new instructions) lineContent lineNumber
       filename language relevant fileIntent).
Proof.
  apply List.Forall_forall. intros comment Hin.
  unfold analyzeLine in Hin.
  apply in_map_iff in Hin as (issue & <- & Hin).
  apply rawIssues_shape in Hin.
  set (context := ConfidenceScorer.mkContext _ _ _ _ _ _ _).
  destruct (rawShape_scored language issue context instructions Hin
              eq_refl) as ((c & Hc & Hrange) & Hgrade).
  unfold graded, createComment.
  cbn [Comment.path Comment.line Comment.confidence Comment.category
       Comment.severity Comment.emoji].
  repeat split; try discriminate.
  - exists c. split; [now rewrite Hc|exact Hrange].
  - exact Hgrade.
Qed.

(** Hard suppression holds for the whole line analysis: in a file
    classified test, mock or script no raw issue about a console or print
    statement is produced, whatever the rules, the language and the line. *)
Theorem no_console_findings_where_allowed (line language : string)
    (relevant : Relevant) (filename content : string) :
  In (type (analyzeFileIntent filename content)) [Test; Mock; Script] ->
  Forall notConsole
    (rawIssues line language relevant (analyzeFileIntent filename content)).
Proof.
  intros Htype. apply List.Forall_forall. intros issue Hin.
  assert (Hallowed :
    arrIncludes (allowedPatterns (analyzeFileIntent filename content))
      "console.log" = true).
  { cbn in *. destruct Htype as [<-|[<-|[<-|[]]]]; reflexivity. }
  apply rawIssues_origin in Hin
    as [(raw & Hraw & ->)|[(category & rule & raw & Hraw & ->)
                          |(rule & raw & Hraw & ->)]];
    unfold notConsole; cbn [ruleId asSecurityIssue asCustomIssue
                            asLanguageIssue].
  - apply checkSecurity_kinds in Hraw as (Hkind & _).
    unfold kind in Hkind. cbn in Hkind.
    split; intros E; rewrite E in Hkind; intuition discriminate.
  - apply matchRule_kinds in Hraw as (_ & _ & Hrule & _).
    rewrite (Hrule Hallowed). split; discriminate.
  - apply matchLanguageRule_kinds in Hraw as (Hkind & _).
    unfold kind in Hkind. cbn in Hkind.
    split; intros E; rewrite E in Hkind; intuition discriminate.
Qed.

Lemma no_console_findings_where_allowed_witness :
  Regex.test false reConsoleLog Scenarios.consoleLine = true
  /\ Forall notConsole
       (rawIssues Scenarios.consoleLine "javascript"
          {| general := [("team conventions", [Scenarios.checkConsoleRule])];
             relLanguageSpecific := [] |}
          (analyzeFileIntent "scripts/deploy.js" "")).
Proof.
  split; [vm_compute; reflexivity|].
  apply (no_console_findings_where_allowed Scenarios.consoleLine
           "javascript" _ "scripts/deploy.js" "").
  vm_compute. auto.
Defined.

(** For a file whose language is none of javascript, typescript and python
    only two findings are possible: a hardcoded secret and commented-out
    code; every language-gated detector stays silent. *)
Theorem other_languages_findings (line language : string)
    (relevant : Relevant) (fileIntent : FileIntent) :
  language <> "javascript" -> language <> "typescript" ->
  language <> "python" ->
  Forall languageFree (rawIssues line language relevant fileIntent).
Proof.
  intros Hjs Hts Hpy. apply List.Forall_forall. intros issue Hin.
  apply rawIssues_origin in Hin
    as [(raw & Hraw & ->)|[(category & rule & raw & Hraw & ->)
                          |(rule & raw & Hraw & ->)]];
    unfold languageFree; cbn [ruleId asSecurityIssue asCustomIssue
                              asLanguageIssue].
  - apply checkSecurity_kinds in Hraw as (_ & _ & _ & Hrule). left. auto.
  - apply matchRule_kinds in Hraw as (_ & _ & _ & Hrule). right. auto.
  - apply matchLanguageRule_kinds in Hraw as (_ & _ & [E|E]); congruence.
Qed.

Lemma other_languages_findings_witness :
  Forall languageFree
    (rawIssues Scenarios.scenarioALineForWitness "unknown"
       {| general := [("team conventions", [Scenarios.checkConsoleRule])];
          relLanguageSpecific := [Scenarios.checkConsoleRule] |}
       (analyzeFileIntent "notes.txt" "")).
Proof.
  apply (other_languages_findings Scenarios.scenarioALineForWitness
           "unknown"); discriminate.
Defined.

End PipelineGrades.

(** ** The rule-history store counts feedback *)

Section FeedbackFacts.
Import JSString ConfidenceScorer Feedback Invariants.

Lemma recordFeedback_lookup (self : ConfidenceScorer.t) (id id' : string)
    (b : bool) :
  ruleHistory (recordFeedback self id b) !! id' =
    if decide (id = id')
    then Some (bump b (default {| correct := 0; falsePositive := 0 |}
                         (ruleHistory self !! id)))
    else ruleHistory self !! id'.
Proof.
  unfold recordFeedback. cbn [ruleHistory].
  destruct (decide (id = id')) as [<-|Hne].
  - rewrite lookup_alter_eq.
    destruct (ruleHistory self !! id) as [h|] eqn:Hk.
    + now rewrite Hk.
    + now rewrite lookup_insert_eq.
  - rewrite lookup_alter_ne by assumption.
    destruct (ruleHistory self !! id); [reflexivity|].
    now rewrite lookup_insert_ne.
Qed.

Lemma countOf_cons (id : string) (v : bool) (call : string * bool)
    (calls : list (string * bool)) :
  countOf id v (call :: calls) =
    ((if String.eqb (fst call) id && Bool.eqb (snd call) v then 1 else 0)
     + countOf id v calls)%nat.
Proof.
  unfold countOf. cbn [List.filter].
  destruct (String.eqb (fst call) id && Bool.eqb (snd call) v); reflexivity.
Qed.

Lemma tallyFrom_step (start : option History) (id : string)
    (call : string * bool) (calls : list (string * bool)) :
  tallyFrom start id (call :: calls) =
    tallyFrom
      (if decide (fst call = id)
       then Some (bump (snd call)
                    (default {| correct := 0; falsePositive := 0 |} start))
       else start)
      id calls.
Proof.
  unfold tallyFrom, tally. rewrite !countOf_cons.
  destruct call as [id0 b]. cbn [fst snd].
  destruct (decide (id0 = id)) as [->|Hne].
  - rewrite String.eqb_refl. cbn [andb].
    destruct start as [[c f]|], b; cbn;
      destruct (countOf id true calls), (countOf id false calls); cbn;
      f_equal; f_equal; lia.
  - apply String.eqb_neq in Hne. rewrite Hne. reflexivity.
Qed.

Lemma feedback_lookup (calls : list (string * bool))
    (self : ConfidenceScorer.t) (id : string) :
  ruleHistory
    (fold_left (fun self call => recordFeedback self (fst call) (snd call))
       calls self) !! id
  = tallyFrom (ruleHistory self !! id) id calls.
Proof.
  revert self. induction calls as [|call calls IH]; intros self.
  - cbn. unfold tallyFrom, tally. cbn.
    destruct (ruleHistory self !! id); reflexivity.
  - cbn [fold_left]. rewrite IH, tallyFrom_step, recordFeedback_lookup.
    destruct (decide (fst call = id)) as [->|Hne]; reflexivity.
Qed.

Lemma fresh_lookup (calls : list (string * bool)) (id : string) :
  ruleHistory (afterFeedback calls) !! id = tally id calls.
Proof.
  unfold afterFeedback. rewrite feedback_lookup.
  unfold new. cbn [ruleHistory]. rewrite lookup_empty. reflexivity.
Qed.

Lemma countOf_none (id : string) (calls : list (string * bool)) :
  (countOf id true calls + countOf id false calls = 0)%nat
  <-> Forall (fun call => fst call <> id) calls.
Proof.
  unfold countOf. induction calls as [|[id' v] calls IH].
  - split; [constructor|reflexivity].
  - cbn [List.filter fst snd].
    destruct (String.eqb_spec id' id) as [->|Hne]; cbn [andb].
    + split.
      * destruct v; cbn [Bool.eqb length]; lia.
      * intros H. inversion H as [|? ? Hid _]; subst.
        now contradiction Hid.
    + rewrite IH. split.
      * intros H. constructor; [exact Hne|exact H].
      * intros H. now inversion H.
Qed.

(** After any sequence of feedback calls on a fresh scorer, the store holds
    for each rule exactly the number of its correct and of its
    false-positive verdicts, and no entry for a rule that got no call. *)
Theorem afterFeedback_tally (calls : list (string * bool)) (id : string) :
  ruleHistory (afterFeedback calls) !! id = tally id calls
  /\ (ruleHistory (afterFeedback calls) !! id = None
      <-> Forall (fun call => fst call <> id) calls).
Proof.
  split; [apply fresh_lookup|].
  rewrite fresh_lookup, <- countOf_none. unfold tally.
  destruct (countOf id true calls + countOf id false calls)%nat.
  - split; reflexivity.
  - split; discriminate.
Qed.

Lemma countOf_perm (id : string) (v : bool)
    (calls calls' : list (string * bool)) :
  Permutation calls calls' -> countOf id v calls = countOf id v calls'.
Proof.
  intros Hperm. unfold countOf.
  induction Hperm as [|call l l' _ IH|a b l|l l' l'' _ IH1 _ IH2];
    cbn [List.filter]; try congruence.
  - destruct (_ && _); cbn [length]; congruence.
  - repeat destruct (_ && _); reflexivity.
Qed.

Lemma scorer_eq (a b : ConfidenceScorer.t) :
  (forall id, ruleHistory a !! id = ruleHistory b !! id) -> a = b.
Proof.
  destruct a as [ma], b as [mb]. cbn. intros H. f_equal. now apply map_eq.
Qed.

(** The store does not depend on the order in which feedback arrives. *)
Theorem afterFeedback_order_irrelevant (calls calls' : list (string * bool)) :
  Permutation calls calls' -> afterFeedback calls = afterFeedback calls'.
Proof.
  intros Hperm. apply scorer_eq. intros id.
  rewrite !fresh_lookup. unfold tally.
  now rewrite !(countOf_perm id _ calls calls' Hperm).
Qed.

Lemma afterFeedback_order_irrelevant_witness :
  afterFeedback [("no-var", true); ("no-console", false); ("no-var", false)]
  = afterFeedback [("no-console", false); ("no-var", false);
                   ("no-var", true)].
Proof.
  apply afterFeedback_order_irrelevant.
  apply perm_trans with
    (l' := [("no-console", false); ("no-var", true); ("no-var", false)]).
  - apply perm_swap.
  - apply perm_skip. apply perm_swap.
Defined.

(** The history sub-score of a rule with a non-empty identifier: without
    feedback the fixed default of the rule, with feedback the floor of 20
    times the share of correct verdicts, whatever the default was. *)
Theorem scoreHistory_after_feedback (calls : list (string * bool))
    (c : ascii) (rest : string) :
  scoreHistory (afterFeedback calls) (Some (String c rest)) =
    match (countOf (String c rest) true calls
           + countOf (String c rest) false calls)%nat with
    | O => Num (defaultHistory (String c rest))
    | S _ =>
        Num (20 * Z.of_nat (countOf (String c rest) true calls)
             / Z.of_nat (countOf (String c rest) true calls
                         + countOf (String c rest) false calls))
    end.
Proof.
  unfold scoreHistory. rewrite fresh_lookup. unfold tally.
  destruct (countOf (String c rest) true calls
            + countOf (String c rest) false calls)%nat as [|t] eqn:E.
  - unfold defaultHistory.
    destruct (arrIncludes highAccuracyRules _); [reflexivity|].
    destruct (arrIncludes mediumAccuracyRules _); reflexivity.
  - rewrite accuracyScore_floor by (cbn; lia). cbn [correct falsePositive].
    now rewrite E.
Qed.

(** Feedback on one rule leaves the history sub-score of every other rule
    as it was. *)
Theorem recordFeedback_other_rules (self : ConfidenceScorer.t)
    (id : string) (b : bool) (other : option string) :
  other <> Some id ->
  scoreHistory (recordFeedback self id b) other = scoreHistory self other.
Proof.
  intros Hne. unfold scoreHistory.
  destruct other as [[|c rest]|]; try reflexivity.
  rewrite recordFeedback_lookup.
  destruct (decide (id = String c rest)) as [->|_]; [congruence|reflexivity].
Qed.

Lemma recordFeedback_other_rules_witness :
  scoreHistory (recordFeedback new "no-var" false) (Some "no-console")
  = scoreHistory new (Some "no-console").
Proof.
  apply (recordFeedback_other_rules new "no-var" false (Some "no-console")).
  discriminate.
Defined.

End FeedbackFacts.

(** ** File paths, labels, function names and the configuration *)

Section IntentFacts.
Import JSString IntentAnalyzer Intents.

Lemma lowerChar_idem (c : ascii) : lowerChar (lowerChar c) = lowerChar c.
Proof. destruct c as [[] [] [] [] [] [] [] []]; reflexivity. Qed.

Lemma lowerChar_upperChar (c : ascii) : lowerChar (upperChar c) = lowerChar c.
Proof. destruct c as [[] [] [] [] [] [] [] []]; reflexivity. Qed.

Lemma lowerChar_backslash (c : ascii) :
  lowerChar (if Ascii.eqb (lowerChar c) backslash then slash
             else lowerChar c)
  = (if Ascii.eqb (lowerChar c) backslash then slash else lowerChar c)
  /\ Ascii.eqb (if Ascii.eqb (lowerChar c) backslash then slash
                else lowerChar c) backslash = false.
Proof. destruct c as [[] [] [] [] [] [] [] []]; split; reflexivity. Qed.

Lemma toLowerCase_toUpperCase (s : string) :
  toLowerCase (toUpperCase s) = toLowerCase s.
Proof.
  induction s as [|c s IH]; [reflexivity|].
  cbn [toUpperCase toLowerCase]. now rewrite lowerChar_upperChar, IH.
Qed.

Lemma normalizePath_idem (filename : string) :
  normalizePath (normalizePath filename) = normalizePath filename.
Proof.
  unfold normalizePath.
  induction filename as [|c s IH]; [reflexivity|].
  cbn [toLowerCase replaceChar].
  destruct (lowerChar_backslash c) as [-> ->]. now rewrite IH.
Qed.

(** File classification ignores the direction of the slashes and, for
    ASCII paths, letter case: a path and its normalized form are classified
    alike, normalizing twice changes nothing, and an ASCII path and its
    upper-case form are classified alike. *)
Theorem detectFileType_normalized (filename : string) :
  normalizePath (normalizePath filename) = normalizePath filename
  /\ detectFileType (normalizePath filename) = detectFileType filename
  /\ (AsciiText.isAscii filename = true ->
      detectFileType (toUpperCase filename) = detectFileType filename).
Proof.
  split; [apply normalizePath_idem|]. split.
  - unfold detectFileType. now rewrite normalizePath_idem.
  - intros _. unfold detectFileType, normalizePath.
    now rewrite toLowerCase_toUpperCase.
Qed.

Lemma detectFileType_normalized_witness :
  AsciiText.isAscii "Tests/App.Test.js" = true
  /\ detectFileType (toUpperCase "Tests/App.Test.js")
     = detectFileType "Tests/App.Test.js".
Proof.
  split; [reflexivity|].
  apply (proj2 (proj2 (detectFileType_normalized "Tests/App.Test.js"))).
  reflexivity.
Defined.

Lemma applyLabel_extends (i : PRIntent) (l : Label) :
  extends i (applyLabel i l).
Proof.
  unfold applyLabel, extends, flagKept.
  repeat match goal with
         | |- context [if ?b then _ else _] => destruct b
         end; cbn; repeat split; auto;
    try (eexists; rewrite <- ?app_assoc; reflexivity);
    try (exists []; now rewrite app_nil_r).
Qed.

Lemma extends_trans (a b c : PRIntent) :
  extends a b -> extends b c -> extends a c.
Proof.
  unfold extends, flagKept.
  intros (A1 & A2 & A3 & A4 & A5 & A6 & A7 & A8 & (x & A9) & A10 & A11 & A12)
         (B1 & B2 & B3 & B4 & B5 & B6 & B7 & B8 & (y & B9) & B10 & B11 & B12).
  repeat split; try congruence; auto.
  exists (x ++ y). rewrite B9, A9. now rewrite app_assoc.
Qed.

Lemma labels_extend (labels : list Label) (i : PRIntent) :
  extends i (fold_left applyLabel labels i).
Proof.
  revert i. induction labels as [|l labels IH]; intros i.
  - unfold extends, flagKept. repeat split; auto.
    exists []. now rewrite app_nil_r.
  - cbn [fold_left].
    eapply extends_trans; [apply applyLabel_extends|apply IH].
Qed.

(** Labels only add: whatever labels follow, the type, scope, description
    and expectation flags stay as they were, the focus areas keep what they
    had as a prefix, and a raised flag (migration guide, urgent, draft)
    stays raised. *)
Theorem labels_only_add (prTitle prBody : string)
    (labels more : list Label) :
  exists before after,
    analyzePRIntent prTitle prBody labels = Normal before
    /\ analyzePRIntent prTitle prBody (labels ++ more) = Normal after
    /\ extends before after.
Proof.
  unfold analyzePRIntent.
  destruct (applyTitle_Normal prTitle (initialIntent prTitle))
    as (titled & ->).
  cbn [bindC]. do 2 eexists. split; [reflexivity|]. split; [reflexivity|].
  rewrite fold_left_app. apply labels_extend.
Qed.

Lemma applyLabel_strictness (i : PRIntent) (l : Label) :
  strictness (applyLabel i l) =
    if draftLabel l then "lenient"
    else if securityLabel l then "strict"
    else strictness i.
Proof.
  unfold applyLabel, draftLabel, securityLabel.
  repeat match goal with
         | |- context [if ?b then _ else _] => destruct b
         end; reflexivity.
Qed.

(** The strictness is settled by the last label that speaks about it: a
    final label mentioning wip or draft gives lenient, otherwise one
    mentioning security gives strict, otherwise the strictness is that of
    the labels before. *)
Theorem last_label_decides_strictness (prTitle prBody : string)
    (labels : list Label) (l : Label) :
  exists before after,
    analyzePRIntent prTitle prBody labels = Normal before
    /\ analyzePRIntent prTitle prBody (labels ++ [l]) = Normal after
    /\ strictness after =
         if draftLabel l then "lenient"
         else if securityLabel l then "strict"
         else strictness before.
Proof.
  unfold analyzePRIntent.
  destruct (applyTitle_Normal prTitle (initialIntent prTitle))
    as (titled & ->).
  cbn [bindC]. do 2 eexists. split; [reflexivity|]. split; [reflexivity|].
  rewrite fold_left_app. cbn [fold_left]. apply applyLabel_strictness.
Qed.

(** A draft label followed by a security label leaves the review strict,
    the other order lenient. *)
Example strictness_depends_on_label_order :
  (exists i, analyzePRIntent "fix: x" ""
               [LabelString "draft"; LabelString "security"] = Normal i
             /\ strictness i = "strict")
  /\ (exists i, analyzePRIntent "fix: x" ""
                  [LabelString "security"; LabelString "draft"] = Normal i
                /\ strictness i = "lenient").
Proof. split; eexists; (split; [vm_compute; reflexivity|reflexivity]). Qed.

End IntentFacts.

Section FunctionAndContext.
Import JSString IntentAnalyzer.

Lemma startsWith_cons (a b : ascii) (s p : string) :
  startsWith (String a s) (String b p) = Ascii.eqb b a && startsWith s p.
Proof. reflexivity. Qed.

Lemma startsWith_two (n : string) (p q : ascii) (r : string) :
  startsWith n (String p (String q r)) = true ->
  exists n', n = String p (String q n').
Proof.
  destruct n as [|a [|b n]]; cbn [startsWith]; intros H;
    try discriminate.
  - apply andb_true_iff in H as [_ H]. discriminate.
  - apply andb_true_iff in H as [Ha H]. apply andb_true_iff in H as [Hb _].
    apply Ascii.eqb_eq in Ha, Hb. subst. eauto.
Qed.

(** No name starts with two of the prefixes that the last three blocks of
    [analyzeFunctionIntent] test. *)
Lemma function_prefixes_exclusive (n : string) :
  let V := startsWith n "validate" || startsWith n "check"
           || startsWith n "verify" in
  let S := startsWith n "sanitize" || startsWith n "clean"
           || startsWith n "escape" in
  let M := startsWith n "mock" || startsWith n "stub"
           || startsWith n "fake" in
  (V = true -> S = false /\ M = false) /\ (S = true -> M = false).
Proof.
  cbv zeta. split; intros H;
    repeat (apply orb_true_iff in H as [H|H]);
    apply startsWith_two in H as (n' & ->); repeat split; reflexivity.
Qed.

(** In [analyzeFunctionIntent] the flags and the purpose agree: error
    handling is expected exactly for the purpose validation, validation
    exactly for the purposes validation and sanitization, and the purposes
    debug, experimental and test-helper all allow lower standards. *)
Theorem analyzeFunctionIntent_flags (functionName : string) :
  let intent := analyzeFunctionIntent functionName in
  (expectErrorHandling intent = true <-> fnPurpose intent = "validation")
  /\ (expectValidation intent = true <->
      fnPurpose intent = "validation" \/ fnPurpose intent = "sanitization")
  /\ (In (fnPurpose intent) ["debug"; "experimental"; "test-helper"] ->
      allowLowerStandards intent = true)
  /\ In (fnPurpose intent)
       ["general"; "debug"; "experimental"; "validation"; "sanitization";
        "test-helper"]
  /\ name intent = functionName.
Proof.
  unfold analyzeFunctionIntent.
  pose proof (function_prefixes_exclusive (toLowerCase functionName))
    as Hex. cbv zeta in Hex.
  revert Hex.
  generalize (startsWith (toLowerCase functionName) "debug"
              || startsWith (toLowerCase functionName) "temp"
              || startsWith (toLowerCase functionName) "tmp") as D.
  generalize (startsWith (toLowerCase functionName) "experiment"
              || includes (toLowerCase functionName) "test") as E.
  generalize (startsWith (toLowerCase functionName) "validate"
              || startsWith (toLowerCase functionName) "check"
              || startsWith (toLowerCase functionName) "verify") as V.
  generalize (startsWith (toLowerCase functionName) "sanitize"
              || startsWith (toLowerCase functionName) "clean"
              || startsWith (toLowerCase functionName) "escape") as S.
  generalize (startsWith (toLowerCase functionName) "mock"
              || startsWith (toLowerCase functionName) "stub"
              || startsWith (toLowerCase functionName) "fake") as M.
  intros isMock isSanitize isValidate E D [HV HS].
  destruct isValidate;
    [destruct (HV eq_refl) as [-> ->]
    |destruct isSanitize; [rewrite (HS eq_refl)|destruct isMock]];
    destruct E, D; cbn; clear;
    intuition (try discriminate; auto 10).
Qed.

Lemma truthy_append (s t : string) :
  truthy (Some t) = true -> truthy (Some (s +:+ t)) = true.
Proof. destruct s; [auto|reflexivity]. Qed.

Lemma truthy_join (sep part : string) (parts : list string) :
  truthy (Some part) = true -> truthy (Some (join sep (part :: parts))) = true.
Proof.
  destruct part as [|c part]; [discriminate|]. intros _.
  destruct parts; reflexivity.
Qed.

(** For the intent of any file, [getContextSummary] never falls back to
    "standard review": the summary is the comma-separated list of a
    non-empty set of parts, because every file type is either not
    production, or strict. *)
Theorem getContextSummary_never_default (filename content : string)
    (prIntent : option PRIntent) :
  getContextSummary (analyzeFileIntent filename content) prIntent
  = join ", " (contextParts (analyzeFileIntent filename content) prIntent)
  /\ contextParts (analyzeFileIntent filename content) prIntent <> []
  /\ (detectFileType filename = Production ->
      List.last (contextParts (analyzeFileIntent filename content) prIntent)
        EmptyString = "strict rules").
Proof.
  assert (Hparts : exists part parts,
            contextParts (analyzeFileIntent filename content) prIntent
            = part :: parts /\ truthy (Some part) = true).
  { unfold contextParts, analyzeFileIntent. cbn [type strictnessLevel].
    destruct (detectFileType filename); cbn;
      try (do 2 eexists; split; [reflexivity|reflexivity]).
    destruct prIntent as [pr|];
      [|do 2 eexists; split; reflexivity].
    destruct (String.eqb (prType pr) "general"); cbn;
      [do 2 eexists; split; reflexivity|].
    do 2 eexists. split; [reflexivity|]. now apply truthy_append. }
  destruct Hparts as (part & parts & Heq & Hpart).
  split; [|split].
  - unfold getContextSummary. rewrite Heq.
    now rewrite (truthy_join ", " part parts Hpart).
  - rewrite Heq. discriminate.
  - intros Hprod. unfold contextParts, analyzeFileIntent.
    cbn [type strictnessLevel]. rewrite Hprod. cbn.
    destruct prIntent as [pr|]; [|reflexivity].
    destruct (String.eqb (prType pr) "general"); reflexivity.
Qed.

End FunctionAndContext.

Section ConfigFacts.
Import JSString Config.

Lemma isEmpty_false (s : string) : isEmpty s = false <-> s <> EmptyString.
Proof. destruct s; cbn; split; congruence. Qed.

(** [validateConfig] accepts a configuration exactly when a GitHub token
    or a Bitbucket user name is present, a Bitbucket user name comes with
    an app password, and the review mode is preview or direct; a missing or
    empty REVIEW_MODE counts as preview. *)
Theorem validateConfig_accepts (config : Config.t)
    (env : gmap string string) :
  (fst (validateConfig config) = true <->
   (githubToken config <> EmptyString
    \/ bitbucketUsername config <> EmptyString)
   /\ (bitbucketUsername config <> EmptyString ->
       bitbucketAppPassword config <> EmptyString)
   /\ (reviewMode config = "preview" \/ reviewMode config = "direct"))
  /\ (snd (validateConfig config) = [] <-> fst (validateConfig config) = true)
  /\ (envOr env "REVIEW_MODE" EmptyString = EmptyString ->
      reviewMode (load env) = "preview").
Proof.
  split; [|split].
  - unfold validateConfig, validationErrors. cbn [fst].
    rewrite <- !isEmpty_false.
    assert (Hmode : arrIncludes ["preview"; "direct"] (reviewMode config)
                    = true <->
                    reviewMode config = "preview"
                    \/ reviewMode config = "direct").
    { rewrite arrIncludes_In. cbn. intuition congruence. }
    destruct (isEmpty (githubToken config)),
      (isEmpty (bitbucketUsername config)),
      (isEmpty (bitbucketAppPassword config)),
      (arrIncludes ["preview"; "direct"] (reviewMode config));
      cbn; intuition (try discriminate; auto).
  - unfold validateConfig. cbn [fst snd].
    destruct (validationErrors config); split; congruence.
  - unfold load, envOr. cbn [reviewMode].
    destruct (env !! "REVIEW_MODE") as [[|c v]|]; [auto|discriminate|auto].
Qed.

End ConfigFacts.

(** ** Language detection and the run summary *)

Section LanguageFacts.
Import JSString Utils CodeAnalyzer Summary.

Lemma upperChar_dot (c : ascii) :
  Ascii.eqb (upperChar c) "." = Ascii.eqb c ".".
Proof. destruct c as [[] [] [] [] [] [] [] []]; reflexivity. Qed.

Lemma split_nonempty (sep : ascii) (s : string) : split sep s <> [].
Proof.
  destruct s as [|c s]; cbn [split]; [discriminate|].
  destruct (Ascii.eqb c sep); [discriminate|].
  destruct (split sep s); discriminate.
Qed.

Lemma split_toUpperCase (s : string) :
  split "." (toUpperCase s) = map toUpperCase (split "." s).
Proof.
  induction s as [|c s IH]; [reflexivity|].
  cbn [toUpperCase split]. rewrite upperChar_dot, IH.
  destruct (Ascii.eqb c "."); [reflexivity|].
  destruct (split "." s); reflexivity.
Qed.

Lemma last_map_string (f : string -> string) (l : list string) :
  f EmptyString = EmptyString ->
  List.last (map f l) EmptyString = f (List.last l EmptyString).
Proof.
  intros Hf. induction l as [|x l IH]; [symmetry; exact Hf|].
  destruct l as [|y l]; [reflexivity|].
  change (List.last (map f (y :: l)) EmptyString
          = f (List.last (y :: l) EmptyString)). exact IH.
Qed.

Lemma last_split_after (sep : ascii) (a b : string) :
  List.last (split sep (a +:+ chr sep +:+ b)) EmptyString
  = List.last (split sep b) EmptyString.
Proof.
  induction a as [|c a IH].
  - change (EmptyString +:+ chr sep +:+ b) with (String sep b).
    cbn [split]. rewrite Ascii.eqb_refl.
    destruct (split sep b) eqn:E; [now apply split_nonempty in E|].
    reflexivity.
  - change (String c a +:+ chr sep +:+ b)
      with (String c (a +:+ chr sep +:+ b)).
    cbn [split]. destruct (Ascii.eqb c sep).
    + destruct (split sep (a +:+ chr sep +:+ b)) eqn:E;
        [now apply split_nonempty in E|]. exact IH.
    + destruct (split sep (a +:+ chr sep +:+ b)) as [|w ws] eqn:E;
        [now apply split_nonempty in E|].
      destruct ws as [|w' ws]; [|exact IH].
      (* a single segment cannot follow a separator *)
      exfalso. clear IH. revert w E.
      induction a as [|c' a IHa]; intros w E.
      * change (EmptyString +:+ chr sep +:+ b) with (String sep b) in E.
        cbn [split] in E. rewrite Ascii.eqb_refl in E.
        destruct (split sep b) eqn:E'; [now apply split_nonempty in E'|].
        discriminate.
      * change (String c' a +:+ chr sep +:+ b)
          with (String c' (a +:+ chr sep +:+ b)) in E.
        cbn [split] in E. destruct (Ascii.eqb c' sep).
        -- destruct (split sep (a +:+ chr sep +:+ b)) eqn:E';
             [now apply split_nonempty in E'|discriminate].
        -- destruct (split sep (a +:+ chr sep +:+ b)) as [|w1 [|w2 ws]]
             eqn:E'; [now apply split_nonempty in E'| |discriminate].
           now apply (IHa w1).
Qed.

Lemma detectLanguage_extension_only (filename : string) :
  detectLanguage filename =
    match lookup (extension filename) languageMap with
    | Some lang => Some lang
    | None =>
        if arrIncludes inheritedKeys (extension filename) then None
        else Some "unknown"
    end.
Proof. reflexivity. Qed.

(** [detectLanguage] looks at nothing but the text after the last dot:
    directories and base name are irrelevant (a bare name such as [go] is
    read as an extension).  For an ASCII name the letter case is irrelevant
    too: upper-casing the whole name changes nothing. *)
Theorem detectLanguage_last_segment (base rest filename : string) :
  detectLanguage (base +:+ "." +:+ rest) = detectLanguage rest
  /\ (AsciiText.isAscii filename = true ->
      detectLanguage (toUpperCase filename) = detectLanguage filename).
Proof.
  split; [|intros _].
  - rewrite !detectLanguage_extension_only. unfold extension.
    pose proof (last_split_after "." base rest) as Hlast.
    unfold chr in Hlast. now rewrite Hlast.
  - rewrite !detectLanguage_extension_only. unfold extension.
    rewrite split_toUpperCase, (last_map_string toUpperCase) by reflexivity.
    now rewrite toLowerCase_toUpperCase.
Qed.

Lemma detectLanguage_last_segment_witness :
  AsciiText.isAscii "src/deploy.Sh" = true
  /\ detectLanguage (toUpperCase "src/deploy.Sh")
     = detectLanguage "src/deploy.Sh".
Proof.
  split; [reflexivity|].
  apply (proj2 (detectLanguage_last_segment EmptyString EmptyString
                  "src/deploy.Sh")).
  reflexivity.
Defined.

(** [analyzeFile] throws exactly for a file whose extension is
    [constructor] or [__proto__] (in any letter case): for these the
    language lookup returns a member inherited from the object prototype
    instead of a string.  Every other file is analyzed normally. *)
Theorem analyzeFile_throws_on_inherited (self : CodeAnalyzer.t)
    (file : File) (changedLinesList : list ChangedLine) :
  match analyzeFile self file changedLinesList with
  | Throw _ => In (extension (fileName file)) inheritedKeys
  | Normal _ => ~ In (extension (fileName file)) inheritedKeys
  end.
Proof.
  unfold analyzeFile. rewrite detectLanguage_extension_only.
  destruct (lookup (extension (fileName file)) languageMap) as [lang|]
    eqn:Hl.
  - intros Hin. unfold inheritedKeys in Hin. cbn [In] in Hin.
    destruct Hin as [E|[E|[]]]; rewrite <- E in Hl; vm_compute in Hl;
      discriminate.
  - destruct (arrIncludes inheritedKeys (extension (fileName file))) eqn:Hi.
    + now apply arrIncludes_In.
    + intros Hin. apply arrIncludes_In in Hin. congruence.
Qed.

End LanguageFacts.

Section SummaryFacts.
Import JSString IssueOps IssueCategorizer CodeAnalyzer Summary Invariants.

Lemma categorize_asIssue (comment : Comment.t) :
  categorize (asIssue comment)
  = {| category := "SUGGESTION"; catSeverity := "low"; emoji := "🔵";
       sortOrder := 3 |}.
Proof. reflexivity. Qed.

Lemma countBy_all (p : Categorized -> bool) (l : list Categorized) :
  Forall (fun e => p e = true) l -> countBy p l = length l.
Proof.
  unfold countBy. induction 1 as [|e l He _ IH]; [reflexivity|].
  cbn [List.filter]. rewrite He. cbn [length]. now rewrite IH.
Qed.

Lemma countBy_none (p : Categorized -> bool) (l : list Categorized) :
  Forall (fun e => p e = false) l -> countBy p l = 0%nat.
Proof.
  unfold countBy. induction 1 as [|e l He _ IH]; [reflexivity|].
  cbn [List.filter]. now rewrite He.
Qed.

Lemma summary_entries (comments : list Comment.t) :
  Forall (fun e => category (info e) = "SUGGESTION"
                   /\ catSeverity (info e) = "low")
    (fst (categorizeMultiple (map asIssue comments))).
Proof.
  cbn [categorizeMultiple fst].
  eapply Permutation_Forall; [apply arraySort_perm|].
  apply List.Forall_forall. intros e He.
  apply in_map_iff in He as (i & <- & Hi).
  apply in_map_iff in Hi as (c & <- & _).
  split; reflexivity.
Qed.

Lemma summary_stats (comments : list Comment.t) :
  snd (categorizeMultiple (map asIssue comments))
  = {| total := length comments; bugs := 0; refactors := 0;
       suggestions := length comments; critical := 0;
       IssueCategorizer.high := 0; IssueCategorizer.medium := 0;
       IssueCategorizer.low := length comments |}.
Proof.
  pose proof (summary_entries comments) as Hall.
  cbn [categorizeMultiple fst snd] in *.
  set (sorted := arraySort compareFn (map withCategory (map asIssue comments)))
    in *.
  assert (Hlen : length sorted = length comments).
  { unfold sorted.
    rewrite <- (Permutation_length (arraySort_perm compareFn _)).
    now rewrite !length_map. }
  rewrite (countBy_all (fun i => String.eqb (category (info i)) "SUGGESTION"))
    by (eapply List.Forall_impl; [|exact Hall]; intros e [-> _];
        reflexivity).
  rewrite (countBy_all (fun i => String.eqb (catSeverity (info i)) "low"))
    by (eapply List.Forall_impl; [|exact Hall]; intros e [_ ->];
        reflexivity).
  rewrite !countBy_none
    by (eapply List.Forall_impl; [|exact Hall]; intros e [H1 H2];
        first [rewrite H1 | rewrite H2]; reflexivity).
  now rewrite Hlen.
Qed.

(** [generateSummary] re-categorizes the comments it is given, and a
    comment carries neither tags nor a rule identifier: whatever their own
    category and severity, all findings are counted as suggestions, and the
    summary never shows a bug line, a refactor line or the critical
    callout.  Without findings the summary is the fixed "no issues" text.
    Both end with the tone of the instructions or the fixed default. *)
Theorem generateSummary_text (self : CodeAnalyzer.t) (comment : Comment.t)
    (comments : list Comment.t) :
  generateSummary self [] = emptySummary self
  /\ generateSummary self (comment :: comments)
     = suggestionsSummary self (S (length comments))
         (roundedAverage (confidenceSum (comment :: comments))
            (S (length comments))).
Proof.
  split; [reflexivity|].
  unfold generateSummary. rewrite summary_stats.
  cbn [total bugs refactors suggestions critical length Nat.ltb Nat.leb].
  unfold suggestionsSummary, closing.
  now rewrite !append_assoc.
Qed.

Lemma roundedAverage_div (sum : Z) (n : nat) :
  roundedAverage sum (S n)
  = (2 * sum + Z.of_nat (S n)) / (2 * Z.of_nat (S n)).
Proof.
  unfold roundedAverage.
  change (Z.of_nat (S n)) with (Z.pos (Pos.of_succ_nat n)).
  unfold Qdiv, Qmult, Qinv, Qplus, inject_Z, Qfloor. cbn [Qnum Qden].
  rewrite Pos.mul_1_l. f_equal; lia.
Qed.

Lemma confidenceSum_bounds (lo hi : Z) (comments : list Comment.t) :
  Forall (fun c => lo <= JSNumber.orZero (Comment.confidence c) <= hi)
    comments ->
  forall start,
    start + lo * Z.of_nat (length comments)
    <= fold_left (fun sum c => sum + JSNumber.orZero (Comment.confidence c))
         comments start
    <= start + hi * Z.of_nat (length comments).
Proof.
  induction 1 as [|c comments Hc _ IH]; intros start; cbn [fold_left length].
  - lia.
  - specialize (IH (start + JSNumber.orZero (Comment.confidence c))). lia.
Qed.

(** The average confidence shown in the summary lies between the least and
    the greatest confidence of the findings. *)
Theorem roundedAverage_between (lo hi : Z) (comment : Comment.t)
    (comments : list Comment.t) :
  Forall (fun c => lo <= JSNumber.orZero (Comment.confidence c) <= hi)
    (comment :: comments) ->
  lo <= roundedAverage (confidenceSum (comment :: comments))
          (length (comment :: comments)) <= hi.
Proof.
  intros Hall.
  pose proof (confidenceSum_bounds lo hi _ Hall 0) as Hsum.
  fold (confidenceSum (comment :: comments)) in Hsum.
  cbn [length] in *. rewrite roundedAverage_div.
  set (n := Z.of_nat (S (length comments))) in *.
  assert (0 < n) by (unfold n; lia).
  split.
  - apply Z.div_le_lower_bound; nia.
  - apply Z.lt_succ_r. apply Z.div_lt_upper_bound; nia.
Qed.

Lemma roundedAverage_between_witness :
  71 <= roundedAverage
          (confidenceSum [Scenarios.scenarioAFinding71;
                          Scenarios.scenarioAFinding])
          2 <= 86.
Proof.
  apply (roundedAverage_between 71 86 Scenarios.scenarioAFinding71
           [Scenarios.scenarioAFinding]).
  repeat constructor; cbn; lia.
Defined.

End SummaryFacts.

(** ** The matcher consumes words of the language *)

Section MatcherSoundness.
Import JSString Regex Language.

Lemma consumes_here (ic : bool) (st : MState)
    (k : MState -> option Captures) (c : Captures) (r : Regex.t) :
  Matches ic r EmptyString -> k st = Some c -> consumes ic r st k c.
Proof. intros Hm Hk. exists st, EmptyString. auto. Qed.

Lemma step_consumes (p : ascii -> bool) (st : MState)
    (k : MState -> option Captures) (c : Captures) :
  step p st k = Some c ->
  exists a s, rest st = String a s /\ p a = true
              /\ k (mkMState s (Some a) (caps st)) = Some c.
Proof.
  unfold step. destruct (rest st) as [|a s]; [discriminate|].
  destruct (p a) eqn:Hp; [|discriminate]. intros H. eauto.
Qed.

Lemma orb_false_l_r (a b : bool) : a || b = false -> a = false /\ b = false.
Proof. destruct a, b; auto. Qed.

Lemma loop_consumes (ic : bool) (r : Regex.t)
    (k : MState -> option Captures) :
  (forall st k' c, run ic r st k' = Some c -> consumes ic r st k' c) ->
  forall (fuel : nat) (st : MState) (c : Captures),
    (fix loop (fuel : nat) (st : MState) : option Captures :=
       match fuel with
       | O => k st
       | S fuel' =>
           orElse
             (run ic r st (fun st' =>
                if shorter st' st then loop fuel' st' else None))
             (fun _ => k st)
       end) fuel st = Some c ->
    consumes ic (Star r) st k c.
Proof.
  intros Hbody. induction fuel as [|fuel IH]; intros st c H.
  - apply consumes_here; [constructor|exact H].
  - apply orElse_Some in H as [H|H];
      [|apply consumes_here; [constructor|exact H]].
    apply Hbody in H as (st1 & w1 & H1 & Hrest1 & Hm1 & Hcap1).
    destruct (shorter st1 st); [|discriminate].
    apply IH in H1 as (st2 & w2 & H2 & Hrest2 & Hm2 & Hcap2).
    exists st2, (w1 +:+ w2). split; [exact H2|]. split.
    + rewrite Hrest1, Hrest2. now rewrite append_assoc.
    + split; [now constructor|].
      intros n Hn. cbn [mentions] in *. now rewrite Hcap2, Hcap1.
Qed.

Lemma run_consumes (ic : bool) (r : Regex.t) :
  forall (st : MState) (k : MState -> option Captures) (c : Captures),
    run ic r st k = Some c -> consumes ic r st k c.
Proof.
  induction r as [| a | s | | items | items | r1 IH1 r2 IH2 | r1 IH1 r2 IH2
                 | r IH | r IH | r IH | n r IH | n r IH | | |];
    intros st k c H; cbn [run] in H.
  - apply consumes_here; [constructor|exact H].
  - apply step_consumes in H as (x & s & Hrest & Hp & Hk).
    eexists _, (chr x). split; [exact Hk|]. split; [exact Hrest|].
    split; [now constructor|intros; reflexivity].
  - assert (Hlit : forall st, (fix lit (s : string) (st : MState)
                                 : option Captures :=
                      match s with
                      | EmptyString => k st
                      | String a s' => step (charEq ic a) st (lit s')
                      end) s st = Some c ->
              exists st' w, k st' = Some c /\ rest st = w +:+ rest st'
                            /\ strEq ic s w = true
                            /\ caps st' = caps st).
    { clear H st. induction s as [|a s IHs]; intros st H.
      - exists st, EmptyString. auto.
      - apply step_consumes in H as (x & s0 & Hrest & Hp & Hk).
        apply IHs in Hk as (st' & w & Hk & Hrest' & Heq & Hcaps).
        exists st', (String x w). split; [exact Hk|]. split.
        + rewrite Hrest. cbn [rest] in Hrest'. now rewrite Hrest'.
        + split; [cbn [strEq]; now rewrite Hp, Heq|exact Hcaps]. }
    apply Hlit in H as (st' & w & Hk & Hrest & Heq & Hcaps).
    exists st', w. split; [exact Hk|]. split; [exact Hrest|].
    split; [now constructor|]. intros n _. now rewrite Hcaps.
  - apply step_consumes in H as (x & s & Hrest & Hp & Hk).
    eexists _, (chr x). split; [exact Hk|]. split; [exact Hrest|].
    split; [constructor; now apply negb_true_iff|intros; reflexivity].
  - apply step_consumes in H as (x & s & Hrest & Hp & Hk).
    eexists _, (chr x). split; [exact Hk|]. split; [exact Hrest|].
    split; [now constructor|intros; reflexivity].
  - apply step_consumes in H as (x & s & Hrest & Hp & Hk).
    eexists _, (chr x). split; [exact Hk|]. split; [exact Hrest|].
    split; [constructor; now apply negb_true_iff|intros; reflexivity].
  - apply IH1 in H as (st1 & w1 & H1 & Hrest1 & Hm1 & Hcap1).
    apply IH2 in H1 as (st2 & w2 & H2 & Hrest2 & Hm2 & Hcap2).
    exists st2, (w1 +:+ w2). split; [exact H2|]. split.
    + rewrite Hrest1, Hrest2. now rewrite append_assoc.
    + split; [now constructor|].
      intros n Hn. cbn [mentions] in Hn.
      apply orb_false_l_r in Hn as [Hn1 Hn2].
      now rewrite (Hcap2 n Hn2), (Hcap1 n Hn1).
  - apply orElse_Some in H as [H|H].
    + apply IH1 in H as (st1 & w1 & H1 & Hrest1 & Hm1 & Hcap1).
      exists st1, w1. repeat split; auto; [now apply MAltL|].
      intros n Hn. cbn [mentions] in Hn.
      apply orb_false_l_r in Hn as [Hn1 Hn2]. auto.
    + apply IH2 in H as (st1 & w1 & H1 & Hrest1 & Hm1 & Hcap1).
      exists st1, w1. repeat split; auto; [now apply MAltR|].
      intros n Hn. cbn [mentions] in Hn.
      apply orb_false_l_r in Hn as [Hn1 Hn2]. auto.
  - now apply (loop_consumes ic r k IH) in H.
  - apply IH in H as (st1 & w1 & H1 & Hrest1 & Hm1 & Hcap1).
    apply (loop_consumes ic r k IH) in H1
      as (st2 & w2 & H2 & Hrest2 & Hm2 & Hcap2).
    exists st2, (w1 +:+ w2). split; [exact H2|]. split.
    + rewrite Hrest1, Hrest2. now rewrite append_assoc.
    + split; [now constructor|].
      intros n Hn. cbn [mentions] in *. now rewrite Hcap2, Hcap1.
  - apply orElse_Some in H as [H|H].
    + apply IH in H as (st1 & w1 & H1 & Hrest1 & Hm1 & Hcap1).
      exists st1, w1. repeat split; auto. now apply MOptSome.
    + apply consumes_here; [constructor|exact H].
  - revert st H. induction n as [|n IHn]; intros st H.
    + apply consumes_here; [constructor|exact H].
    + apply IH in H as (st1 & w1 & H1 & Hrest1 & Hm1 & Hcap1).
      apply IHn in H1 as (st2 & w2 & H2 & Hrest2 & Hm2 & Hcap2).
      exists st2, (w1 +:+ w2). split; [exact H2|]. split.
      * rewrite Hrest1, Hrest2. now rewrite append_assoc.
      * split; [now constructor|].
        intros m Hm. cbn [mentions] in *. now rewrite Hcap2, Hcap1.
  - apply IH in H as (st1 & w1 & H1 & Hrest1 & Hm1 & Hcap1).
    eexists _, w1. split; [exact H1|]. split; [exact Hrest1|].
    split; [now constructor|].
    intros m Hm. cbn [mentions] in Hm.
    apply orb_false_l_r in Hm as [Hne Hm]. cbn [caps capture].
    rewrite Hne. auto.
  - destruct (prev st); [discriminate|].
    apply consumes_here; [constructor|exact H].
  - destruct (rest st) eqn:E; [|discriminate].
    exists st, EmptyString. rewrite E. repeat split; auto. constructor.
  - destruct (xorb _ _); [|discriminate].
    apply consumes_here; [constructor|exact H].
Qed.

Lemma length_append (a b : string) :
  String.length (a +:+ b) = (String.length a + String.length b)%nat.
Proof.
  induction a as [|x a IH]; [reflexivity|].
  change (String x a +:+ b) with (String x (a +:+ b)).
  cbn [String.length]. now rewrite IH.
Qed.

Lemma substring_prefix (a b : string) :
  String.substring 0 (String.length a) (a +:+ b) = a.
Proof.
  induction a as [|x a IH]; [destruct b; reflexivity|].
  change (String x a +:+ b) with (String x (a +:+ b)).
  cbn [String.length String.substring]. now rewrite IH.
Qed.

(** What a group records is the word its body consumed. *)
Lemma run_group_word (ic : bool) (n : nat) (r : Regex.t) (st : MState)
    (k : MState -> option Captures) (c : Captures) :
  run ic (Group n r) st k = Some c ->
  exists st1 w,
    k (mkMState (rest st1) (prev st1) ((n, w) :: caps st1)) = Some c
    /\ Matches ic r w.
Proof.
  intros H. cbn [run] in H.
  apply run_consumes in H as (st1 & w & Hk & Hrest & Hm & _).
  exists st1, w. split; [|exact Hm].
  unfold consumed in Hk. rewrite Hrest in Hk.
  rewrite length_append, Nat.add_sub, substring_prefix in Hk. exact Hk.
Qed.

Lemma everyChar_complete (c : ascii) : In c everyChar.
Proof.
  unfold everyChar. rewrite <- (ascii_nat_embedding c).
  apply in_map, in_seq. pose proof (nat_ascii_bounded c). lia.
Qed.

Lemma charEq_lower (a c : ascii) :
  charEq true a c = true -> lowerChar c = lowerChar a.
Proof.
  assert (H : forallb (fun a => forallb (fun c =>
                implb (charEq true a c)
                      (Ascii.eqb (lowerChar c) (lowerChar a)))
                everyChar) everyChar = true)
    by (vm_compute; reflexivity).
  rewrite forallb_forall in H.
  specialize (H a (everyChar_complete a)).
  rewrite forallb_forall in H.
  specialize (H c (everyChar_complete c)).
  intros Heq. rewrite Heq in H. now apply Ascii.eqb_eq in H.
Qed.

Lemma strEq_lower (s w : string) :
  strEq true s w = true -> toLowerCase w = toLowerCase s.
Proof.
  revert w. induction s as [|a s IH]; intros [|c w] H;
    try discriminate; [reflexivity|].
  cbn [strEq] in H. apply andb_true_iff in H as [Hc Hw].
  cbn [toLowerCase]. now rewrite (charEq_lower a c Hc), (IH w Hw).
Qed.

(** A case-insensitive alternative of lower-case keywords consumes a case
    variant of one of them. *)
Lemma strs_lower (kws : list string) (w : string) :
  Forall (fun s => toLowerCase s = s) kws ->
  Matches true (strs kws) w -> In (toLowerCase w) kws.
Proof.
  unfold strs. induction 1 as [|s kws Hs Hall IH]; intros Hm.
  - cbn in Hm. inversion Hm as [| | | | |items c Hc| | | | | | | | | | | | | |];
      subst.
    assert (H : forallb (classHas true [Range "000"%char "255"%char])
                  everyChar = true) by (vm_compute; reflexivity).
    rewrite forallb_forall in H.
    rewrite (H c (everyChar_complete c)) in Hc. discriminate.
  - destruct kws as [|s' kws].
    + cbn in Hm. inversion Hm; subst. left.
      now rewrite (strEq_lower s w), Hs.
    + change (alts (map Str (s :: s' :: kws)))
        with (Alt (Str s) (alts (map Str (s' :: kws)))) in Hm.
      inversion Hm; subst.
      * match goal with Hs' : Matches _ (Str _) _ |- _ =>
          inversion Hs'; subst end.
        left. now rewrite (strEq_lower s w), Hs.
      * right. now apply IH.
Qed.

End MatcherSoundness.

(** ** The change type of a pull request *)

Section ChangeType.
Import JSString Regex IntentAnalyzer Language Conventional Intents.

(** The first group of a matching title is a case variant of one of the
    ten keywords. *)
Lemma reTitle_type_word (prTitle : string) (titleMatch : Captures) :
  Regex.exec true reTitle prTitle = Some titleMatch ->
  exists w, capture 1 titleMatch = Some w
            /\ In (toLowerCase w) typeKeywords.
Proof.
  unfold Regex.exec. intros H.
  apply searchFrom_run in H as (st & H).
  unfold reTitle, seqs in H. cbn [fold_right] in H.
  apply run_after_Bol in H.
  match type of H with
  | run _ (Seq (Group 1 ?X) ?T) _ ?k = _ =>
      change (run true (Group 1 X) st (fun st' => run true T st' k)
              = Some titleMatch) in H
  end.
  apply run_group_word in H as (st1 & w & H & Hw).
  apply run_consumes in H as (st2 & w2 & Hk & _ & _ & Hcap).
  injection Hk as <-.
  exists w. split.
  - rewrite (Hcap 1%nat eq_refl). reflexivity.
  - apply strs_lower; [|exact Hw].
    repeat constructor.
Qed.

Lemma applyType_prType (i : PRIntent) : prType (applyType i) = prType i.
Proof.
  unfold applyType.
  repeat match goal with
         | |- context [if ?b then _ else _] => destruct b
         end; reflexivity.
Qed.

Lemma flagsFollowType_extends (before after : PRIntent) :
  extends before after -> flagsFollowType before -> flagsFollowType after.
Proof.
  unfold extends, flagsFollowType.
  intros (-> & _ & _ & -> & -> & -> & -> & -> & _) H. exact H.
Qed.

(** The change type of a pull request is one of the ten keywords of the
    title grammar, in lower case, or [general] when the title does not
    follow the grammar; labels never change it.  The expectation flags are
    a function of the type alone: tests for feat and fix, documentation for
    feat, large diffs for refactor, benchmarks for perf, and code checks
    skipped for docs. *)
Theorem analyzePRIntent_type (prTitle prBody : string)
    (labels : list Label) :
  exists intent,
    analyzePRIntent prTitle prBody labels = Normal intent
    /\ (Regex.exec true reTitle prTitle = None -> prType intent = "general")
    /\ (Regex.exec true reTitle prTitle <> None ->
        In (prType intent) typeKeywords)
    /\ flagsFollowType intent.
Proof.
  unfold analyzePRIntent, applyTitle.
  destruct (Regex.exec true reTitle prTitle) as [titleMatch|] eqn:E.
  - destruct (reTitle_type_word prTitle titleMatch E) as (w & -> & Hin).
    cbn [bindC]. eexists. split; [reflexivity|].
    pose proof (labels_extend labels
      (applyType
         (setDescription (capture 3 titleMatch)
            (setScope (capture 2 titleMatch)
               (setType (toLowerCase w) (initialIntent prTitle))))))
      as Hext.
    split; [discriminate|]. split.
    + intros _. destruct Hext as (-> & _).
      rewrite applyType_prType. exact Hin.
    + eapply flagsFollowType_extends; [exact Hext|].
      unfold typeKeywords in Hin. cbn [In] in Hin.
      repeat (destruct Hin as [<-|Hin];
              [unfold flagsFollowType; cbn; auto 6|]).
      contradiction.
  - cbn [bindC]. eexists. split; [reflexivity|].
    pose proof (labels_extend labels (initialIntent prTitle)) as Hext.
    split; [|split].
    + intros _. now destruct Hext as (-> & _).
    + intros Hne. now contradiction Hne.
    + eapply flagsFollowType_extends; [exact Hext|].
      unfold flagsFollowType. cbn. auto 6.
Qed.

End ChangeType.

(** ** Diffs: what the parser records *)

Section DiffFacts.
Import JSString Regex Language Diffs.

Lemma run_seq_tail (ic : bool) (a b : Regex.t) (st : MState)
    (k : MState -> option Captures) (c : Captures) :
  run ic (Seq a b) st k = Some c ->
  exists st', run ic b st' k = Some c.
Proof.
  intros H. cbn [run] in H.
  apply run_consumes in H as (st' & w & Hk & _). eauto.
Qed.

(** A group followed by a tail that does not mention it: the match keeps
    the word the group consumed. *)
Lemma group_then_tail (ic : bool) (n : nat) (r tail : Regex.t)
    (st : MState) (c : Captures) :
  run ic (Seq (Group n r) tail) st (fun st' => Some (caps st')) = Some c ->
  mentions n tail = false ->
  exists w, capture n c = Some w /\ Matches ic r w.
Proof.
  intros H Htail.
  change (run ic (Group n r) st
            (fun st' => run ic tail st' (fun st' => Some (caps st')))
          = Some c) in H.
  apply run_group_word in H as (st1 & w & H & Hw).
  apply run_consumes in H as (st2 & w2 & Hk & _ & _ & Hcap).
  injection Hk as <-. exists w. split; [|exact Hw].
  rewrite (Hcap n Htail). cbn [caps capture]. now rewrite Nat.eqb_refl.
Qed.

Lemma reHunk_captures (l : string) (m : Captures) :
  Regex.exec false reHunk l = Some m ->
  exists w1 w2,
    capture 1 m = Some w1 /\ capture 2 m = Some w2
    /\ Matches false (Plus (Class [Digit])) w1
    /\ Matches false (Plus (Class [Digit])) w2.
Proof.
  unfold Regex.exec. intros H. apply searchFrom_run in H as (st & H).
  unfold reHunk, seqs in H. cbn [fold_right] in H.
  apply run_seq_tail in H as (st1 & H).
  destruct (group_then_tail _ _ _ _ _ _ H eq_refl) as (w1 & Hc1 & Hw1).
  apply run_seq_tail in H as (st2 & H).
  apply run_seq_tail in H as (st3 & H).
  apply run_seq_tail in H as (st4 & H).
  apply run_seq_tail in H as (st5 & H).
  destruct (group_then_tail _ _ _ _ _ _ H eq_refl) as (w2 & Hc2 & Hw2).
  eauto 10.
Qed.

Lemma rePath_captured (l : string) (m : Captures) :
  Regex.exec false rePath l = Some m -> capture 1 m <> None.
Proof.
  unfold Regex.exec. intros H. apply searchFrom_run in H as (st & H).
  unfold rePath, seqs in H. cbn [fold_right] in H.
  apply run_seq_tail in H as (st1 & H).
  destruct (group_then_tail _ _ _ _ _ _ H eq_refl) as (w & -> & _).
  discriminate.
Qed.

Lemma class_digit (w : string) :
  Matches false (Class [Digit]) w -> exists c, w = chr c /\ isDigit c = true.
Proof.
  inversion 1 as [| | | |items c Hc| | | | | | | | | | | | | | |]; subst.
  exists c. split; [reflexivity|].
  cbn in Hc. now rewrite orb_false_r in Hc.
Qed.

Lemma star_digits (w : string) :
  Matches false (Star (Class [Digit])) w -> allDigits w = true.
Proof.
  intros H. remember (Star (Class [Digit])) as r eqn:Er.
  induction H; try discriminate; [reflexivity|].
  injection Er as ->.
  apply class_digit in H as (c & -> & Hc).
  change (chr c +:+ w2) with (String c w2). cbn [allDigits].
  rewrite Hc. now apply IHMatches2.
Qed.

Lemma plus_digits (w : string) :
  Matches false (Plus (Class [Digit])) w ->
  exists c w', w = String c w' /\ allDigits w = true.
Proof.
  inversion 1 as [| | | | | | | | | | |r w1 w2 H1 H2| | | | | | | |]; subst.
  apply class_digit in H1 as (c & -> & Hc). apply star_digits in H2.
  exists c, w2. change (chr c +:+ w2) with (String c w2).
  split; [reflexivity|]. cbn [allDigits]. now rewrite Hc, H2.
Qed.

Lemma digitValue_nonneg (c : ascii) : isDigit c = true -> 0 <= digitValue c.
Proof.
  unfold isDigit, inRange, digitValue. intros H.
  apply andb_true_iff in H as [H _]. apply N.leb_le in H. lia.
Qed.

Lemma decimal_nonneg (s : string) : allDigits s = true -> 0 <= decimal s.
Proof.
  unfold decimal.
  assert (H : forall acc, allDigits s = true -> 0 <= acc ->
            0 <= fold_left (fun acc c => 10 * acc + digitValue c)
                   (list_ascii_of_string s) acc).
  { induction s as [|c s IH]; intros acc H Hacc; [exact Hacc|].
    cbn [allDigits] in H. apply andb_true_iff in H as [Hc Hs].
    cbn [list_ascii_of_string fold_left]. apply IH; [exact Hs|].
    pose proof (digitValue_nonneg c Hc). lia. }
  intros Hs. apply H; [exact Hs|lia].
Qed.

Lemma parseInt_digits (w : string) :
  Matches false (Plus (Class [Digit])) w ->
  exists n, parseInt (Some w) = Num n /\ 0 <= n.
Proof.
  intros H. apply plus_digits in H as (c & w' & -> & Hd).
  unfold parseInt. rewrite Hd. eexists. split; [reflexivity|].
  now apply decimal_nonneg.
Qed.

Lemma allHunks_app (fs : list DiffFile) (f : DiffFile) :
  allHunks (fs ++ [f]) = allHunks fs ++ hunks f.
Proof.
  unfold allHunks. rewrite flat_map_app. cbn [flat_map].
  now rewrite app_nil_r.
Qed.

(** One step of the loop keeps a property of the hunks that holds of a
    freshly opened hunk and survives the recording of a change. *)
Lemma parseLine_hunks (HP : Hunk -> Prop) (st : State) (l : string) :
  (forall m, Regex.exec false reHunk l = Some m ->
     HP (mkHunk (parseInt (capture 1 m)) (parseInt (capture 2 m)) [])) ->
  (forall h, recorded l = true -> HP h -> HP (addChange l h)) ->
  List.Forall HP (allHunks (pushCurrent st)) ->
  List.Forall HP (allHunks (pushCurrent (parseLine st l))).
Proof.
  intros Hnew Hadd Hst. unfold parseLine.
  destruct (startsWith l "diff --git").
  { unfold pushCurrent at 1. cbn [currentFile files].
    rewrite allHunks_app. cbn [hunks]. now rewrite app_nil_r. }
  destruct (startsWith l "+++") eqn:Eppp.
  { destruct (Regex.exec false rePath l) as [m|]; [|exact Hst].
    destruct (currentFile st) as [f|] eqn:Ef; [|exact Hst].
    revert Hst. unfold pushCurrent. rewrite Ef. cbn [currentFile files].
    rewrite !allHunks_app. auto. }
  destruct (startsWith l "@@").
  { destruct (Regex.exec false reHunk l) as [m|] eqn:Em; [|exact Hst].
    destruct (currentFile st) as [f|] eqn:Ef; [|exact Hst].
    revert Hst. unfold pushCurrent. rewrite Ef. cbn [currentFile files].
    rewrite !allHunks_app. cbn [hunks].
    rewrite !List.Forall_app. intros [H1 H2].
    repeat split; auto using List.Forall_nil. }
  destruct (currentHunk st) as [ix|]; [|exact Hst].
  destruct (startsWith l "+" || startsWith l "-" || startsWith l " ")
    eqn:Erec; [|exact Hst].
  revert Hst. unfold pushCurrent.
  destruct (currentFile st) as [f|]; cbn [currentFile files option_map];
    [|auto].
  rewrite !allHunks_app. cbn [hunks].
  rewrite !List.Forall_app. intros [H1 H2]. split; [exact H1|].
  apply Forall_alter; [exact H2|]. intros h _. apply Hadd.
  unfold recorded. now rewrite Eppp, Erec.
Qed.

Lemma fold_hunks (HP : Hunk -> Prop) (ls : list string) :
  forall st,
    (forall l m, In l ls -> Regex.exec false reHunk l = Some m ->
       HP (mkHunk (parseInt (capture 1 m)) (parseInt (capture 2 m)) [])) ->
    (forall l h, In l ls -> recorded l = true -> HP h ->
       HP (addChange l h)) ->
    List.Forall HP (allHunks (pushCurrent st)) ->
    List.Forall HP (allHunks (pushCurrent (fold_left parseLine ls st))).
Proof.
  induction ls as [|l ls IH]; intros st Hnew Hadd Hst; [exact Hst|].
  cbn [fold_left]. apply IH.
  - intros l' m Hin. apply Hnew. now apply in_cons.
  - intros l' h Hin. apply Hadd. now apply in_cons.
  - apply parseLine_hunks; [| |exact Hst].
    + intros m. apply Hnew. apply in_eq.
    + intros h. apply Hadd. apply in_eq.
Qed.

Lemma parseDiff_hunks (HP : Hunk -> Prop) (diffContent : string) :
  (forall l m, In l (split newline diffContent) ->
     Regex.exec false reHunk l = Some m ->
     HP (mkHunk (parseInt (capture 1 m)) (parseInt (capture 2 m)) [])) ->
  (forall l h, In l (split newline diffContent) -> recorded l = true ->
     HP h -> HP (addChange l h)) ->
  List.Forall HP (allHunks (parseDiff diffContent)).
Proof.
  intros Hnew Hadd. unfold parseDiff.
  apply fold_hunks; [exact Hnew|exact Hadd|constructor].
Qed.

Lemma parseLine_count (st : State) (l : string) :
  length (pushCurrent (parseLine st l))
  = (length (pushCurrent st) + (if isHeader l then 1 else 0))%nat.
Proof.
  unfold parseLine, isHeader.
  destruct (startsWith l "diff --git").
  { unfold pushCurrent at 1. cbn [currentFile files].
    now rewrite length_app. }
  rewrite Nat.add_0_r.
  destruct (startsWith l "+++").
  { destruct (Regex.exec false rePath l) as [m|]; [|reflexivity].
    unfold pushCurrent.
    destruct (currentFile st) as [f|] eqn:Ef; cbn [currentFile files];
      rewrite ?Ef; [|reflexivity].
    now rewrite !length_app. }
  destruct (startsWith l "@@").
  { destruct (Regex.exec false reHunk l) as [m|]; [|reflexivity].
    unfold pushCurrent.
    destruct (currentFile st) as [f|] eqn:Ef; cbn [currentFile files];
      rewrite ?Ef; [|reflexivity].
    now rewrite !length_app. }
  destruct (currentHunk st) as [ix|]; [|reflexivity].
  destruct (startsWith l "+" || startsWith l "-" || startsWith l " ");
    [|reflexivity].
  unfold pushCurrent.
  destruct (currentFile st) as [f|]; cbn [currentFile files option_map];
    [|reflexivity].
  now rewrite !length_app.
Qed.

Lemma fold_count (ls : list string) :
  forall st,
    length (pushCurrent (fold_left parseLine ls st))
    = (length (pushCurrent st) + length (List.filter isHeader ls))%nat.
Proof.
  induction ls as [|l ls IH]; intros st; cbn [fold_left List.filter].
  - now rewrite Nat.add_0_r.
  - rewrite IH, parseLine_count.
    destruct (isHeader l); cbn [length]; lia.
Qed.

(** The parser opens one file per line that starts with [diff --git], and
    nothing else opens one.  A diff without such a line, as the patch of a
    single file is (hunk headers and changes only), yields no file at all,
    and [getChangedLines] an object without properties. *)
Theorem parseDiff_one_file_per_header (diffContent : string) :
  length (parseDiff diffContent)
  = length (List.filter isHeader (split newline diffContent))
  /\ (List.filter isHeader (split newline diffContent) = [] ->
      parseDiff diffContent = [] /\ getChangedLines diffContent = ∅).
Proof.
  assert (Hlen : length (parseDiff diffContent)
                 = length (List.filter isHeader (split newline diffContent)))
    by (unfold parseDiff; now rewrite fold_count).
  split; [exact Hlen|].
  intros Hnone. rewrite Hnone in Hlen.
  assert (Hnil : parseDiff diffContent = [])
    by (destruct (parseDiff diffContent); [reflexivity|discriminate]).
  split; [exact Hnil|].
  unfold getChangedLines. now rewrite Hnil.
Qed.

Lemma addChange_starts (l : string) (h : Hunk) :
  oldStart (addChange l h) = oldStart h
  /\ newStart (addChange l h) = newStart h.
Proof. destruct l; auto. Qed.

Lemma newStart_number (diffContent : string) :
  List.Forall (fun h => exists n, newStart h = Num n)
    (allHunks (parseDiff diffContent)).
Proof.
  apply parseDiff_hunks.
  - intros l m _ Hm.
    apply reHunk_captures in Hm as (w1 & w2 & _ & -> & _ & Hw2).
    apply parseInt_digits in Hw2 as (n & Hn & _).
    exists n. exact Hn.
  - intros l h _ _ (n & Hn).
    destruct (addChange_starts l h) as [_ En].
    exists n. now rewrite En.
Qed.

(** Every hunk starts at natural numbers: as long as the starts stay in
    the range where numbers are exact (up to 2^53), neither start of a
    recorded hunk is NaN or negative.  The path pattern never leaves the
    path undefined. *)
Theorem hunk_starts_natural (diffContent : string) :
  List.Forall exactStarts (allHunks (parseDiff diffContent)) ->
  List.Forall naturalStarts (allHunks (parseDiff diffContent))
  /\ (forall l m, Regex.exec false rePath l = Some m ->
        capture 1 m <> None).
Proof.
  intros _. split; [|apply rePath_captured].
  apply parseDiff_hunks.
  - intros l m _ Hm.
    apply reHunk_captures in Hm as (w1 & w2 & -> & -> & Hw1 & Hw2).
    apply parseInt_digits in Hw1 as (o & Ho & Hopos).
    apply parseInt_digits in Hw2 as (n & Hn & Hnpos).
    exists o, n. cbn [oldStart newStart]. auto.
  - intros l h _ _ (o & n & Ho & Hn & Hopos & Hnpos).
    destruct (addChange_starts l h) as [Eo En].
    exists o, n. rewrite Eo, En. auto.
Qed.

(** Every recorded change is a line of the diff that starts with [+], [-]
    or a blank and not with [+++]: an added line whose own text starts
    with [++] is taken for a path line and never recorded. *)
Theorem changes_are_diff_lines (diffContent : string) :
  List.Forall (fun c =>
      In (sourceLine c) (split newline diffContent)
      /\ recorded (sourceLine c) = true)
    (allChanges (parseDiff diffContent)).
Proof.
  unfold allChanges. apply List.Forall_flat_map.
  apply parseDiff_hunks.
  - intros. constructor.
  - intros l h Hin Hrec Hh. destruct l as [|c l']; [exact Hh|].
    cbn [addChange changes]. apply List.Forall_app. split; [exact Hh|].
    constructor; [|constructor]. cbn [sourceLine changeType changeContent].
    auto.
Qed.

Lemma add_zero (n : JSNum) : JSNumber.add n (Num 0) = n.
Proof. destruct n as [|z]; cbn; [reflexivity|]. f_equal. lia. Qed.

Lemma hunkLines_app (cs : list Change) (c : Change) :
  forall n,
    hunkLines n (cs ++ [c])
    = hunkLines n cs
      ++ (if isAddition c
          then [mkDiffLine
                  (JSNumber.add n
                     (Num (Z.of_nat
                        (length (List.filter (fun c => negb (isRemoval c))
                                   cs)))))
                  (changeContent c)]
          else []).
Proof.
  induction cs as [|a cs IH]; intros n.
  - cbn [app hunkLines List.filter length Z.of_nat].
    rewrite add_zero. now rewrite app_nil_r.
  - cbn [app hunkLines List.filter]. rewrite IH, <- app_assoc.
    f_equal. f_equal.
    destruct (isRemoval a); cbn [negb length]; [reflexivity|].
    destruct (isAddition c); [|reflexivity].
    do 2 f_equal. destruct n as [|z]; cbn [JSNumber.add]; [reflexivity|].
    f_equal. lia.
Qed.

Lemma addChange_numbered (l : string) (h : Hunk) :
  hunkLines (newStart h) (changes h) = recordedAdditions h ->
  hunkLines (newStart (addChange l h)) (changes (addChange l h))
  = recordedAdditions (addChange l h).
Proof.
  intros Hh. destruct l as [|c l']; [exact Hh|].
  cbn [addChange newStart changes]. rewrite hunkLines_app, Hh.
  unfold recordedAdditions. cbn [changes].
  rewrite List.filter_app, map_app. f_equal.
  cbn [List.filter]. unfold isAddition. cbn [changeType].
  destruct (Ascii.eqb c "+"); reflexivity.
Qed.

Lemma increasingFrom_weaken (lo lo' : Z) (ls : list DiffLine) :
  lo' <= lo -> increasingFrom lo ls -> increasingFrom lo' ls.
Proof.
  destruct ls as [|l ls]; cbn [increasingFrom]; [auto|].
  intros Hle (z & Hz & Hlo & Hrest). exists z. repeat split; auto. lia.
Qed.

Lemma hunkLines_increasing (cs : list Change) :
  forall n, increasingFrom n (hunkLines (Num n) cs).
Proof.
  induction cs as [|a cs IH]; intros n; cbn [hunkLines]; [exact I|].
  destruct (isAddition a) eqn:Ea; cbn [app].
  - exists n. split; [reflexivity|]. split; [lia|].
    destruct (isRemoval a) eqn:Er.
    + unfold isAddition in Ea. unfold isRemoval in Er.
      apply Ascii.eqb_eq in Ea. apply Ascii.eqb_eq in Er.
      rewrite Ea in Er. discriminate.
    + cbn [JSNumber.add]. apply IH.
  - destruct (isRemoval a); [apply IH|].
    cbn [JSNumber.add]. eapply increasingFrom_weaken; [|apply IH]. lia.
Qed.

Lemma flat_map_agree {A B : Type} (f g : A -> list B) (l : list A) :
  (forall x, In x l -> f x = g x) -> flat_map f l = flat_map g l.
Proof.
  induction l as [|x l IH]; intros H; [reflexivity|].
  cbn [flat_map]. rewrite (H x (in_eq x l)), IH; [reflexivity|].
  intros y Hy. apply H. now apply in_cons.
Qed.

Lemma changedLines_lookup (fs : list DiffFile) :
  forall (m : gmap string (list DiffLine)) (p : string)
         (ls : list DiffLine),
    fold_left (fun changedLines f =>
      if String.eqb (path f) "__proto__" then changedLines
      else <[path f := fileLines f]> changedLines) fs m !! p = Some ls ->
    (exists f, In f fs /\ path f = p /\ ls = fileLines f)
    \/ m !! p = Some ls.
Proof.
  induction fs as [|f fs IH]; intros m p ls H; cbn [fold_left] in H;
    [now right|].
  apply IH in H as [(g & Hin & Hp & Hls)|H].
  - left. exists g. split; [now apply in_cons|auto].
  - destruct (String.eqb (path f) "__proto__"); [now right|].
    destruct (decide (path f = p)) as [Heq|Hne].
    + rewrite <- Heq, lookup_insert_eq in H. injection H as <-.
      left. exists f. split; [apply in_eq|auto].
    + rewrite lookup_insert_ne in H by exact Hne. now right.
Qed.

(** Within the range where doubles count by one, the two numberings agree:
    the numbers [getChangedLines] counts out for the added lines of a hunk
    are the ones [parseDiff] recorded for them, they start no lower than
    the hunk and increase strictly.  What [getChangedLines] holds for a
    path is read off one parsed file of that path in this way. *)
Theorem changed_lines_numbering (diffContent : string) :
  List.Forall exactHunk (allHunks (parseDiff diffContent)) ->
  List.Forall (fun h =>
      hunkLines (newStart h) (changes h) = recordedAdditions h
      /\ exists n, newStart h = Num n
                   /\ increasingFrom n (recordedAdditions h))
    (allHunks (parseDiff diffContent))
  /\ (forall p ls,
        getChangedLines diffContent !! p = Some ls ->
        exists f, In f (parseDiff diffContent) /\ path f = p
                  /\ ls = flat_map recordedAdditions (hunks f)).
Proof.
  intros _.
  assert (Hnum : List.Forall (fun h =>
            hunkLines (newStart h) (changes h) = recordedAdditions h)
            (allHunks (parseDiff diffContent))).
  { apply parseDiff_hunks; [reflexivity|].
    intros l h _ _. apply addChange_numbered. }
  split.
  - pose proof (newStart_number diffContent) as Hnat.
    rewrite List.Forall_forall in *. intros h Hin.
    split; [now apply Hnum|].
    destruct (Hnat h Hin) as (n & Hn).
    exists n. split; [exact Hn|].
    rewrite <- (Hnum h Hin), Hn. apply hunkLines_increasing.
  - intros p ls H. unfold getChangedLines in H.
    apply changedLines_lookup in H as [(f & Hin & Hp & Hls)|H];
      [|rewrite lookup_empty in H; discriminate].
    exists f. split; [exact Hin|]. split; [exact Hp|].
    rewrite Hls. unfold fileLines.
    apply flat_map_agree. intros h Hh.
    rewrite List.Forall_forall in Hnum. apply Hnum.
    unfold allHunks. apply in_flat_map. eauto.
Qed.

End DiffFacts.

Section DiffWitness.
Import JSString Diffs DiffScenarios.

Lemma hunk_starts_natural_witness :
  List.Forall exactStarts (allHunks (parseDiff sampleDiff))
  /\ List.Forall naturalStarts (allHunks (parseDiff sampleDiff)).
Proof.
  assert (H : List.Forall exactStarts (allHunks (parseDiff sampleDiff))).
  { remember (allHunks (parseDiff sampleDiff)) as hs eqn:E.
    vm_compute in E. subst hs.
    constructor; [|constructor]. unfold exactStarts, exactNumber. cbn. lia. }
  split; [exact H|exact (proj1 (hunk_starts_natural sampleDiff H))].
Defined.

Lemma changed_lines_numbering_witness :
  List.Forall exactHunk (allHunks (parseDiff sampleDiff))
  /\ List.Forall (fun h =>
         hunkLines (newStart h) (changes h) = recordedAdditions h
         /\ exists n, newStart h = Num n
                      /\ increasingFrom n (recordedAdditions h))
       (allHunks (parseDiff sampleDiff)).
Proof.
  assert (H : List.Forall exactHunk (allHunks (parseDiff sampleDiff))).
  { remember (allHunks (parseDiff sampleDiff)) as hs eqn:E.
    vm_compute in E. subst hs.
    constructor; [|constructor]. unfold exactHunk. cbn. lia. }
  split; [exact H|exact (proj1 (changed_lines_numbering sampleDiff H))].
Defined.

End DiffWitness.

(** ** Language sections that no file reaches *)

Section LanguageSectionFacts.
Import JSString CodeAnalyzer LanguageSections.

Lemma lookup_value (key : string) (table : list (string * string))
    (v : string) :
  Utils.lookup key table = Some v -> In v (map snd table).
Proof.
  induction table as [|[k w] table IH]; [discriminate|].
  cbn [Utils.lookup map snd In].
  destruct (String.eqb k key); [intros [= ->]; now left|auto].
Qed.

Lemma detectLanguage_names (filename language : string) :
  Utils.detectLanguage filename = Some language ->
  reachableName language = true.
Proof.
  assert (Hall : forallb reachableName languageNames = true)
    by (vm_compute; reflexivity).
  rewrite forallb_forall in Hall.
  unfold Utils.detectLanguage.
  destruct (Utils.lookup _ Utils.languageMap) as [lang|] eqn:E.
  - intros [= <-]. apply Hall. unfold languageNames.
    apply in_or_app. left. eapply lookup_value, E.
  - destruct (arrIncludes Utils.inheritedKeys _); [discriminate|].
    intros [= <-]. apply Hall. unfold languageNames.
    apply in_or_app. right. apply in_eq.
Qed.

(** Rules filed under a language heading that is not one of the names
    [detectLanguage] returns are never used: with or without them the
    analysis of every file is the same.  The names are single lower-case
    words, so a combined heading such as [javascript/typescript] is out of
    reach of every file. *)
Theorem unreachable_language_section (instructions : Instructions)
    (key : string) (rules : list Rule) (file : File)
    (changedLinesList : list ChangedLine) :
  arrIncludes languageNames key = false ->
  analyzeFile (new (withLanguageRules key rules instructions)) file
    changedLinesList
  = analyzeFile (new instructions) file changedLinesList.
Proof.
  intros Hkey. unfold analyzeFile.
  destruct (Utils.detectLanguage (fileName file)) as [language|] eqn:E;
    [|reflexivity].
  apply detectLanguage_names in E. unfold reachableName in E.
  apply andb_true_iff in E as [Hin Hlow]. apply String.eqb_eq in Hlow.
  assert (Hne : key <> toLowerCase language).
  { intros ->. rewrite Hlow, Hin in Hkey. discriminate. }
  assert (Hrel : getRelevantInstructions
                   (new (withLanguageRules key rules instructions)) language
                 = getRelevantInstructions (new instructions) language).
  { unfold getRelevantInstructions, new, withLanguageRules.
    cbn [CodeAnalyzer.instructions categories languageSpecific].
    now rewrite lookup_insert_ne by exact Hne. }
  rewrite Hrel. reflexivity.
Qed.

Lemma unreachable_language_section_witness :
  analyzeFile
    (new (withLanguageRules "javascript/typescript"
            [Scenarios.consoleRule] (mkInstructions [] ∅ "")))
    (mkFile "a.js" "var x = 1") []
  = analyzeFile (new (mkInstructions [] ∅ "")) (mkFile "a.js" "var x = 1")
      [].
Proof.
  apply (unreachable_language_section (mkInstructions [] ∅ "")
           "javascript/typescript").
  vm_compute. reflexivity.
Defined.

End LanguageSectionFacts.

(** ** Rule bullets: from the parser to the analyzer *)

Section RuleFacts.
Import JSString Regex Language CodeAnalyzer InstructionsParser.

Lemma substring_all (s : string) :
  String.substring 0 (String.length s) s = s.
Proof.
  induction s as [|c s IH]; [reflexivity|].
  cbn [String.length String.substring]. now rewrite IH.
Qed.

Lemma substringFrom_append (w r : string) :
  substringFrom (String.length w) (w +:+ r) = r.
Proof.
  unfold substringFrom. rewrite length_append, Nat.add_comm, Nat.add_sub.
  induction w as [|c w IH]; [apply substring_all|].
  change (String c w +:+ r) with (String c (w +:+ r)).
  cbn [String.length String.substring]. exact IH.
Qed.

(** A pattern that opens with the start anchor matches at the start or
    not at all. *)
Lemma searchFrom_anchored_later (n : nat) (r : Regex.t) (s : string) :
  forall c, searchFrom false (Group n (Seq Bol r)) (Some c) s = None.
Proof.
  induction s as [|a s IH]; intros c; cbn [searchFrom run prev orElse];
    auto.
Qed.

Lemma searchFrom_anchored (n : nat) (r : Regex.t) (s : string)
    (m : Captures) :
  searchFrom false (Group n (Seq Bol r)) None s = Some m ->
  run false (Group n (Seq Bol r)) (mkMState s None [])
    (fun st => Some (caps st)) = Some m.
Proof.
  destruct s as [|a s]; cbn [searchFrom]; intros H;
    apply orElse_Some in H as [H|H]; auto; [discriminate|].
  now rewrite searchFrom_anchored_later in H.
Qed.

(** What [removeCheckbox] takes away is a checkbox, and what it leaves is
    the rest of the text. *)
Lemma removeCheckbox_suffix (ruleText : string) :
  exists w, ruleText = w +:+ removeCheckbox ruleText
            /\ (w = EmptyString \/ Matches false reCheckbox w).
Proof.
  unfold removeCheckbox, Regex.exec.
  destruct (searchFrom false (Group 0 reCheckbox) None ruleText)
    as [m|] eqn:E; [|exists EmptyString; auto].
  unfold reCheckbox, seqs in E. cbn [fold_right] in E.
  apply searchFrom_anchored in E. cbn [run] in E.
  fold (run false) in E.
  change (run false
            (Seq Bol (Seq (Chr "[") (Seq (Class [Lit " "; Lit "x"])
               (Seq (Chr "]") (Seq (Star (Class [Space])) Empty)))))
            (mkMState ruleText None [])
            (fun st' => Some (caps (mkMState (rest st') (prev st')
               ((0%nat, consumed (mkMState ruleText None []) st')
                :: caps st'))))
          = Some m) in E.
  apply run_consumes in E as (st' & w & Hk & Hrest & Hm & _).
  cbn [caps rest] in Hk, Hrest. injection Hk as <-.
  assert (Hw : consumed (mkMState ruleText None []) st' = w).
  { unfold consumed. cbn [rest]. rewrite Hrest.
    now rewrite length_append, Nat.add_sub, substring_prefix. }
  rewrite Hw. cbn [capture Nat.eqb].
  exists w. split; [|right; exact Hm].
  rewrite Hrest at 2. now rewrite substringFrom_append.
Qed.

Lemma existsb_includes (text : string) (phrases : list string)
    (phrase : string) :
  In phrase phrases -> includes text phrase = true ->
  existsb (fun p => includes text p) phrases = true.
Proof.
  intros Hin Hinc. apply existsb_exists. eauto.
Qed.

(** A bullet of the instructions, once parsed, carries the bullet text
    less a leading checkbox, and one of three severities; the word [must]
    makes it a critical pattern rule.  As a category rule it can raise a
    finding only if its text holds one of the pattern keywords and one of
    the three phrases the matcher looks for. *)
Theorem parsed_rule_fires (ruleText line language : string)
    (fileIntent : IntentAnalyzer.FileIntent) :
  let rule := parseRule ruleText in
  (exists w, ruleText = w +:+ text rule
             /\ (w = EmptyString \/ Matches false reCheckbox w))
  /\ In (ruleSeverity rule) ["critical"; "warning"; "info"]
  /\ (includes (toLowerCase (text rule)) "must" = true ->
      isPattern rule = true /\ ruleSeverity rule = "critical")
  /\ (applyInstructionRules line [rule] language fileIntent <> [] ->
      isPatternRule (text rule) = true
      /\ mentionsTrigger (text rule) = true).
Proof.
  cbn zeta. unfold parseRule. cbn [text isPattern ruleSeverity].
  set (cleanText := removeCheckbox ruleText).
  split; [apply removeCheckbox_suffix|]. split; [|split].
  - unfold determineSeverity.
    repeat match goal with
           | |- context [if ?b then _ else _] => destruct b
           end; cbn [In]; auto.
  - intros Hmust. split.
    + unfold isPatternRule. eapply existsb_includes; [|exact Hmust].
      unfold patternKeywords. cbn [In]. auto 10.
    + unfold determineSeverity. rewrite Hmust, !orb_true_r. reflexivity.
  - unfold applyInstructionRules. cbn [flat_map isPattern].
    destruct (isPatternRule cleanText); cbn [negb];
      [|intros H; now contradiction H].
    intros H. split; [reflexivity|].
    unfold mentionsTrigger, triggerPhrases. cbn [existsb].
    unfold matchRule in H. cbn [text] in H.
    destruct (includes (toLowerCase cleanText) "console.log");
      [reflexivity|].
    destruct (includes (toLowerCase cleanText) "print statement");
      [reflexivity|].
    destruct (includes (toLowerCase cleanText) "commented-out code");
      [reflexivity|].
    cbn in H. now contradiction H.
Qed.

(** The two bullets of the shipped team conventions that mention console
    output and commented-out code hold no pattern keyword: as category
    rules they never raise a finding. *)
Example shipped_conventions_never_fire (line language : string)
    (fileIntent : IntentAnalyzer.FileIntent) :
  applyInstructionRules line (map parseRule shippedConventions) language
    fileIntent = [].
Proof.
  assert (H : map isPattern (map parseRule shippedConventions)
              = [false; false]) by (vm_compute; reflexivity).
  unfold applyInstructionRules.
  destruct (map parseRule shippedConventions) as [|r1 [|r2 [|r3 rs]]];
    try discriminate.
  injection H as H1 H2. cbn [flat_map]. rewrite H1, H2. reflexivity.
Qed.

End RuleFacts.
